(** * A shallow embedding of the TypeScript analysis server

    The development follows the modules of the repository:
    [utils.ts] (syntax kinds, complexity, path validation),
    [analyzer.ts] (symbol extraction, file analysis, type hierarchy),
    [tools.ts] (the tool entry points and the code-smell detectors) and
    [cache.ts] (the analysis cache and its key generation).

    The parser and type checker (ts-morph) are external: an AST is a rose
    tree of nodes carrying what the checker reports for each node. *)

From Stdlib Require Import ZArith Lia Ascii String DecimalString.
From Stdlib Require Import Floats.SpecFloat.
From stdpp Require Import gmap strings list fin_maps sorting.

#[local] Set Warnings "-clear-no-such-hyp".

Local Open Scope Z_scope.

(** ** Syntax kinds and AST nodes *)

(** The syntax kinds the analysis code mentions, with [OtherKind] for the
    rest of the compiler's enumeration.  [SourceFileKind] and
    [ParameterDeclaration] are [SyntaxKind.SourceFile] and
    [SyntaxKind.Parameter]. *)
Inductive SyntaxKind :=
  | SourceFileKind | EndOfFileToken | Identifier | NumericLiteral | StringLiteral
  | ThisKeyword
  | ClassDeclaration | InterfaceDeclaration | EnumDeclaration
  | FunctionDeclaration | FunctionExpression | ArrowFunction
  | MethodDeclaration | MethodSignature
  | PropertyDeclaration | PropertySignature
  | VariableStatement | VariableDeclarationList | VariableDeclaration
  | ParameterDeclaration | TypeAliasDeclaration | ModuleDeclaration | NamespaceKeyword
  | GetAccessor | SetAccessor | Constructor
  | Block | ReturnStatement | ExpressionStatement
  | IfStatement | ForStatement | ForInStatement | ForOfStatement
  | WhileStatement | DoStatement | ConditionalExpression
  | TryStatement | CatchClause | SwitchStatement | CaseBlock | CaseClause
  | DefaultClause
  | BinaryExpression | CallExpression | PropertyAccessExpression
  | ImportDeclaration | ImportClause | NamedImports | ImportSpecifier
  | HeritageClause | ExpressionWithTypeArguments | TypeParameter
  | ExtendsKeyword | ImplementsKeyword
  | EqualsToken | PlusEqualsToken | PlusToken | MinusToken | AsteriskToken
  | LessThanEqualsToken | GreaterThanToken
  | AmpersandAmpersandToken | BarBarToken | QuestionQuestionToken
  | PublicKeyword | PrivateKeyword | ProtectedKeyword | StaticKeyword
  | AsyncKeyword | ReadonlyKeyword | AbstractKeyword | DeclareKeyword
  | OtherKind (n : nat).

#[global] Instance SyntaxKind_eq_dec : EqDecision SyntaxKind.
Proof. solve_decision. Defined.
Arguments SyntaxKind_eq_dec : simpl never.

(** What the checker and the source file report for one node:
    [node.getSymbol()?.getName()], the handle and the text of
    [node.getType()], the JSDoc tags of the symbol (for each tag its name
    and the text that [tag.getText()] becomes inside a template literal),
    [node.getText()], the token of a heritage clause, whether the node is
    ambient or in an ambient context (a [declare] modifier on the node or
    around it, or a declaration file), the file path, and the 1-based line
    and column of [getStart()] and [getEnd()]. *)
Record NodeInfo := {
  symbolName : option string;
  getType : nat;
  typeText : string;
  jsDocTags : list (string * string);
  getText : string;
  getToken : option SyntaxKind;
  inAmbientContext : bool;
  filePath : string;
  startLine : Z;
  startColumn : Z;
  endLine : Z;
  endColumn : Z
}.

(** A node with its children in [forEachChild] order. *)
#[warnings="-register-all"]
Inductive Node := MkNode {
  getKind : SyntaxKind;
  getInfo : NodeInfo;
  forEachChild : list Node
}.

(** [node.forEachDescendant(cb)]: every node strictly below [node], in
    depth-first pre-order. *)
Fixpoint descendants (n : Node) : list Node :=
  match n with
  | MkNode _ _ cs =>
      (fix go (l : list Node) : list Node :=
         match l with
         | [] => []
         | c :: l' => c :: descendants c ++ go l'
         end) cs
  end.

Definition descendantsOfList (l : list Node) : list Node :=
  flat_map (fun c => c :: descendants c) l.

(** A node together with its position in the tree: the frames above it,
    innermost first.  A frame is the parent without the child in focus:
    its kind, its information, and the children to the left and to the
    right of the focus. *)
Record Frame := {
  parentKind : SyntaxKind;
  parentInfo : NodeInfo;
  leftSiblings : list Node;
  rightSiblings : list Node
}.

Record NodeRef := {
  focus : Node;
  above : list Frame
}.

Definition plug (child : Node) (f : Frame) : Node :=
  MkNode (parentKind f) (parentInfo f)
    (leftSiblings f ++ child :: rightSiblings f).

(** [node.getParent()] *)
Definition getParent (r : NodeRef) : option Node :=
  match above r with
  | [] => None
  | f :: _ => Some (plug (focus r) f)
  end.

(** [node.getSourceFile()]: the root of the tree the node is in. *)
Definition getSourceFile (r : NodeRef) : Node :=
  fold_left plug (above r) (focus r).

(** The descendants of a node with their positions, in the order of
    [forEachDescendant]. *)
Fixpoint descendantRefs (n : Node) (frames : list Frame) : list NodeRef :=
  match n with
  | MkNode k i cs =>
      (fix go (lefts l : list Node) : list NodeRef :=
         match l with
         | [] => []
         | c :: rights =>
             let frames' :=
               {| parentKind := k; parentInfo := i;
                  leftSiblings := lefts; rightSiblings := rights |} :: frames in
             {| focus := c; above := frames' |}
               :: descendantRefs c frames' ++ go (lefts ++ [c]) rights
         end) [] cs
  end.

(** [node.getFirstDescendantByKind(kind)] *)
Definition getFirstDescendantByKind (r : NodeRef) (k : SyntaxKind)
  : option NodeRef :=
  List.find (fun d => bool_decide (getKind (focus d) = k))
    (descendantRefs (focus r) (above r)).

(** The operator token of a binary expression: its children are the left
    operand, the operator token and the right operand. *)
Definition getOperatorToken (n : Node) : option Node := forEachChild n !! 1%nat.

(** [node.hasModifier(kind)]: the modifier keywords are children of the
    declaration. *)
Definition hasModifier (node : Node) (k : SyntaxKind) : bool :=
  existsb (fun c => bool_decide (getKind c = k)) (forEachChild node).

(** [node.isImplementation()]: the declaration has a body, which is the
    block among its children. *)
Definition isImplementation (node : Node) : bool :=
  existsb (fun c => bool_decide (getKind c = Block)) (forEachChild node).

(** [sourceFile.getFunctions()]: the function declarations among the
    statements of the file that are ambient or have a body; the overload
    signatures of a function are not listed. *)
Definition getFunctions (sourceFile : Node) : list Node :=
  List.filter
    (fun f => inAmbientContext (getInfo f) || isImplementation f)
    (filter (fun c => getKind c = FunctionDeclaration) (forEachChild sourceFile)).

(** [sourceFile.getClasses()]: the class declarations among the
    statements of the file. *)
Definition getClasses (sourceFile : Node) : list Node :=
  filter (fun c => getKind c = ClassDeclaration) (forEachChild sourceFile).

(** The members ts-morph lists for a class: in a class that is not
    ambient, a method or constructor without a body is listed only when
    it is an abstract method. *)
Definition isListedMember (cls member : Node) : bool :=
  inAmbientContext (getInfo cls)
  || negb (bool_decide (getKind member = MethodDeclaration)
           || bool_decide (getKind member = Constructor))
  || (bool_decide (getKind member = MethodDeclaration)
      && hasModifier member AbstractKeyword)
  || isImplementation member.

(** [cls.getMethods()]: the method declarations among the listed
    members. *)
Definition getMethods (cls : Node) : list Node :=
  List.filter (isListedMember cls)
    (filter (fun c => getKind c = MethodDeclaration) (forEachChild cls)).

Definition getStartLineNumber (node : Node) : Z := startLine (getInfo node).
Definition getEndLineNumber (node : Node) : Z := endLine (getInfo node).
Definition getFilePath (node : Node) : string := filePath (getInfo node).

(** ** The data model (types.ts) *)

Record Position := { line : Z; character : Z }.

Record Location := {
  file : string;
  position : Position;
  endPosition : option Position
}.

Inductive SymbolKind :=
  | KClass | KInterface | KEnum | KFunction | KMethod | KProperty
  | KVariable | KParameter | KType | KNamespace | KModule.

Inductive ErrorCode :=
  | FILE_NOT_FOUND | PARSE_ERROR | TIMEOUT | MEMORY_LIMIT | INVALID_PATTERN
  | SCOPE_ERROR.

(** An [AnalysisError]: its code, its message and the file of its details. *)
Record AnalysisError := {
  code : ErrorCode;
  errorMessage : string;
  errorFile : string
}.

Inductive CodeSmellCategory :=
  | Complexity | Duplication | Coupling | Naming | UnusedCode | AsyncIssues.

Inductive Severity := Low | Medium | High.

#[global] Instance Position_eq_dec : EqDecision Position.
Proof. solve_decision. Defined.
#[global] Instance Location_eq_dec : EqDecision Location.
Proof. solve_decision. Defined.
#[global] Instance SymbolKind_eq_dec : EqDecision SymbolKind.
Proof. solve_decision. Defined.
#[global] Instance ErrorCode_eq_dec : EqDecision ErrorCode.
Proof. solve_decision. Defined.
#[global] Instance CodeSmellCategory_eq_dec : EqDecision CodeSmellCategory.
Proof. solve_decision. Defined.
#[global] Instance Severity_eq_dec : EqDecision Severity.
Proof. solve_decision. Defined.

Definition newline : string := String "010"%char "".

(** ** JavaScript numbers

    The numbers of the model are integers: an integer stands for the
    double of the same value, which is exact for the safe integers, those
    of an absolute value below [2^53]. *)
Definition isSafeInteger (z : Z) : Prop := - 2 ^ 53 < z < 2 ^ 53.

(** JavaScript's conversion of a number to a string, for a safe integer:
    its decimal numeral. *)
Definition numberToString (z : Z) : string :=
  NilZero.string_of_int (Z.to_int z).

(** A quotient or a product that need not be an integer is computed on
    doubles (binary64, rounding to nearest even). *)
Definition toDouble (z : Z) : spec_float := binary_normalize 53 1024 z 0 false.
Definition doubleDiv (x y : spec_float) : spec_float := SFdiv 53 1024 x y.
Definition doubleMul (x y : spec_float) : spec_float := SFmul 53 1024 x y.

(** [Math.floor(x)] as an integer; [None] for [NaN] and the infinities,
    which [Math.floor] returns as they are. *)
Definition floorOfDouble (x : spec_float) : option Z :=
  match x with
  | S754_zero _ => Some 0
  | S754_finite s m e =>
      let v := if s then Z.neg m else Z.pos m in
      Some (if (0 <=? e)%Z then v * 2 ^ e else v / 2 ^ (- e))
  | _ => None
  end.

(** [s.substring(0, Math.floor(x))]: the end is taken as 0 when it is
    [NaN] or negative, and as the length of [s] when it is beyond it. *)
Definition substringToFloor (x : spec_float) (s : string) : string :=
  match x with
  | S754_infinity false => s
  | _ => String.substring 0 (Z.to_nat (default 0 (floorOfDouble x))) s
  end.

(** ** utils.ts *)

Module Utils.

(** The test of the [if] inside [getNodeComplexity]. *)
Definition countsTowardsComplexity (kind : SyntaxKind) : bool :=
  bool_decide (kind = IfStatement) ||
  bool_decide (kind = ForStatement) ||
  bool_decide (kind = ForInStatement) ||
  bool_decide (kind = ForOfStatement) ||
  bool_decide (kind = WhileStatement) ||
  bool_decide (kind = DoStatement) ||
  bool_decide (kind = ConditionalExpression) ||
  bool_decide (kind = CatchClause) ||
  bool_decide (kind = CaseClause) ||
  bool_decide (kind = BinaryExpression).

(** [getNodeComplexity]: the counter starts at 1 and the callback of
    [forEachDescendant] increments it at every counted kind. *)
Definition getNodeComplexity (node : Node) : Z :=
  fold_left
    (fun complexity child =>
       if countsTowardsComplexity (getKind child) then complexity + 1
       else complexity)
    (descendants node) 1.

(** The kinds listed in that test, as a list. *)
Definition countedKinds : list SyntaxKind :=
  [IfStatement; ForStatement; ForInStatement; ForOfStatement; WhileStatement;
   DoStatement; ConditionalExpression; CatchClause; CaseClause;
   BinaryExpression].

Definition countedNodes (l : list Node) : list Node :=
  filter (fun c => getKind c ∈ countedKinds) l.

(** What one node adds to the count. *)
Definition counted1 (c : Node) : nat :=
  if decide (getKind c ∈ countedKinds) then 1%nat else 0%nat.

(** The branching constructs as the specification lists them: the binary
    expressions that count are the logical ones ([&&], [||], [??]). *)
Definition isLogicalOperator (k : SyntaxKind) : bool :=
  bool_decide (k ∈ [AmpersandAmpersandToken; BarBarToken; QuestionQuestionToken]).

Definition isBranchingConstruct (n : Node) : bool :=
  bool_decide (getKind n ∈
    [IfStatement; ConditionalExpression; ForStatement; ForInStatement;
     ForOfStatement; WhileStatement; DoStatement; CatchClause; CaseClause])
  || (bool_decide (getKind n = BinaryExpression) &&
      match getOperatorToken n with
      | Some op => isLogicalOperator (getKind op)
      | None => false
      end).

Definition specComplexity (node : Node) : Z :=
  1 + Z.of_nat (length (filter (fun c => Is_true (isBranchingConstruct c))
                          (descendants node))).

(** [after] is [before] with the statement [s] added as a new child
    somewhere in the tree. *)
Inductive AddedStatement (s : Node) : Node -> Node -> Prop :=
  | added_here k i l1 l2 :
      AddedStatement s (MkNode k i (l1 ++ l2)) (MkNode k i (l1 ++ s :: l2))
  | added_below k i l1 l2 c c' :
      AddedStatement s c c' ->
      AddedStatement s (MkNode k i (l1 ++ c :: l2)) (MkNode k i (l1 ++ c' :: l2)).

(** [nodeToLocation]: 0-based line and character of the node's start and
    end. *)
Definition nodeToLocation (node : Node) : Location :=
  let i := getInfo node in
  {| file := filePath i;
     position := {| line := startLine i - 1; character := startColumn i - 1 |};
     endPosition :=
       Some {| line := endLine i - 1; character := endColumn i - 1 |} |}.

(** [getSymbolKind] *)
Definition getSymbolKind (node : Node) : SymbolKind :=
  match getKind node with
  | ClassDeclaration => KClass
  | InterfaceDeclaration => KInterface
  | EnumDeclaration => KEnum
  | FunctionDeclaration | FunctionExpression | ArrowFunction => KFunction
  | MethodDeclaration | MethodSignature => KMethod
  | PropertyDeclaration | PropertySignature => KProperty
  | VariableDeclaration => KVariable
  | ParameterDeclaration => KParameter
  | TypeAliasDeclaration => KType
  | ModuleDeclaration => KModule
  | NamespaceKeyword => KNamespace
  | _ => KVariable
  end.

(** [getTypeString]: the text of the type, elided beyond 100 characters. *)
Definition getTypeString (typeText : string) : string :=
  if (100 <? Z.of_nat (String.length typeText))%Z
  then String.substring 0 97 typeText +:+ "..."
  else typeText.

(** *** Paths (POSIX [path] module) *)

(** [s.split(sep)] for a one-character separator. *)
Fixpoint splitOn (sep : ascii) (s : string) : list string :=
  match s with
  | EmptyString => [EmptyString]
  | String c rest =>
      let parts := splitOn sep rest in
      if bool_decide (c = sep) then EmptyString :: parts
      else match parts with
           | p :: ps => String c p :: ps
           | [] => [String c EmptyString]
           end
  end.

(** [parts.join(sep)] *)
Fixpoint joinPath (parts : list string) : string :=
  match parts with
  | [] => ""
  | [p] => p
  | p :: rest => p +:+ "/" +:+ joinPath rest
  end.

Definition isAbsolute (p : string) : bool := String.prefix "/" p.

Definition endsWithSlash (p : string) : bool :=
  match last (splitOn "/" p) with
  | Some "" => bool_decide (p <> "")
  | _ => false
  end.

(** One step of [normalizeString]: empty and [.] segments are dropped,
    [..] removes the previous segment when there is one that is not
    itself [..], and is kept only when going above the root is allowed. *)
Definition normalizeStep (allowAboveRoot : bool) (res : list string)
    (seg : string) : list string :=
  if bool_decide (seg = "") || bool_decide (seg = ".") then res
  else if bool_decide (seg = "..") then
    match last res with
    | Some l =>
        if bool_decide (l = "..") then
          (if allowAboveRoot then res ++ [".."] else res)
        else removelast res
    | None => if allowAboveRoot then res ++ [".."] else res
    end
  else res ++ [seg].

Definition normalizeSegments (allowAboveRoot : bool) (segs : list string)
  : list string :=
  fold_left (normalizeStep allowAboveRoot) segs [].

(** Vocabulary for reasoning about normalisation: a string without a
    slash, a proper name (neither empty nor [.] nor [..]), a non-empty
    segment, and normalisation started from given segments. *)
Fixpoint noSlash (s : string) : Prop :=
  match s with
  | EmptyString => True
  | String c rest => c <> "/"%char /\ noSlash rest
  end.

Definition isName (s : string) : Prop := s <> "" /\ s <> "." /\ s <> "..".

Definition isSegment (s : string) : Prop := s <> "" /\ noSlash s.

Definition N (b : bool) (acc segs : list string) : list string :=
  fold_left (normalizeStep b) segs acc.

(** [path.normalize] *)
Definition normalize (p : string) : string :=
  if bool_decide (p = "") then "."
  else
    let path := joinPath (normalizeSegments (negb (isAbsolute p)) (splitOn "/" p)) in
    if bool_decide (path = "") then
      if isAbsolute p then "/" else if endsWithSlash p then "./" else "."
    else
      let path := if endsWithSlash p then path +:+ "/" else path in
      if isAbsolute p then "/" +:+ path else path.

(** The segments of [path.resolve(p)] when the working directory is
    [cwd]: an absolute [p] stands alone, a relative one is appended to
    [cwd]. *)
Definition resolveSegments (cwd p : string) : list string :=
  normalizeSegments false
    (if isAbsolute p then splitOn "/" p
     else splitOn "/" cwd ++ splitOn "/" p).

(** The two lists without their longest common prefix. *)
Fixpoint stripCommon (from to : list string) : list string * list string :=
  match from, to with
  | f :: from', t :: to' =>
      if bool_decide (f = t) then stripCommon from' to' else (from, to)
  | _, _ => (from, to)
  end.

(** [path.relative(from, to)]: one [..] for every segment of [from] below
    the common prefix, then what is left of [to]. *)
Definition relative (cwd from to : string) : string :=
  let '(up, down) :=
    stripCommon (resolveSegments cwd from) (resolveSegments cwd to) in
  joinPath (replicate (length up) ".." ++ down).

(** *** Glob matching (minimatch) for patterns made of literal segments
    and [**] *)

Inductive PatternPart := Globstar | Literal (s : string).

Definition parsePattern (pattern : string) : list PatternPart :=
  map (fun part => if bool_decide (part = "**") then Globstar else Literal part)
    (splitOn "/" pattern).

(** A segment [**] will not swallow: [.], [..] and dot files. *)
Definition isDotSegment (seg : string) : bool := String.prefix "." seg.

(** [matchOne]: the segment-by-segment match. *)
Fixpoint matchOne (pattern : list PatternPart) (file : list string) : bool :=
  match pattern with
  | [] =>
      match file with
      | [] => true
      | [f] => bool_decide (f = "")
      | _ => false
      end
  | Literal s :: pattern' =>
      match file with
      | f :: file' => bool_decide (f = s) && matchOne pattern' file'
      | [] => false
      end
  | Globstar :: pattern' =>
      match pattern' with
      | [] =>
          match file with
          | [] => false
          | _ => forallb (fun f => negb (isDotSegment f)) file
          end
      | _ =>
          (fix swallow (file : list string) : bool :=
             match file with
             | [] => false
             | f :: file' =>
                 matchOne pattern' file
                 || (negb (isDotSegment f) && swallow file')
             end) file
      end
  end.

Definition minimatch (p pattern : string) : bool :=
  matchOne (parsePattern pattern) (splitOn "/" p).

(** *** Scope validation *)

Definition excludePatterns : list string :=
  ["**/node_modules/**"; "**/.git/**"; "**/dist/**"; "**/build/**"].

(** [validatePath]: [inl e] is the thrown error, [inr tt] a normal
    return. *)
Definition validatePath (cwd filePath : string) : AnalysisError + unit :=
  let normalizedPath := normalize filePath in
  let relativePath := relative cwd cwd normalizedPath in
  if String.prefix ".." relativePath then
    inl {| code := SCOPE_ERROR;
           errorMessage := "Path is outside allowed scope";
           errorFile := filePath |}
  else if existsb (fun pattern => minimatch normalizedPath pattern) excludePatterns
  then
    inl {| code := SCOPE_ERROR;
           errorMessage := "Path matches excluded pattern";
           errorFile := filePath |}
  else inr tt.

(** A path resolves outside the working directory when the segments of
    the working directory are not a prefix of its resolved segments. *)
Definition resolvesOutside (cwd p : string) : Prop :=
  ~ (resolveSegments cwd cwd `prefix_of` resolveSegments cwd p).

Definition outsideScope (filePath : string) : AnalysisError :=
  {| code := SCOPE_ERROR;
     errorMessage := "Path is outside allowed scope";
     errorFile := filePath |}.

(** The directory names behind the exclusion patterns, and the error
    thrown for a path that matches one. *)
Definition excludedDirectories : list string :=
  ["node_modules"; ".git"; "dist"; "build"].

Definition excludedByPattern (filePath : string) : AnalysisError :=
  {| code := SCOPE_ERROR;
     errorMessage := "Path matches excluded pattern";
     errorFile := filePath |}.

(** A file or directory name: a proper name without a slash. *)
Definition isFileName (s : string) : Prop := isName s /\ noSlash s.

(** *** The scope of a search *)

Record ScopeOptions := {
  includeFiles : option (list string);
  excludeFiles : option (list string);
  fileTypes : option (list string)
}.

(** [matchesScope].  The scope patterns are the caller's and may use any
    glob syntax, so the matcher is taken as given, and so is [path.extname];
    a list that is present is truthy even when it is empty. *)
Definition matchesScope (extname : string -> string)
    (matcher : string -> string -> bool)
    (filePath : string) (scope : option ScopeOptions) : bool :=
  match scope with
  | None => true
  | Some scope =>
      let wrongType :=
        match fileTypes scope with
        | Some types => negb (bool_decide (extname filePath ∈ types))
        | None => false
        end in
      if wrongType then false
      else
        let excluded :=
          match excludeFiles scope with
          | Some patterns => existsb (fun pattern => matcher filePath pattern) patterns
          | None => false
          end in
        if excluded then false
        else
          match includeFiles scope with
          | Some patterns => existsb (fun pattern => matcher filePath pattern) patterns
          | None => true
          end
  end.

End Utils.

(** ** analyzer.ts *)

Module Analyzer.
Import Utils.

Record SymbolReference := {
  refName : string;
  refLocation : Location;
  refKind : SymbolKind
}.

Record Relationships := {
  extends : option (list SymbolReference);
  implements : option (list SymbolReference)
}.

Record SymbolInfo := {
  name : string;
  kind : SymbolKind;
  type : string;
  documentation : option string;
  modifiers : option (list string);
  location : Location;
  relationships : option Relationships
}.

(** [Node.isModifierable]: the kinds of declaration that carry a modifier
    list. *)
Definition isModifierable (node : Node) : bool :=
  bool_decide (getKind node ∈
    [ClassDeclaration; InterfaceDeclaration; EnumDeclaration;
     FunctionDeclaration; FunctionExpression; ArrowFunction;
     MethodDeclaration; PropertyDeclaration; PropertySignature;
     GetAccessor; SetAccessor; Constructor; ParameterDeclaration;
     TypeAliasDeclaration; ModuleDeclaration; VariableStatement;
     VariableDeclarationList]).

Definition getHeritageClauses (node : Node) : list Node :=
  filter (fun c => getKind c = HeritageClause) (forEachChild node).

(** The type nodes of a heritage clause are its children. *)
Definition getTypeNodes (clause : Node) : list Node := forEachChild clause.

(** [cls.getImplements()]: the type nodes of the implements clause. *)
Definition getImplements (node : Node) : list Node :=
  match List.find (fun h => bool_decide (getToken (getInfo h) = Some ImplementsKeyword))
          (getHeritageClauses node) with
  | Some clause => getTypeNodes clause
  | None => []
  end.

(** [extractRelationships] *)
Definition extractRelationships (node : Node) : option Relationships :=
  let isClass := bool_decide (getKind node = ClassDeclaration) in
  let isInterface := bool_decide (getKind node = InterfaceDeclaration) in
  let ext :=
    if isClass || isInterface then
      match List.find (fun h => bool_decide (getToken (getInfo h) = Some ExtendsKeyword))
              (getHeritageClauses node) with
      | Some extendsClause =>
          let extendsNodes := getTypeNodes extendsClause in
          if (0 <? Z.of_nat (length extendsNodes))%Z then
            Some (map (fun expr =>
                         {| refName := getText (getInfo expr);
                            refLocation := nodeToLocation expr;
                            refKind := KClass |}) extendsNodes)
          else None
      | None => None
      end
    else None in
  let impl :=
    if isClass then
      let implementsNodes := getImplements node in
      if (0 <? Z.of_nat (length implementsNodes))%Z then
        Some (map (fun expr =>
                     {| refName := getText (getInfo expr);
                        refLocation := nodeToLocation expr;
                        refKind := KInterface |}) implementsNodes)
      else None
    else None in
  match ext, impl with
  | None, None => None
  | _, _ => Some {| extends := ext; implements := impl |}
  end.

(** The modifier names pushed, in order, by [extractSymbolInfo]. *)
Definition modifierKeywords : list (SyntaxKind * string) :=
  [(PublicKeyword, "public"); (PrivateKeyword, "private");
   (ProtectedKeyword, "protected"); (StaticKeyword, "static");
   (AsyncKeyword, "async"); (ReadonlyKeyword, "readonly");
   (AbstractKeyword, "abstract")].

Definition joinWith (sep : string) (l : list string) : string :=
  match l with
  | [] => ""
  | x :: rest => fold_left (fun acc y => acc +:+ sep +:+ y) rest x
  end.

(** [extractSymbolInfo]: [None] is the [null] result.  In the line of a
    JSDoc tag the test [tag.getText() ? ... : ""] is made on an array,
    which is truthy also when it is empty, so the space after the tag name
    is always there. *)
Definition extractSymbolInfo (node : Node) (includePrivate : bool)
  : option SymbolInfo :=
  match symbolName (getInfo node) with
  | None => None
  | Some name =>
      if negb includePrivate && String.prefix "_" name then None
      else
        let kind := getSymbolKind node in
        let type := typeText (getInfo node) in
        let modifiers :=
          if isModifierable node then
            map snd (List.filter (fun m => hasModifier node (fst m)) modifierKeywords)
          else [] in
        let documentation :=
          joinWith newline
            (map (fun tag => "@" +:+ fst tag +:+ " " +:+ snd tag)
               (jsDocTags (getInfo node))) in
        Some {| name := name;
                kind := kind;
                type := getTypeString type;
                documentation :=
                  if bool_decide (documentation = "") then None
                  else Some documentation;
                modifiers :=
                  if (0 <? Z.of_nat (length modifiers))%Z then Some modifiers
                  else None;
                location := nodeToLocation node;
                relationships := extractRelationships node |}
  end.

(** [isDeclarationNode] *)
Definition isDeclarationNode (node : Node) : bool :=
  bool_decide (getKind node = ClassDeclaration) ||
  bool_decide (getKind node = InterfaceDeclaration) ||
  bool_decide (getKind node = FunctionDeclaration) ||
  bool_decide (getKind node = VariableDeclaration) ||
  bool_decide (getKind node = TypeAliasDeclaration) ||
  bool_decide (getKind node = EnumDeclaration) ||
  bool_decide (getKind node = MethodDeclaration) ||
  bool_decide (getKind node = PropertyDeclaration) ||
  bool_decide (getKind node = GetAccessor) ||
  bool_decide (getKind node = SetAccessor).

(** *** Source files *)

(** What ts-morph reports for an import declaration. *)
Record ImportDeclarationInfo := {
  moduleSpecifierValue : string;
  namedImports : list string;
  defaultImport : option string;
  namespaceImport : option string;
  importIsTypeOnly : bool;
  importNode : Node
}.

Inductive DiagnosticCategory := CatWarning | CatError | CatSuggestion | CatMessage.

(** A pre-emit diagnostic: message text, category, line number, start
    offset with the column it falls on, and code. *)
Record RawDiagnostic := {
  messageText : string;
  category : DiagnosticCategory;
  lineNumber : option Z;
  diagStart : option (Z * Z);
  diagCode : option Z
}.

(** A loaded source file: the AST and what the project reports for the
    file as a whole. *)
Record SourceFile := {
  root : Node;
  importDeclarations : list ImportDeclarationInfo;
  exportDeclarations : list (list string);
  exportedDeclarations : list string;
  preEmitDiagnostics : list RawDiagnostic;
  fullText : string
}.

Record ImportInfo := {
  moduleSpecifier : string;
  importedSymbols : list string;
  isTypeOnly : bool;
  importLocation : Location
}.

Inductive DiagnosticSeverity := SevError | SevWarning | SevInfo.

Record Diagnostic := {
  diagMessage : string;
  diagSeverity : DiagnosticSeverity;
  diagLocation : Location;
  diagCodeText : option string
}.

Inductive AnalysisType := Symbols | Dependencies | ComplexityOnly | All.

#[global] Instance AnalysisType_eq_dec : EqDecision AnalysisType.
Proof. solve_decision. Defined.

Record FileAnalysis := {
  symbols : list SymbolInfo;
  diagnostics : list Diagnostic;
  imports : list ImportInfo;
  exports : list string;
  complexity : Z
}.

(** [getDiagnosticSeverity] *)
Definition getDiagnosticSeverity (c : DiagnosticCategory) : DiagnosticSeverity :=
  match c with
  | CatError => SevError
  | CatWarning => SevWarning
  | _ => SevInfo
  end.

Definition optionToList {A} (o : option A) : list A :=
  match o with Some x => [x] | None => [] end.

(** [analyzeSourceFile] *)
Definition analyzeSourceFile (sourceFile : SourceFile)
    (analysisType : AnalysisType) (depth : Z) (includePrivate : bool)
  : FileAnalysis :=
  let symbols :=
    if bool_decide (analysisType = Symbols) || bool_decide (analysisType = All)
    then
      fold_left
        (fun symbols node =>
           if isDeclarationNode node then
             match extractSymbolInfo node includePrivate with
             | Some symbolInfo => symbols ++ [symbolInfo]
             | None => symbols
             end
           else symbols)
        (descendants (root sourceFile)) []
    else [] in
  let deps :=
    bool_decide (analysisType = Dependencies) || bool_decide (analysisType = All) in
  let imports :=
    if deps then
      fold_left
        (fun imports importDecl =>
           let allImports :=
             optionToList (defaultImport importDecl)
             ++ optionToList (namespaceImport importDecl)
             ++ namedImports importDecl in
           if (0 <? Z.of_nat (length allImports))%Z then
             imports ++
               [{| moduleSpecifier := moduleSpecifierValue importDecl;
                   importedSymbols := allImports;
                   isTypeOnly := importIsTypeOnly importDecl;
                   importLocation := nodeToLocation (importNode importDecl) |}]
           else imports)
        (importDeclarations sourceFile) []
    else [] in
  let exports :=
    if deps then
      fold_left (fun exports namedExports => exports ++ namedExports)
        (exportDeclarations sourceFile) []
      ++ exportedDeclarations sourceFile
    else [] in
  let totalComplexity :=
    if bool_decide (analysisType = ComplexityOnly) || bool_decide (analysisType = All)
    then
      let afterFunctions :=
        fold_left (fun total func => total + getNodeComplexity func)
          (getFunctions (root sourceFile)) 0 in
      fold_left
        (fun total cls =>
           fold_left (fun total method => total + getNodeComplexity method)
             (getMethods cls) total)
        (getClasses (root sourceFile)) afterFunctions
    else 0 in
  let diagnostics :=
    map (fun diag =>
           {| diagMessage := messageText diag;
              diagSeverity := getDiagnosticSeverity (category diag);
              diagLocation :=
                {| file := getFilePath (root sourceFile);
                   position :=
                     {| line := match lineNumber diag with
                                | Some l => if (l =? 0)%Z then 0 else l - 1
                                | None => 0
                                end;
                        character := match diagStart diag with
                                     | Some (start, column) =>
                                         if (start =? 0)%Z then 0 else column - 1
                                     | None => 0
                                     end |};
                   endPosition := None |};
              diagCodeText := numberToString <$> diagCode diag |})
      (preEmitDiagnostics sourceFile) in
  {| symbols := symbols;
     diagnostics := diagnostics;
     imports := imports;
     exports := exports;
     complexity := totalComplexity |}.

(** *** Type hierarchy *)

(** The checker's types form a graph that may be cyclic: a type is a
    handle, and the checker gives each handle its symbol (name and
    declarations) and its base types. *)
Record TypeSymbol := {
  typeName : string;
  declarations : list Node
}.

Record TypeRecord := {
  getSymbol : option TypeSymbol;
  getBaseTypes : list nat
}.

Inductive TypeKind := TClass | TInterface | TEnum | TType.

Record TypeInfo := {
  tiName : string;
  tiKind : TypeKind;
  tiLocation : Location;
  generics : option (list string)
}.

Inductive Direction := Ancestors | Descendants | Both.

#[global] Instance Direction_eq_dec : EqDecision Direction.
Proof. solve_decision. Defined.

(** [getTypeKind] *)
Definition getTypeKind (node : Node) : TypeKind :=
  if bool_decide (getKind node = ClassDeclaration) then TClass
  else if bool_decide (getKind node = InterfaceDeclaration) then TInterface
  else if bool_decide (getKind node = EnumDeclaration) then TEnum
  else TType.

Definition isTypeParametered (node : Node) : bool :=
  bool_decide (getKind node ∈
    [ClassDeclaration; InterfaceDeclaration; FunctionDeclaration;
     FunctionExpression; ArrowFunction; MethodDeclaration; MethodSignature;
     TypeAliasDeclaration; Constructor; GetAccessor; SetAccessor]).

Definition getTypeParameters (node : Node) : list Node :=
  filter (fun c => getKind c = TypeParameter) (forEachChild node).

(** [p.getName()] for a type parameter: the text of its name node, the
    identifier among its children (a constraint or a default is a type
    node). *)
Definition getTypeParameterName (p : Node) : string :=
  match List.find (fun c => bool_decide (getKind c = Identifier)) (forEachChild p) with
  | Some nameNode => getText (getInfo nameNode)
  | None => ""
  end.

(** [getGenericParameters] *)
Definition getGenericParameters (node : Node) : option (list string) :=
  if negb (isTypeParametered node) then None
  else
    let params := getTypeParameters node in
    if bool_decide (length params = 0%nat) then None
    else Some (map getTypeParameterName params).

(** The two variables captured by the closure [processType]. *)
Record HierarchyState := {
  visited : gset string;
  hierarchy : list TypeInfo
}.

(** [array.forEach] with a callback that may run out of fuel. *)
Fixpoint forEachM {A S} (f : A -> S -> option S) (l : list A) (s : S)
  : option S :=
  match l with
  | [] => Some s
  | x :: l' =>
      match f x s with
      | Some s' => forEachM f l' s'
      | None => None
      end
  end.

(** [processType], the recursive closure of [getTypeHierarchy].  The
    recursion is not structural, so it runs on fuel: [None] means that
    the fuel ran out before the call returned. *)
Fixpoint processType (types : nat -> TypeRecord) (direction : Direction)
    (maxDepth : Z) (fuel : nat) (type : nat) (depth : Z) (st : HierarchyState)
  : option HierarchyState :=
  match fuel with
  | O => None
  | S fuel' =>
      if (depth >? maxDepth)%Z then Some st
      else
        match getSymbol (types type) with
        | None => Some st
        | Some symbol =>
            let name := typeName symbol in
            if decide (name ∈ visited st) then Some st
            else
              let visited' := visited st ∪ {[name]} in
              match declarations symbol with
              | [] => Some {| visited := visited'; hierarchy := hierarchy st |}
              | declaration :: _ =>
                  let typeInfo :=
                    {| tiName := name;
                       tiKind := getTypeKind declaration;
                       tiLocation := nodeToLocation declaration;
                       generics := getGenericParameters declaration |} in
                  let st1 :=
                    {| visited := visited';
                       hierarchy := hierarchy st ++ [typeInfo] |} in
                  if bool_decide (direction = Ancestors)
                     || bool_decide (direction = Both)
                  then
                    forEachM
                      (fun baseType st' =>
                         processType types direction maxDepth fuel'
                           baseType (depth + 1) st')
                      (getBaseTypes (types type)) st1
                  else Some st1
              end
        end
  end.

(** [getTypeHierarchy] *)
Definition getTypeHierarchy (types : nat -> TypeRecord) (fuel : nat)
    (node : Node) (direction : Direction) (maxDepth : Z)
  : option (list TypeInfo) :=
  hierarchy <$>
    processType types direction maxDepth fuel (getType (getInfo node)) 0
      {| visited := ∅; hierarchy := [] |}.

(** What every call keeps true: the names listed so far are distinct
    and all belong to the visited set. *)
Definition consistent (st : HierarchyState) : Prop :=
  NoDup (map tiName (hierarchy st))
  /\ forall n, n ∈ map tiName (hierarchy st) -> n ∈ visited st.

(** Fuel that lets [processType] return for the given depth bound. *)
Definition hierarchyFuel (maxDepth : Z) : nat := S (Z.to_nat (maxDepth + 1)).

(** *** Vocabulary of the properties *)

(** The modifier names [extractSymbolInfo] collects for a node. *)
Definition listedModifiers (node : Node) : list string :=
  if isModifierable node then
    map snd (List.filter (fun m => hasModifier node (fst m)) modifierKeywords)
  else [].

(** The declarations whose complexity [analyzeSourceFile] adds up: the
    top-level functions, then the methods of the top-level classes. *)
Definition measuredDeclarations (sourceFile : SourceFile) : list Node :=
  getFunctions (root sourceFile)
  ++ flat_map getMethods (getClasses (root sourceFile)).

(** The names an import declaration binds: the default import, the
    namespace import, then the named imports. *)
Definition boundNames (importDecl : ImportDeclarationInfo) : list string :=
  optionToList (defaultImport importDecl)
  ++ optionToList (namespaceImport importDecl)
  ++ namedImports importDecl.

(** [baseSteps types d t t']: the type [t'] is reached from [t] by going
    to a base type [d] times. *)
Inductive baseSteps (types : nat -> TypeRecord) : nat -> nat -> nat -> Prop :=
  | steps_none t : baseSteps types 0 t t
  | steps_base d t t' t'' :
      baseSteps types d t t' ->
      t'' ∈ getBaseTypes (types t') ->
      baseSteps types (S d) t t''.

(** The entry [processType] pushes for a type, given its symbol and the
    first declaration of the symbol. *)
Definition typeInfoOf (symbol : TypeSymbol) (declaration : Node) : TypeInfo :=
  {| tiName := typeName symbol;
     tiKind := getTypeKind declaration;
     tiLocation := nodeToLocation declaration;
     generics := getGenericParameters declaration |}.

(** An entry that stands for a type within the depth bound of the type
    [start]. *)
Definition withinDepth (types : nat -> TypeRecord) (direction : Direction)
    (maxDepth : Z) (start : nat) (entry : TypeInfo) : Prop :=
  exists d t symbol declaration rest,
    baseSteps types d start t
    /\ Z.of_nat d <= maxDepth
    /\ (direction = Descendants -> d = 0%nat)
    /\ getSymbol (types t) = Some symbol
    /\ declarations symbol = declaration :: rest
    /\ entry = typeInfoOf symbol declaration.

(** *** Members of a class or interface *)

(** What the checker reports for a property of a type: its name, its
    value declaration if it has one, and the text of its type at that
    declaration. *)
Record PropertySymbol := {
  propertyName : string;
  valueDeclaration : option Node;
  typeAtLocation : string
}.

(** What ts-morph reports for a declaration beyond the node information:
    the texts of its JSDoc comments, [getName()], the text of
    [getReturnType()], the texts of [getModifiers()], and the properties
    of a type handle. *)
Record DeclarationService := {
  getJsDocs : Node -> list string;
  getName : Node -> option string;
  getReturnType : Node -> string;
  getModifiers : Node -> list string;
  getProperties : nat -> list PropertySymbol
}.

Inductive MemberKind := MemberMethod | MemberProperty | MemberGetter | MemberSetter.

Inductive Visibility := Public | Private | Protected.

Record MemberInfo := {
  memberName : string;
  memberKind : MemberKind;
  visibility : Visibility;
  memberType : string;
  static : bool
}.

(** [extractMembers] *)
Definition extractMembers (d : DeclarationService) (node : Node) : list MemberInfo :=
  if bool_decide (getKind node = ClassDeclaration)
     || bool_decide (getKind node = InterfaceDeclaration)
  then
    omap
      (fun prop =>
         match valueDeclaration prop with
         | None => None
         | Some propDecl =>
             let kind :=
               if bool_decide (getKind propDecl = MethodDeclaration) then MemberMethod
               else if bool_decide (getKind propDecl = GetAccessor) then MemberGetter
               else if bool_decide (getKind propDecl = SetAccessor) then MemberSetter
               else MemberProperty in
             let visibility :=
               if isModifierable propDecl then
                 if hasModifier propDecl PrivateKeyword then Private
                 else if hasModifier propDecl ProtectedKeyword then Protected
                 else Public
               else Public in
             let isStatic :=
               if isModifierable propDecl then hasModifier propDecl StaticKeyword
               else false in
             Some {| memberName := propertyName prop;
                     memberKind := kind;
                     visibility := visibility;
                     memberType := getTypeString (typeAtLocation prop);
                     static := isStatic |}
         end)
      (getProperties d (getType (getInfo node)))
  else [].

End Analyzer.

(** ** tools.ts: the context extractors of extract_context *)

Module Context.
Import Utils Analyzer.

(** [node.getParent()], with the position of the parent. *)
Definition getParentRef (node : NodeRef) : option NodeRef :=
  match above node with
  | [] => None
  | f :: rest => Some {| focus := plug (focus node) f; above := rest |}
  end.

(** [node.getAncestors()]: the parent first, the source file last. *)
Fixpoint ancestorsFrom (n : Node) (frames : list Frame) : list Node :=
  match frames with
  | [] => []
  | f :: rest => plug n f :: ancestorsFrom (plug n f) rest
  end.

Definition getAncestors (node : NodeRef) : list Node :=
  ancestorsFrom (focus node) (above node).

(** The loop
    [while (n && !isTarget(n)) { n = n.getParent() || n; }]
    that looks for the enclosing declaration.  It runs on fuel: [None]
    means that the fuel ran out before the loop ended. *)
Fixpoint findEnclosing (isTarget : Node -> bool) (fuel : nat) (node : NodeRef)
  : option NodeRef :=
  match fuel with
  | O => None
  | S fuel' =>
      if isTarget (focus node) then Some node
      else findEnclosing isTarget fuel' (default node (getParentRef node))
  end.

Definition isFunctionLike (node : Node) : bool :=
  bool_decide (getKind node = FunctionDeclaration)
  || bool_decide (getKind node = MethodDeclaration)
  || bool_decide (getKind node = ArrowFunction).

Definition getParameters (node : Node) : list Node :=
  filter (fun c => getKind c = ParameterDeclaration) (forEachChild node).

(** A value inside a template literal. *)
Definition interpolate (value : option string) : string :=
  default "undefined" value.

(** [extractFunctionContext]; [None] means that the call does not
    return. *)
Definition extractFunctionContext (d : DeclarationService) (fuel : nat)
    (node : NodeRef) (includeTypes : bool) : option string :=
  match findEnclosing isFunctionLike fuel node with
  | None => None
  | Some funcNode =>
      let funcNode := focus funcNode in
      if isFunctionLike funcNode then
        let docs := getJsDocs d funcNode in
        let context :=
          if (0 <? Z.of_nat (length docs))%Z
          then joinWith newline docs +:+ newline else "" in
        let context := context +:+ getText (getInfo funcNode) in
        if includeTypes then
          let params := getParameters funcNode in
          let context :=
            if (0 <? Z.of_nat (length params))%Z then
              fold_left
                (fun context param =>
                   context +:+ "// " +:+ interpolate (getName d param) +:+ ": "
                   +:+ getTypeString (typeText (getInfo param)) +:+ newline)
                params
                (context +:+ newline +:+ newline +:+ "// Parameter types:"
                 +:+ newline)
            else context in
          Some (context +:+ "// Returns: "
                +:+ getTypeString (getReturnType d funcNode) +:+ newline)
        else Some context
      else Some ""
  end.

Definition isClass (node : Node) : bool :=
  bool_decide (getKind node = ClassDeclaration).

Definition getConstructors (cls : Node) : list Node :=
  List.filter (isListedMember cls)
    (filter (fun c => getKind c = Constructor) (forEachChild cls)).

Definition getPropertyDeclarations (cls : Node) : list Node :=
  filter (fun c => getKind c = PropertyDeclaration) (forEachChild cls).

(** [extractClassContext]; [None] means that the call does not return. *)
Definition extractClassContext (d : DeclarationService) (fuel : nat)
    (node : NodeRef) (includeTypes : bool) : option string :=
  match findEnclosing isClass fuel node with
  | None => None
  | Some classNode =>
      let classNode := focus classNode in
      if isClass classNode then
        let docs := getJsDocs d classNode in
        let context :=
          if (0 <? Z.of_nat (length docs))%Z
          then joinWith newline docs +:+ newline else "" in
        let declaration :=
          fold_left
            (fun declaration clause =>
               declaration +:+ " " +:+ getText (getInfo clause))
            (getHeritageClauses classNode)
            ("class " +:+
             match getName d classNode with
             | Some name => if bool_decide (name = "") then "Anonymous" else name
             | None => "Anonymous"
             end) in
        let context := context +:+ declaration +:+ " {" +:+ newline in
        let context :=
          fold_left
            (fun context ctor =>
               context +:+ "  "
               +:+ joinWith (newline +:+ "  ")
                     (splitOn "010" (getText (getInfo ctor)))
               +:+ newline +:+ newline)
            (getConstructors classNode) context in
        let properties := getPropertyDeclarations classNode in
        let context :=
          fold_left
            (fun context prop =>
               context +:+ "  " +:+ getText (getInfo prop) +:+ newline)
            properties context in
        let context :=
          if (0 <? Z.of_nat (length properties))%Z then context +:+ newline
          else context in
        let context :=
          fold_left
            (fun context method =>
               context +:+ "  " +:+ joinWith " " (getModifiers d method) +:+ " "
               +:+ interpolate (getName d method) +:+ "("
               +:+ joinWith ", "
                     (map (fun p => interpolate (getName d p)) (getParameters method))
               +:+ "): " +:+ getTypeString (getReturnType d method) +:+ newline)
            (getMethods classNode) context in
        let context := context +:+ "}" in
        if includeTypes then
          let members := extractMembers d classNode in
          if (0 <? Z.of_nat (length members))%Z then
            Some
              (fold_left
                 (fun context member =>
                    context +:+ "// "
                    +:+ match visibility member with
                        | Public => "public"
                        | Private => "private"
                        | Protected => "protected"
                        end
                    +:+ " " +:+ (if static member then "static " else "")
                    +:+ memberName member +:+ ": " +:+ memberType member
                    +:+ newline)
                 members
                 (context +:+ newline +:+ newline +:+ "// Members:" +:+ newline))
          else Some context
        else Some context
      else Some ""
  end.

End Context.

(** ** tools.ts *)

Module Tools.
Import Utils Analyzer Context.

(** *** Effects of a tool call *)

(** The observable steps of a call: reading a source file from disk
    ([project.addSourceFileAtPath]) and logging with [console.error]. *)
Inductive Event :=
  | ReadFile (path : string)
  | ConsoleError (text : string).

(** What a call can throw: an [AnalysisError] of the server, the
    project's own error for a file that is not there, or a plain [Error]
    with its message, such as a failed assertion of the compiler. *)
Inductive Thrown :=
  | ThrowAnalysisError (e : AnalysisError)
  | ThrowFileNotFound (path : string)
  | ThrowError (message : string).

(** A computation: the events it performed, in order, and then either
    what it threw or what it returned. *)
Definition M (A : Type) : Type := list Event * (Thrown + A).

Definition ret {A} (a : A) : M A := ([], inr a).
Definition throw {A} (e : Thrown) : M A := ([], inl e).
Definition emit (ev : Event) : M unit := ([ev], inr tt).

Definition bind {A B} (m : M A) (f : A -> M B) : M B :=
  match m with
  | (tr, inl e) => (tr, inl e)
  | (tr, inr a) => let '(tr', r) := f a in (tr ++ tr', r)
  end.

(** [try { m } catch (error) { handler(error) }] *)
Definition tryCatch {A} (m : M A) (handler : Thrown -> M A) : M A :=
  match m with
  | (tr, inl e) => let '(tr', r) := handler e in (tr ++ tr', r)
  | (tr, inr a) => (tr, inr a)
  end.

Notation "'let*' x ':=' m 'in' k" := (bind m (fun x => k))
  (at level 10, x name, m at level 100, k at level 200).
Notation "'run' m 'in' k" := (bind m (fun _ => k))
  (at level 10, m at level 100, k at level 200).

(** The process and its disk: the working directory, the source files
    that can be loaded, the files a project-wide glob finds, and the
    clock. *)
Record World := {
  cwd : string;
  files : gmap string SourceFile;
  projectFiles : list string;
  now : Z
}.

(** [validatePath] as a step of a tool. *)
Definition validatePathM (w : World) (filePath : string) : M unit :=
  match validatePath (cwd w) filePath with
  | inl e => throw (ThrowAnalysisError e)
  | inr tt => ret tt
  end.

(** [project.addSourceFileAtPath(path)]: the file is read; a missing file
    makes the project throw. *)
Definition addSourceFileAtPath (w : World) (path : string) : M SourceFile :=
  run emit (ReadFile path) in
  match files w !! path with
  | Some sourceFile => ret sourceFile
  | None => throw (ThrowFileNotFound path)
  end.

Definition describeThrown (e : Thrown) : string :=
  match e with
  | ThrowAnalysisError e => errorMessage e
  | ThrowFileNotFound path => "File not found: " +:+ path
  | ThrowError message => message
  end.

(** *** analyze_file *)

Inductive OutputFormat := Summary | Detailed | Full.

#[global] Instance OutputFormat_eq_dec : EqDecision OutputFormat.
Proof. solve_decision. Defined.

Record AnalyzeFileParams := {
  afFilePath : string;
  afAnalysisType : AnalysisType;
  afDepth : Z;
  afIncludePrivate : bool;
  afIncludeNodeModules : bool;
  afOutputFormat : OutputFormat
}.

Record FileSummary := {
  totalSymbols : Z;
  summaryComplexity : Z;
  dependencies : list string
}.

Record FileMetadata := {
  fileSize : Z;
  lastModified : Z;
  analysisTimeMs : Z
}.

Record AnalyzeFileResult := {
  summary : FileSummary;
  resultSymbols : option (list SymbolInfo);
  resultDiagnostics : option (list Diagnostic);
  metadata : FileMetadata
}.

(** [analyzeFile].  The memory check only clears caches and the timeout
    races an analysis that has already finished, so neither changes the
    result; the time stamp of the metadata is the clock reading. *)
Definition analyzeFile (w : World) (params : AnalyzeFileParams)
  : M AnalyzeFileResult :=
  run validatePathM w (afFilePath params) in
  let* sourceFile := addSourceFileAtPath w (afFilePath params) in
  let result :=
    analyzeSourceFile sourceFile (afAnalysisType params) (afDepth params)
      (afIncludePrivate params) in
  let fileSize := Z.of_nat (String.length (fullText sourceFile)) in
  let summary :=
    {| totalSymbols := Z.of_nat (length (symbols result));
       summaryComplexity := complexity result;
       dependencies := map moduleSpecifier (imports result) |} in
  let metadata :=
    {| fileSize := fileSize; lastModified := now w; analysisTimeMs := 0 |} in
  if bool_decide (afOutputFormat params = Summary) then
    ret {| summary := summary;
           resultSymbols := None;
           resultDiagnostics := None;
           metadata := metadata |}
  else
    ret {| summary := summary;
           resultSymbols :=
             Some (if bool_decide (afOutputFormat params = Full)
                   then symbols result
                   else take 10 (symbols result));
           resultDiagnostics := Some (diagnostics result);
           metadata := metadata |}.

(** *** Code smells: the complexity detector *)

Record Smell := {
  smellType : CodeSmellCategory;
  severity : Severity;
  smellLocation : Location;
  message : string;
  suggestion : option string
}.

(** The optional [threshold] parameter; each field is optional too. *)
Record Threshold := {
  thComplexity : option Z;
  thFileSize : option Z;
  thFunctionSize : option Z
}.

(** [value || fallback] on an optional number: a missing value and 0 are
    both falsy. *)
Definition orDefault (value : option Z) (fallback : Z) : Z :=
  match value with
  | Some v => if (v =? 0)%Z then fallback else v
  | None => fallback
  end.

Definition complexityThreshold (threshold : option Threshold) : Z :=
  orDefault (threshold ≫= thComplexity) 10.
Definition functionSizeThreshold (threshold : option Threshold) : Z :=
  orDefault (threshold ≫= thFunctionSize) 50.
Definition fileSizeThreshold (threshold : option Threshold) : Z :=
  orDefault (threshold ≫= thFileSize) 300.

(** The finding pushed for a function whose complexity is over the
    threshold. *)
Definition functionComplexitySmell (threshold : option Threshold) (func : Node)
  : Smell :=
  let complexity := getNodeComplexity func in
  {| smellType := Complexity;
     severity :=
       if (complexity >? complexityThreshold threshold * 2)%Z then High else Medium;
     smellLocation := nodeToLocation func;
     message :=
       "Function has cyclomatic complexity of " +:+ numberToString complexity;
     suggestion :=
       Some "Consider breaking this function into smaller, more focused functions" |}.

(** The callback of [sourceFile.getFunctions().forEach]. *)
Definition checkFunction (threshold : option Threshold) (smells : list Smell)
    (func : Node) : list Smell :=
  let complexity := getNodeComplexity func in
  let smells :=
    if (complexity >? complexityThreshold threshold)%Z
    then smells ++ [functionComplexitySmell threshold func]
    else smells in
  let lines := getEndLineNumber func - getStartLineNumber func in
  if (lines >? functionSizeThreshold threshold)%Z then
    smells ++
      [{| smellType := Complexity;
          severity :=
            if (lines >? functionSizeThreshold threshold * 2)%Z then High
            else Medium;
          smellLocation := nodeToLocation func;
          message :=
            "Function has " +:+ numberToString lines +:+
            " lines, exceeding threshold of " +:+
            numberToString (functionSizeThreshold threshold);
          suggestion :=
            Some "Consider breaking this function into smaller functions" |}]
  else smells.

(** The callback of [sourceFile.getClasses().forEach]. *)
Definition checkClass (threshold : option Threshold) (smells : list Smell)
    (cls : Node) : list Smell :=
  let methods := getMethods cls in
  let totalComplexity :=
    fold_left (fun sum method => sum + getNodeComplexity method) methods 0 in
  if (totalComplexity >? complexityThreshold threshold * 3)%Z then
    smells ++
      [{| smellType := Complexity;
          severity := High;
          smellLocation := nodeToLocation cls;
          message :=
            "Class has total complexity of " +:+ numberToString totalComplexity;
          suggestion :=
            Some "Consider splitting this class using Single Responsibility Principle" |}]
  else smells.

(** [detectComplexitySmells]: the findings are pushed onto [smells]. *)
Definition detectComplexitySmells (sourceFile : SourceFile)
    (smells : list Smell) (threshold : option Threshold) : list Smell :=
  let lines := getEndLineNumber (root sourceFile) in
  let smells :=
    if (lines >? fileSizeThreshold threshold)%Z then
      smells ++
        [{| smellType := Complexity;
            severity :=
              if (lines >? fileSizeThreshold threshold * 2)%Z then High
              else Medium;
            smellLocation :=
              {| file := getFilePath (root sourceFile);
                 position := {| line := 0; character := 0 |};
                 endPosition := None |};
            message :=
              "File has " +:+ numberToString lines +:+
              " lines, exceeding threshold of " +:+
              numberToString (fileSizeThreshold threshold);
            suggestion :=
              Some "Consider splitting this file into smaller, more focused modules" |}]
    else smells in
  let smells :=
    fold_left (checkFunction threshold) (getFunctions (root sourceFile)) smells in
  fold_left (checkClass threshold) (getClasses (root sourceFile)) smells.

(** The findings about cyclomatic complexity of a function, recognised by
    their message. *)
Definition isFunctionComplexityFinding (s : Smell) : bool :=
  String.prefix "Function has cyclomatic complexity of " (message s).

(** The classification the detector implements: no finding up to the
    threshold, [Medium] up to twice the threshold, [High] above. *)
Definition classifyComplexity (t c : Z) : option Severity :=
  if (c >? t * 2)%Z then Some High
  else if (c >? t)%Z then Some Medium
  else None.

(** The finding that this classification gives a function, if any. *)
Definition classifiedFinding (t : Z) (func : Node) : option Smell :=
  match classifyComplexity t (getNodeComplexity func) with
  | Some sev =>
      Some {| smellType := Complexity;
              severity := sev;
              smellLocation := nodeToLocation func;
              message :=
                "Function has cyclomatic complexity of " +:+
                numberToString (getNodeComplexity func);
              suggestion :=
                Some "Consider breaking this function into smaller, more focused functions" |}
  | None => None
  end.

(** Among the findings of all detectors, those about the cyclomatic
    complexity of a function: they have the category complexity and that
    message. *)
Definition reportsFunctionComplexity (s : Smell) : bool :=
  bool_decide (smellType s = Complexity) && isFunctionComplexityFinding s.

(** *** What the tools take from outside *)

(** The language service: the compiler's
    [getPositionOfLineAndCharacter], which answers an offset or fails an
    assertion (a plain [Error] with the given message) for a line or a
    character outside the text; the node under an offset of a file; the
    references to the symbol of an identifier given the files loaded into
    the project (grouped by referenced symbol); and the types behind the
    type handles. *)
Record LanguageService := {
  getPositionOfLineAndCharacter : SourceFile -> Z -> Z -> string + Z;
  getDescendantAtPos : SourceFile -> Z -> option NodeRef;
  lsFindReferences : list SourceFile -> NodeRef -> list (list NodeRef);
  typeTable : nat -> TypeRecord
}.

(** A finding without its category. *)
Record Finding := {
  findingSeverity : Severity;
  findingLocation : Location;
  findingMessage : string;
  findingSuggestion : option string
}.

Definition asSmell (category : CodeSmellCategory) (f : Finding) : Smell :=
  {| smellType := category;
     severity := findingSeverity f;
     smellLocation := findingLocation f;
     message := findingMessage f;
     suggestion := findingSuggestion f |}.

(** The other detectors and the two other text extractors of tools.ts,
    which are not embedded.  A detector only pushes findings onto the
    list it is given, each with the category of the detector, so it is
    given by the findings it pushes for a file. *)
Record Helpers := {
  detectNamingSmells : SourceFile -> list Finding;
  detectUnusedCode : SourceFile -> list Finding;
  detectAsyncIssues : SourceFile -> list Finding;
  detectCouplingIssues : SourceFile -> list Finding;
  extractModuleContext : SourceFile -> bool -> string;
  extractRelatedContext : NodeRef -> bool -> string
}.

(** [positionToOffset] (utils.ts) *)
Definition positionToOffset (ls : LanguageService) (sourceFile : SourceFile)
    (position : Position) : M Z :=
  match getPositionOfLineAndCharacter ls sourceFile
          (line position) (character position) with
  | inl message => throw (ThrowError message)
  | inr pos => ret pos
  end.

(** [findSymbolAtPosition] (analyzer.ts) *)
Definition findSymbolAtPosition (ls : LanguageService)
    (sourceFile : SourceFile) (position : Position) : M (option NodeRef) :=
  let* offset := positionToOffset ls sourceFile position in
  ret (getDescendantAtPos ls sourceFile offset).

Definition noSymbolAtPosition (filePath : string) : Thrown :=
  ThrowAnalysisError
    {| code := FILE_NOT_FOUND;
       errorMessage := "No symbol found at position";
       errorFile := filePath |}.

(** *** find_references *)

Inductive ReferenceKind := RRead | RWrite | RCall | RImport.

#[global] Instance ReferenceKind_eq_dec : EqDecision ReferenceKind.
Proof. solve_decision. Defined.

(** [getReferenceKind] *)
Definition getReferenceKind (node : NodeRef) : ReferenceKind :=
  match getParent node with
  | Some parent =>
      if bool_decide (getKind parent = CallExpression) then RCall
      else if bool_decide (getKind parent = ImportSpecifier) then RImport
      else if bool_decide (getKind parent = BinaryExpression)
              && bool_decide (getKind <$> getOperatorToken parent = Some EqualsToken)
      then RWrite
      else RRead
  | None => RRead
  end.

(** The classification as the specification words it: a write is an
    occurrence that is the left operand of an assignment. *)
Definition isLeftOperand (node : NodeRef) : bool :=
  match above node with
  | f :: _ => bool_decide (leftSiblings f = [])
  | [] => false
  end.

Definition specReferenceKind (node : NodeRef) : ReferenceKind :=
  match getParent node with
  | Some parent =>
      if bool_decide (getKind parent = CallExpression) then RCall
      else if bool_decide (getKind parent = ImportSpecifier) then RImport
      else if bool_decide (getKind parent = BinaryExpression)
              && bool_decide (getKind <$> getOperatorToken parent = Some EqualsToken)
              && isLeftOperand node
      then RWrite
      else RRead
  | None => RRead
  end.

(** [getContext]: the line the node starts on and up to [lines] more, as
    far as the file goes; a line the text does not have reads as
    [undefined] and joins as the empty string. *)
Definition getContext (fullText : string) (node : NodeRef) (lines : Z) : string :=
  let start := getStartLineNumber (focus node) in
  let end_ := Z.min (start + lines) (getEndLineNumber (getSourceFile node)) in
  let textLines := splitOn "010" fullText in
  joinWith newline
    (map (fun i => default "" (textLines !! Z.to_nat (i - 1)))
       (seqZ start (end_ - start + 1))).

Inductive ReferenceScope := FileScope | ProjectScope.

#[global] Instance ReferenceScope_eq_dec : EqDecision ReferenceScope.
Proof. solve_decision. Defined.

Record FindReferencesParams := {
  frFilePath : string;
  frPosition : Position;
  frIncludeDeclaration : bool;
  frScope : ReferenceScope;
  frMaxResults : Z
}.

Record Reference := {
  referenceLocation : Location;
  referenceKind : ReferenceKind;
  referenceContext : string
}.

Record FindReferencesResult := {
  references : list Reference;
  referencedSymbol : option SymbolInfo;
  totalReferences : Z
}.

(** [array.slice(0, n)] *)
Definition slice0 {A} (n : Z) (l : list A) : list A :=
  if (0 <=? n)%Z then take (Z.to_nat n) l
  else take (Z.to_nat (Z.of_nat (length l) + n)) l.

(** The entry pushed for one reference node; the text of the node's file
    is that of the loaded file with the same root. *)
Definition describeReference (loaded : list SourceFile) (refNode : NodeRef)
  : Reference :=
  let text :=
    match List.find (fun sf => bool_decide (getFilePath (root sf)
                                            = getFilePath (getSourceFile refNode)))
            loaded with
    | Some sf => fullText sf
    | None => ""
    end in
  {| referenceLocation := nodeToLocation (focus refNode);
     referenceKind := getReferenceKind refNode;
     referenceContext := getContext text refNode 3 |}.

(** Loading the first 50 project files, one after the other; a file that
    fails to load is logged and skipped. *)
Fixpoint loadFiles (w : World) (paths : list string) (loaded : list SourceFile)
  : M (list SourceFile) :=
  match paths with
  | [] => ret loaded
  | path :: rest =>
      let* loaded' :=
        tryCatch
          (let* sf := addSourceFileAtPath w path in ret (loaded ++ [sf]))
          (fun error =>
             run emit (ConsoleError ("Error loading " +:+ path +:+ ": "
                                     +:+ describeThrown error)) in
             ret loaded) in
      loadFiles w rest loaded'
  end.

(** The reference nodes of the node found at the position, in the order
    in which the two nested [forEach] loops visit them: those of the node
    itself when it is an identifier, otherwise of its first identifier
    descendant, and none when there is no such identifier. *)
Definition referenceNodes (ls : LanguageService) (loaded : list SourceFile)
    (node : NodeRef) : list NodeRef :=
  let identifier :=
    if bool_decide (getKind (focus node) = Identifier) then Some node
    else getFirstDescendantByKind node Identifier in
  match identifier with
  | Some identifier => concat (lsFindReferences ls loaded identifier)
  | None => []
  end.

(** [findReferences] *)
Definition findReferences (ls : LanguageService) (w : World)
    (params : FindReferencesParams) : M FindReferencesResult :=
  run validatePathM w (frFilePath params) in
  let* sourceFile := addSourceFileAtPath w (frFilePath params) in
  let* found := findSymbolAtPosition ls sourceFile (frPosition params) in
  match found with
  | None => throw (noSymbolAtPosition (frFilePath params))
  | Some node =>
      match symbolName (getInfo (focus node)) with
      | None =>
          throw (ThrowAnalysisError
                   {| code := PARSE_ERROR;
                      errorMessage := "No symbol information available";
                      errorFile := frFilePath params |})
      | Some _ =>
          let* loaded :=
            match frScope params with
            | FileScope => ret [sourceFile]
            | ProjectScope => loadFiles w (take 50 (projectFiles w)) [sourceFile]
            end in
          let references :=
            map (describeReference loaded) (referenceNodes ls loaded node) in
          let symbolInfo := extractSymbolInfo (focus node) false in
          ret {| references := slice0 (frMaxResults params) references;
                 referencedSymbol := symbolInfo;
                 totalReferences := Z.of_nat (length references) |}
      end
  end.

(** The files in the project when the references are looked up: the
    file of the request and, for the scope project, those of the first 50
    project files that load. *)
Definition loadedFiles (w : World) (params : FindReferencesParams)
    (sourceFile : SourceFile) : list SourceFile :=
  match frScope params with
  | FileScope => [sourceFile]
  | ProjectScope =>
      sourceFile :: omap (fun path => files w !! path) (take 50 (projectFiles w))
  end.

(** *** get_symbol_info *)

Record GetSymbolInfoParams := {
  gsFilePath : string;
  gsPosition : Position;
  gsIncludeRelationships : bool;
  gsIncludeUsages : bool;
  gsDepth : Z
}.

Definition typeKindAsSymbolKind (k : TypeKind) : SymbolKind :=
  match k with
  | TClass => KClass
  | TInterface => KInterface
  | TEnum => KEnum
  | TType => KType
  end.

(** [getSymbolInfo] *)
Definition getSymbolInfo (ls : LanguageService) (w : World)
    (params : GetSymbolInfoParams) : M SymbolInfo :=
  run validatePathM w (gsFilePath params) in
  let* sourceFile := addSourceFileAtPath w (gsFilePath params) in
  let* found := findSymbolAtPosition ls sourceFile (gsPosition params) in
  match found with
  | None => throw (noSymbolAtPosition (gsFilePath params))
  | Some node =>
      match extractSymbolInfo (focus node) false with
      | None =>
          throw (ThrowAnalysisError
                   {| code := PARSE_ERROR;
                      errorMessage := "Could not extract symbol information";
                      errorFile := gsFilePath params |})
      | Some symbolInfo =>
          if gsIncludeRelationships params && (gsDepth params >? 1)%Z then
            let hierarchy :=
              default []
                (getTypeHierarchy (typeTable ls) (hierarchyFuel (gsDepth params))
                   (focus node) Both (gsDepth params)) in
            if (0 <? Z.of_nat (length hierarchy))%Z then
              ret {| name := name symbolInfo;
                     kind := kind symbolInfo;
                     type := type symbolInfo;
                     documentation := documentation symbolInfo;
                     modifiers := modifiers symbolInfo;
                     location := location symbolInfo;
                     relationships :=
                       Some {| extends :=
                                 Some (map (fun t =>
                                              {| refName := tiName t;
                                                 refLocation := tiLocation t;
                                                 refKind := typeKindAsSymbolKind (tiKind t) |})
                                         (List.filter
                                            (fun t => negb (bool_decide (tiName t = name symbolInfo)))
                                            hierarchy));
                               implements :=
                                 relationships symbolInfo ≫= implements |} |}
            else ret symbolInfo
          else ret symbolInfo
      end
  end.

(** *** extract_context *)

Inductive ContextType := FunctionContext | ClassContext | ModuleContext | RelatedContext.

Record ExtractContextParams := {
  ecFilePath : string;
  ecPosition : option Position;
  ecContextType : ContextType;
  ecMaxTokens : Z;
  ecIncludeImports : bool;
  ecIncludeTypes : bool;
  ecFollowReferences : bool
}.

Record ExtractedContext := {
  mainContext : string;
  contextImports : option (list string);
  tokenCount : Z
}.

(** The text the extractor of the context type produces; [None] means
    that the extractor did not return within the fuel.  Without a target
    node only the module extractor is called. *)
Definition extractMain (d : DeclarationService) (h : Helpers) (fuel : nat)
    (params : ExtractContextParams) (sourceFile : SourceFile)
    (targetNode : option NodeRef) : option string :=
  match ecContextType params, targetNode with
  | FunctionContext, Some node =>
      extractFunctionContext d fuel node (ecIncludeTypes params)
  | ClassContext, Some node =>
      extractClassContext d fuel node (ecIncludeTypes params)
  | ModuleContext, _ =>
      Some (extractModuleContext h sourceFile (ecIncludeTypes params))
  | RelatedContext, Some node =>
      Some (extractRelatedContext h node (ecFollowReferences params))
  | _, _ => Some ""
  end.

(** The token count and the cut to [maxTokens]: the ratio and the new
    length are computed on doubles. *)
Definition withinTokens (main : string) (imports : option (list string))
    (maxTokens : Z) : ExtractedContext :=
  let length := Z.of_nat (String.length main) in
  let count := (length / 4)%Z in
  if (count >? maxTokens)%Z then
    let ratio := doubleDiv (toDouble maxTokens) (toDouble count) in
    let newLength := doubleMul (toDouble length) ratio in
    {| mainContext :=
         substringToFloor newLength main +:+ newline +:+ "... (truncated)";
       contextImports := imports;
       tokenCount := maxTokens |}
  else
    {| mainContext := main; contextImports := imports; tokenCount := count |}.

(** [extractContext].  The function and the class extractor look for the
    enclosing declaration with a loop that need not end, so the call runs
    on fuel: the result [None] means that the call did not return within
    the fuel. *)
Definition extractContext (ls : LanguageService) (d : DeclarationService)
    (h : Helpers) (w : World) (fuel : nat) (params : ExtractContextParams)
  : M (option ExtractedContext) :=
  run validatePathM w (ecFilePath params) in
  let* sourceFile := addSourceFileAtPath w (ecFilePath params) in
  let* targetNode :=
    match ecPosition params with
    | Some position =>
        let* found := findSymbolAtPosition ls sourceFile position in
        match found with
        | Some node => ret (Some node)
        | None => throw (noSymbolAtPosition (ecFilePath params))
        end
    | None => ret None
    end in
  match extractMain d h fuel params sourceFile targetNode with
  | None => ret None
  | Some main =>
      let imports :=
        if ecIncludeImports params
        then Some (map (fun imp => getText (getInfo (importNode imp)))
                     (importDeclarations sourceFile))
        else None in
      ret (Some (withinTokens main imports (ecMaxTokens params)))
  end.

(** *** detect_code_smells *)

Record DetectCodeSmellsParams := {
  dsFilePath : option string;
  dsCategories : option (list CodeSmellCategory);
  dsThreshold : option Threshold
}.

Record SmellSummary := {
  total : Z;
  byCategory : list (CodeSmellCategory * Z);
  bySeverity : Z * Z * Z
}.

Record DetectCodeSmellsResult := {
  smells : list Smell;
  smellSummary : SmellSummary;
  smellAnalysisTimeMs : Z
}.

Definition allCategories : list CodeSmellCategory :=
  [Complexity; Duplication; Coupling; Naming; UnusedCode; AsyncIssues].

Definition includes (categories : list CodeSmellCategory) (c : CodeSmellCategory)
  : bool := bool_decide (c ∈ categories).

(** The detectors run on one file, in the order of the source. *)
Definition runDetectors (h : Helpers) (categories : list CodeSmellCategory)
    (threshold : option Threshold) (sourceFile : SourceFile)
    (smells : list Smell) : list Smell :=
  let smells :=
    if includes categories Complexity
    then detectComplexitySmells sourceFile smells threshold else smells in
  let smells :=
    if includes categories Naming
    then smells ++ map (asSmell Naming) (detectNamingSmells h sourceFile)
    else smells in
  let smells :=
    if includes categories UnusedCode
    then smells ++ map (asSmell UnusedCode) (detectUnusedCode h sourceFile)
    else smells in
  let smells :=
    if includes categories AsyncIssues
    then smells ++ map (asSmell AsyncIssues) (detectAsyncIssues h sourceFile)
    else smells in
  if includes categories Coupling
  then smells ++ map (asSmell Coupling) (detectCouplingIssues h sourceFile)
  else smells.

(** The work item of one file: the scope check and the load are inside
    the [try], and whatever is thrown is logged and swallowed. *)
Definition analyzeOneFile (h : Helpers) (w : World)
    (categories : list CodeSmellCategory) (threshold : option Threshold)
    (smells : list Smell) (file : string) : M (list Smell) :=
  tryCatch
    (run validatePathM w file in
     let* sourceFile := addSourceFileAtPath w file in
     ret (runDetectors h categories threshold sourceFile smells))
    (fun error =>
       run emit (ConsoleError ("Error analyzing " +:+ file +:+ ": "
                               +:+ describeThrown error)) in
       ret smells).

Fixpoint analyzeFiles (h : Helpers) (w : World)
    (categories : list CodeSmellCategory) (threshold : option Threshold)
    (files : list string) (smells : list Smell) : M (list Smell) :=
  match files with
  | [] => ret smells
  | file :: rest =>
      let* smells' := analyzeOneFile h w categories threshold smells file in
      analyzeFiles h w categories threshold rest smells'
  end.

Definition hasSeverity (sev : Severity) (s : Smell) : bool :=
  bool_decide (severity s = sev).

(** The stable sort by severity: high, then medium, then low. *)
Definition sortBySeverity (smells : list Smell) : list Smell :=
  List.filter (hasSeverity High) smells
  ++ List.filter (hasSeverity Medium) smells
  ++ List.filter (hasSeverity Low) smells.

(** [detectCodeSmells].  An empty [filePath] is falsy and selects the
    whole project; the work items contain no suspension point, so they
    run one after the other in the order of the file list. *)
Definition detectCodeSmells (h : Helpers) (w : World)
    (params : DetectCodeSmellsParams) : M DetectCodeSmellsResult :=
  let files :=
    match dsFilePath params with
    | Some path => if bool_decide (path = "") then projectFiles w else [path]
    | None => projectFiles w
    end in
  let categories := default allCategories (dsCategories params) in
  let* smells := analyzeFiles h w categories (dsThreshold params) files [] in
  let count (p : Smell -> bool) := Z.of_nat (length (List.filter p smells)) in
  ret {| smells := sortBySeverity smells;
         smellSummary :=
           {| total := Z.of_nat (length smells);
              byCategory :=
                map (fun cat => (cat, count (fun s => bool_decide (smellType s = cat))))
                  categories;
              bySeverity :=
                (count (hasSeverity High), count (hasSeverity Medium),
                 count (hasSeverity Low)) |};
         smellAnalysisTimeMs := 0 |}.

(** *** Vocabulary of the properties: what a trace shows *)

(** The paths read, and the texts logged, in order. *)
Definition readsOf (tr : list Event) : list string :=
  omap (fun ev => match ev with ReadFile path => Some path | _ => None end) tr.

Definition loggedBy (tr : list Event) : list string :=
  omap (fun ev => match ev with ConsoleError text => Some text | _ => None end) tr.

(** The rank of a severity in the order of the result: high first. *)
Definition severityOrder (sev : Severity) : Z :=
  match sev with High => 0 | Medium => 1 | Low => 2 end.

(** A file of the list that [detectCodeSmells] gets to analyse: it passes
    the scope check and it loads. *)
Definition analysable (w : World) (file : string) : option SourceFile :=
  match validatePath (cwd w) file with
  | inl _ => None
  | inr _ => files w !! file
  end.

(** The error [getSymbolInfo] throws for a node without a record. *)
Definition couldNotExtract (filePath : string) : Thrown :=
  ThrowAnalysisError
    {| code := PARSE_ERROR;
       errorMessage := "Could not extract symbol information";
       errorFile := filePath |}.

(** Whether a path passes the scope check. *)
Definition inScope (w : World) (file : string) : bool :=
  match validatePath (cwd w) file with
  | inl _ => false
  | inr _ => true
  end.

(** *** search_symbols *)

(** [s.includes(t)] *)
Fixpoint stringIncludes (text needle : string) : bool :=
  String.prefix needle text
  || match text with
     | EmptyString => false
     | String _ rest => stringIncludes rest needle
     end.

Inductive SearchType := TextSearch | SemanticSearch | AstPatternSearch.

(** [calculateSearchScore], with the [toLowerCase] of JavaScript strings
    as a parameter.  Scores are kept in tenths: 10 is the source's 1.0, 8
    its 0.8, and so on, which represents every value the function can
    return exactly. *)
Definition calculateSearchScore (toLowerCase : string -> string)
    (symbol : SymbolInfo) (query : string) (searchType : SearchType) : Z :=
  let lowerQuery := toLowerCase query in
  let lowerName := toLowerCase (name symbol) in
  match searchType with
  | TextSearch =>
      if bool_decide (lowerName = lowerQuery) then 10
      else if String.prefix lowerQuery lowerName then 8
      else if stringIncludes lowerName lowerQuery then 6
      else 0
  | SemanticSearch =>
      let score := 0 in
      let score :=
        if stringIncludes lowerName lowerQuery then score + 5 else score in
      let score :=
        if match documentation symbol with
           | Some text => stringIncludes (toLowerCase text) lowerQuery
           | None => false
           end
        then score + 3 else score in
      let score :=
        if stringIncludes (toLowerCase (type symbol)) lowerQuery
        then score + 2 else score in
      Z.min score 10
  | AstPatternSearch => 0
  end.

(** The path library and the glob matcher as the tools use them on paths
    and patterns that come from the caller. *)
Record PathLibrary := {
  extname : string -> string;
  basename : string -> string -> string;
  globMatch : string -> string -> bool
}.

Record SearchSymbolsParams := {
  ssQuery : string;
  ssSearchType : SearchType;
  ssScope : option ScopeOptions;
  ssSymbolTypes : option (list SymbolKind);
  ssMaxResults : Z;
  ssIncludeReferences : bool
}.

Record SymbolMatch := {
  matchedSymbol : SymbolInfo;
  score : Z;
  matchContext : string;
  matchReferences : option (list Location)
}.

Record SearchSymbolsResult := {
  matches : list SymbolMatch;
  totalMatches : Z;
  searchTimeMs : Z
}.

(** The loop over the symbols of one file.  A match is pushed onto the
    shared list at once, so when [positionToOffset] throws for a symbol,
    the matches pushed for the symbols before it stay in the list: the
    result is the list, and what was thrown if the loop was left that
    way. *)
Fixpoint matchSymbols (ls : LanguageService) (toLowerCase : string -> string)
    (params : SearchSymbolsParams) (sourceFile : SourceFile)
    (symbols : list SymbolInfo) (matches : list SymbolMatch)
  : list SymbolMatch * option Thrown :=
  match symbols with
  | [] => (matches, None)
  | symbol :: rest =>
      if match ssSymbolTypes params with
         | Some types => negb (bool_decide (kind symbol ∈ types))
         | None => false
         end
      then matchSymbols ls toLowerCase params sourceFile rest matches
      else
        let score :=
          calculateSearchScore toLowerCase symbol (ssQuery params)
            (ssSearchType params) in
        if (score >? 0)%Z then
          match positionToOffset ls sourceFile (position (location symbol)) with
          | (_, inl error) => (matches, Some error)
          | (_, inr offset) =>
              let node := getDescendantAtPos ls sourceFile offset in
              matchSymbols ls toLowerCase params sourceFile rest
                (matches ++
                   [{| matchedSymbol := symbol;
                       score := score;
                       matchContext :=
                         match node with
                         | Some node => getContext (fullText sourceFile) node 3
                         | None => ""
                         end;
                       matchReferences :=
                         if ssIncludeReferences params then Some [] else None |}])
          end
        else matchSymbols ls toLowerCase params sourceFile rest matches
  end.

(** The work item of one file: whatever is thrown inside it, by the load
    or by the loop, is logged and swallowed. *)
Definition searchOneFile (ls : LanguageService) (toLowerCase : string -> string)
    (w : World) (params : SearchSymbolsParams) (matches : list SymbolMatch)
    (file : string) : M (list SymbolMatch) :=
  let logged (error : Thrown) : Event :=
    ConsoleError ("Error analyzing " +:+ file +:+ ": " +:+ describeThrown error) in
  match addSourceFileAtPath w file with
  | (tr, inl error) => (tr ++ [logged error], inr matches)
  | (tr, inr sourceFile) =>
      match
        matchSymbols ls toLowerCase params sourceFile
          (symbols (analyzeSourceFile sourceFile Symbols 1 false)) matches
      with
      | (matches', Some error) => (tr ++ [logged error], inr matches')
      | (matches', None) => (tr, inr matches')
      end
  end.

Fixpoint searchFiles (ls : LanguageService) (toLowerCase : string -> string)
    (w : World) (params : SearchSymbolsParams) (files : list string)
    (matches : list SymbolMatch) : M (list SymbolMatch) :=
  match files with
  | [] => ret matches
  | file :: rest =>
      let* matches' := searchOneFile ls toLowerCase w params matches file in
      searchFiles ls toLowerCase w params rest matches'
  end.

(** [matches.sort((a, b) => b.score - a.score)]: the sort is stable, so a
    match goes after the matches of a higher or equal score that came
    before it. *)
Fixpoint insertByScore (m : SymbolMatch) (sorted : list SymbolMatch)
  : list SymbolMatch :=
  match sorted with
  | [] => [m]
  | x :: rest =>
      if (score x <? score m)%Z then m :: x :: rest
      else x :: insertByScore m rest
  end.

Definition sortByScore (l : list SymbolMatch) : list SymbolMatch :=
  fold_left (fun sorted m => insertByScore m sorted) l [].

(** [searchSymbols]; the work items contain no suspension point, so they
    run one after the other in the order of the file list. *)
Definition searchSymbols (ls : LanguageService) (lib : PathLibrary)
    (toLowerCase : string -> string) (w : World)
    (params : SearchSymbolsParams) : M SearchSymbolsResult :=
  let files := projectFiles w in
  let filteredFiles :=
    List.filter
      (fun file => matchesScope (extname lib) (globMatch lib) file (ssScope params))
      files in
  let* matches := searchFiles ls toLowerCase w params filteredFiles [] in
  let sorted := sortByScore matches in
  ret {| matches := slice0 (ssMaxResults params) sorted;
         totalMatches := Z.of_nat (length matches);
         searchTimeMs := 0 |}.

(** *** find_patterns: the context of a text match *)

(** [array.slice(start, end)] *)
Definition slice {A} (start end_ : Z) (l : list A) : list A :=
  let len := Z.of_nat (length l) in
  let k := if (start <? 0)%Z then Z.max (len + start) 0 else Z.min start len in
  let final := if (end_ <? 0)%Z then Z.max (len + end_) 0 else Z.min end_ len in
  take (Z.to_nat (final - k)) (drop (Z.to_nat k) l).

(** The first loop of [getTextContext]: the offsets at which the lines
    start. *)
Definition lineStarts (lines_ : list string) : list Z :=
  fold_left
    (fun starts line =>
       starts ++ [default 0 (last starts) + Z.of_nat (String.length line) + 1])
    (removelast lines_) [0].

(** The second loop: the index before the first line start beyond the
    position, and 0 when no line starts beyond it. *)
Definition lineIndexOf (position : Z) (starts : list Z) : Z :=
  match list_find (fun start => position < start) starts with
  | Some (i, _) => Z.of_nat i - 1
  | None => 0
  end.

(** [getTextContext] *)
Definition getTextContext (text : string) (position : Z) (lines : Z) : string :=
  let lines_ := splitOn "010" text in
  let lineIndex := lineIndexOf position (lineStarts lines_) in
  let startLine := Z.max 0 (lineIndex - lines / 2) in
  let endLine := Z.min (Z.of_nat (length lines_)) (lineIndex + (lines + 1) / 2) in
  joinWith newline (slice startLine endLine lines_).

(** *** analyze_dependencies *)

Inductive DependencyDirection := ImportsOnly | ExportsOnly | ImportsAndExports.

#[global] Instance DependencyDirection_eq_dec : EqDecision DependencyDirection.
Proof. solve_decision. Defined.

Inductive GroupBy := ByModule | ByFile | Ungrouped.

Record AnalyzeDependenciesParams := {
  adFilePath : option string;
  adDirection : DependencyDirection;
  adDepth : Z;
  adIncludeNodeModules : bool;
  adGroupBy : GroupBy
}.

Inductive DependencyNodeType := FileNode | ModuleNode | ExternalNode.

Record DependencyNode := {
  nodeId : string;
  nodeType : DependencyNodeType;
  importCount : Z;
  exportCount : Z;
  nodeComplexity : Z
}.

Inductive EdgeType := ImportEdge | ExportEdge | ReexportEdge.

Record DependencyEdge := {
  edgeFrom : string;
  edgeTo : string;
  edgeType : EdgeType;
  edgeSymbols : list string
}.

Record DependencyGraph := {
  graphNodes : list DependencyNode;
  graphEdges : list DependencyEdge
}.

(** [analyzeFileDependencies]: one node for the file, and one edge for
    each import that is kept. *)
Definition analyzeFileDependencies (sourceFile : SourceFile)
    (graph : DependencyGraph) (params : AnalyzeDependenciesParams)
  : DependencyGraph :=
  let filePath := getFilePath (root sourceFile) in
  let analysis := analyzeSourceFile sourceFile All 1 false in
  let nodes :=
    graphNodes graph ++
      [{| nodeId := filePath;
          nodeType := FileNode;
          importCount := Z.of_nat (length (imports analysis));
          exportCount := Z.of_nat (length (exports analysis));
          nodeComplexity := complexity analysis |}] in
  let edges :=
    if bool_decide (adDirection params = ImportsOnly)
       || bool_decide (adDirection params = ImportsAndExports)
    then
      fold_left
        (fun edges imp =>
           if negb (adIncludeNodeModules params)
              && stringIncludes (moduleSpecifier imp) "node_modules"
           then edges
           else
             edges ++
               [{| edgeFrom := filePath;
                   edgeTo := moduleSpecifier imp;
                   edgeType := ImportEdge;
                   edgeSymbols := importedSymbols imp |}])
        (imports analysis) (graphEdges graph)
    else graphEdges graph in
  {| graphNodes := nodes; graphEdges := edges |}.

(** The work item of one project file. *)
Definition dependenciesOfOneFile (w : World) (params : AnalyzeDependenciesParams)
    (graph : DependencyGraph) (file : string) : M DependencyGraph :=
  tryCatch
    (let* sourceFile := addSourceFileAtPath w file in
     ret (analyzeFileDependencies sourceFile graph params))
    (fun error =>
       run emit (ConsoleError ("Error analyzing " +:+ file +:+ ": "
                               +:+ describeThrown error)) in
       ret graph).

Fixpoint dependenciesOfFiles (w : World) (params : AnalyzeDependenciesParams)
    (files : list string) (graph : DependencyGraph) : M DependencyGraph :=
  match files with
  | [] => ret graph
  | file :: rest =>
      let* graph' := dependenciesOfOneFile w params graph file in
      dependenciesOfFiles w params rest graph'
  end.

(** [analyzeDependencies]; an empty [filePath] is falsy.  Each work item
    pushes its node and edges before its first suspension point, so the
    graph is built in the order of the file list. *)
Definition analyzeDependencies (w : World) (params : AnalyzeDependenciesParams)
  : M DependencyGraph :=
  let empty := {| graphNodes := []; graphEdges := [] |} in
  let projectWide :=
    dependenciesOfFiles w params (take 50 (projectFiles w)) empty in
  match adFilePath params with
  | Some filePath =>
      if bool_decide (filePath = "") then projectWide
      else
        run validatePathM w filePath in
        let* sourceFile := addSourceFileAtPath w filePath in
        ret (analyzeFileDependencies sourceFile empty params)
  | None => projectWide
  end.

(** *** summarize_codebase: the layers *)

Record Layer := {
  layerName : string;
  modules : list string;
  dependsOn : list string
}.

Definition layerPatterns : list (string * list string) :=
  [("presentation", ["/views/"; "/components/"; "/pages/"; "/ui/"]);
   ("application", ["/controllers/"; "/handlers/"; "/routes/"]);
   ("business", ["/services/"; "/usecases/"; "/domain/"]);
   ("data", ["/repositories/"; "/models/"; "/entities/"; "/db/"]);
   ("infrastructure", ["/config/"; "/utils/"; "/helpers/"; "/lib/"])].

(** The files of a layer: those whose path contains one of its
    patterns. *)
Definition layerFiles (patterns : list string) (files : list string)
  : list string :=
  List.filter
    (fun file => existsb (fun pattern => stringIncludes file pattern) patterns)
    files.

(** [detectArchitecturalLayers] *)
Definition detectArchitecturalLayers (lib : PathLibrary) (files : list string)
  : list Layer :=
  fold_left
    (fun layers layer =>
       let moduleFiles := layerFiles (snd layer) files in
       if (0 <? Z.of_nat (length moduleFiles))%Z then
         layers ++
           [{| layerName := fst layer;
               modules :=
                 map (fun f => basename lib f (extname lib f)) (take 10 moduleFiles);
               dependsOn := [] |}]
       else layers)
    layerPatterns [].

(** What [toLowerCase] does to text in ASCII: the letters [A] to [Z]
    become [a] to [z], every other character stays. *)
Definition lowerChar (c : ascii) : ascii :=
  let n := N_of_ascii c in
  if ((65 <=? n) && (n <=? 90))%N then ascii_of_N (n + 32) else c.

Fixpoint lowerAscii (s : string) : string :=
  match s with
  | EmptyString => EmptyString
  | String c rest => String (lowerChar c) (lowerAscii rest)
  end.

Fixpoint isAscii (s : string) : Prop :=
  match s with
  | EmptyString => True
  | String c rest => (N_of_ascii c < 128)%N /\ isAscii rest
  end.

Definition lowersAscii (toLowerCase : string -> string) : Prop :=
  forall s, isAscii s -> toLowerCase s = lowerAscii s.

(** What holds of every match [searchSymbols] pushes. *)
Definition goodMatch (toLowerCase : string -> string)
    (params : SearchSymbolsParams) (m : SymbolMatch) : Prop :=
  0 < score m <= 10
  /\ score m
     = calculateSearchScore toLowerCase (matchedSymbol m) (ssQuery params)
         (ssSearchType params)
  /\ String.prefix "_" (name (matchedSymbol m)) = false
  /\ ssSearchType params <> AstPatternSearch.

End Tools.

(** ** SHA-256 ([createHash("sha256")] of the crypto library) *)

Module Sha256.

Definition word (x : Z) : Z := x mod 2^32.

Definition rotr (n x : Z) : Z :=
  word (Z.lor (Z.shiftr x n) (Z.shiftl x (32 - n))).

(** The round constants and the initial hash value are the first 32 bits
    of the fractional parts of the cube roots of the first 64 primes and
    of the square roots of the first 8 primes. *)
Definition isPrime (n : nat) : bool :=
  forallb (fun d => negb (n mod d =? 0)%nat) (seq 2 (n - 2)).

Definition primes : list Z :=
  map Z.of_nat (List.filter isPrime (seq 2 310)).

(** The integer cube root, bit by bit from the top. *)
Definition cubeRoot (n : Z) : Z :=
  fold_left
    (fun x b =>
       let y := x + 2 ^ Z.of_nat b in
       if (y * y * y <=? n)%Z then y else x)
    (rev (seq 0 40)) 0.

Definition K : list Z :=
  Eval vm_compute in map (fun p => word (cubeRoot (p * 2 ^ 96))) (take 64 primes).

Definition H0 : list Z :=
  Eval vm_compute in map (fun p => word (Z.sqrt (p * 2 ^ 64))) (take 8 primes).

Definition bytesOfString (s : string) : list Z :=
  map (fun c => Z.of_N (N_of_ascii c)) (list_ascii_of_string s).

(** The message followed by the bit 1, zeros up to 56 modulo 64 bytes and
    the length in bits as a 64-bit big-endian number. *)
Definition bigEndian (bytes : nat) (x : Z) : list Z :=
  map (fun i => Z.shiftr x (8 * Z.of_nat (bytes - 1 - i)) mod 256) (seq 0 bytes).

Definition pad (msg : list Z) : list Z :=
  let len := Z.of_nat (length msg) in
  let zeros := Z.to_nat ((55 - len) mod 64) in
  msg ++ [0x80] ++ replicate zeros 0 ++ bigEndian 8 (8 * len).

Fixpoint chunks {A} (fuel size : nat) (l : list A) : list (list A) :=
  match fuel, l with
  | O, _ | _, [] => []
  | S fuel', _ => take size l :: chunks fuel' size (drop size l)
  end.

Definition wordOfBytes (b : list Z) : Z :=
  fold_left (fun acc x => acc * 256 + x) b 0.

Definition at_ (l : list Z) (i : nat) : Z := nth i l 0.

(** The message schedule: 16 words of the block, then 48 derived ones. *)
Definition schedule (block : list Z) : list Z :=
  fold_left
    (fun w i =>
       let s0 x := Z.lxor (Z.lxor (rotr 7 x) (rotr 18 x)) (Z.shiftr x 3) in
       let s1 x := Z.lxor (Z.lxor (rotr 17 x) (rotr 19 x)) (Z.shiftr x 10) in
       w ++ [word (at_ w (i - 16) + s0 (at_ w (i - 15))
                   + at_ w (i - 7) + s1 (at_ w (i - 2)))])
    (seq 16 48)
    (map wordOfBytes (chunks 16 4 block)).

Definition round (w : list Z) (st : list Z) (i : nat) : list Z :=
  match st with
  | [a; b; c; d; e; f; g; h] =>
      let S1 := Z.lxor (Z.lxor (rotr 6 e) (rotr 11 e)) (rotr 25 e) in
      let ch := Z.lxor (Z.land e f) (Z.land (Z.lxor e 0xffffffff) g) in
      let temp1 := word (h + S1 + ch + at_ K i + at_ w i) in
      let S0 := Z.lxor (Z.lxor (rotr 2 a) (rotr 13 a)) (rotr 22 a) in
      let maj := Z.lxor (Z.lxor (Z.land a b) (Z.land a c)) (Z.land b c) in
      let temp2 := word (S0 + maj) in
      [word (temp1 + temp2); a; b; c; word (d + temp1); e; f; g]
  | _ => st
  end.

Definition compress (h : list Z) (block : list Z) : list Z :=
  let w := schedule block in
  let st := fold_left (round w) (seq 0 64) h in
  map (fun p => word (fst p + snd p)) (zip h st).

Definition hexDigit (d : Z) : ascii :=
  ascii_of_N (Z.to_N (if (d <? 10)%Z then 48 + d else 87 + d)).

Definition hexOfWord (x : Z) : string :=
  string_of_list_ascii
    (map (fun i => hexDigit (Z.shiftr x (4 * Z.of_nat (7 - i)) mod 16)) (seq 0 8)).

(** [createHash("sha256").update(s).digest("hex")] *)
Definition sha256hex (s : string) : string :=
  let msg := pad (bytesOfString s) in
  let blocks := chunks (length msg) 64 msg in
  fold_left (fun acc x => acc +:+ hexOfWord x) (fold_left compress blocks H0) "".

End Sha256.

(** ** cache.ts *)

Module Cache.

(** *** JavaScript values and JSON *)

(** The values that reach the cache: parameters of cached operations and
    analysis results.  Numbers are integers; an object is the list of its
    own enumerable properties in enumeration order, with distinct keys. *)
#[warnings="-register-all"]
Inductive JSValue :=
  | JUndefined
  | JNull
  | JBool (b : bool)
  | JNumber (n : Z)
  | JString (s : string)
  | JArray (items : list JSValue)
  | JObject (props : list (string * JSValue)).

Definition quote : string := String "034"%char EmptyString.
Definition backslash : string := String "092"%char EmptyString.

Definition hexDigits (n : N) : string :=
  String (Sha256.hexDigit (Z.of_N (n / 16))) (String (Sha256.hexDigit (Z.of_N (n mod 16))) "").

(** The escape of one character inside a JSON string. *)
Definition escapeChar (c : ascii) : string :=
  let n := N_of_ascii c in
  if (n =? 8)%N then backslash +:+ "b"
  else if (n =? 9)%N then backslash +:+ "t"
  else if (n =? 10)%N then backslash +:+ "n"
  else if (n =? 12)%N then backslash +:+ "f"
  else if (n =? 13)%N then backslash +:+ "r"
  else if (n =? 34)%N then backslash +:+ quote
  else if (n =? 92)%N then backslash +:+ backslash
  else if (n <? 32)%N then backslash +:+ "u00" +:+ hexDigits n
  else String c "".

Fixpoint escapeString (s : string) : string :=
  match s with
  | EmptyString => ""
  | String c rest => escapeChar c +:+ escapeString rest
  end.

(** [QuoteJSONString] *)
Definition quoteJSONString (s : string) : string :=
  quote +:+ escapeString s +:+ quote.

Definition joinComma (l : list string) : string := Analyzer.joinWith "," l.

(** [obj[key]] for an own property. *)
Fixpoint lookupProperty {A} (key : string) (props : list (string * A)) : option A :=
  match props with
  | [] => None
  | (k, v) :: rest => if bool_decide (k = key) then Some v else lookupProperty key rest
  end.

(** [Object.keys] *)
Definition keysOf {A} (props : list (string * A)) : list string := map fst props.

(** [SerializeJSONProperty] with an optional property list (the replacer
    array): [None] is the result [undefined].  Inside an array an
    unserialisable element reads [null]; inside an object the property is
    left out.  With a property list, every object at every depth is
    serialised through that list, in its order. *)
Fixpoint serialize (propertyList : option (list string)) (v : JSValue)
  : option string :=
  match v with
  | JUndefined => None
  | JNull => Some "null"
  | JBool b => Some (if b then "true" else "false")
  | JNumber n => Some (numberToString n)
  | JString s => Some (quoteJSONString s)
  | JArray items =>
      Some ("[" +:+
            joinComma
              ((fix elements (l : list JSValue) : list string :=
                  match l with
                  | [] => []
                  | x :: l' =>
                      default "null" (serialize propertyList x) :: elements l'
                  end) items)
            +:+ "]")
  | JObject props =>
      let serialized :=
        (fix each (l : list (string * JSValue)) : list (string * option string) :=
           match l with
           | [] => []
           | (k, x) :: l' => (k, serialize propertyList x) :: each l'
           end) props in
      let K := default (keysOf props) propertyList in
      Some ("{" +:+
            joinComma
              (omap (fun P =>
                       match lookupProperty P serialized with
                       | Some (Some str) => Some (quoteJSONString P +:+ ":" +:+ str)
                       | _ => None
                       end) K)
            +:+ "}")
  end.

(** The property list made from a replacer array of strings: duplicates
    are dropped, the first occurrence stays. *)
Fixpoint dedupe (l : list string) : list string :=
  match l with
  | [] => []
  | x :: l' => x :: List.filter (fun y => negb (bool_decide (y = x))) (dedupe l')
  end.

(** [JSON.stringify(value, replacer)] with an array of strings as
    replacer, and [JSON.stringify(value)]. *)
Definition stringifyWith (value : JSValue) (replacer : list string) : option string :=
  serialize (Some (dedupe replacer)) value.

Definition stringify (value : JSValue) : option string := serialize None value.

(** What [JSON.parse(JSON.stringify(v))] makes of a value: properties
    without a serialisation are dropped, such array elements become
    [null]. *)
Fixpoint persisted (v : JSValue) : JSValue :=
  match v with
  | JArray items =>
      JArray
        ((fix elements (l : list JSValue) : list JSValue :=
            match l with
            | [] => []
            | x :: l' =>
                match persisted x with
                | JUndefined => JNull
                | y => y
                end :: elements l'
            end) items)
  | JObject props =>
      JObject
        ((fix each (l : list (string * JSValue)) : list (string * JSValue) :=
            match l with
            | [] => []
            | (k, x) :: l' =>
                match persisted x with
                | JUndefined => each l'
                | y => (k, y) :: each l'
                end
            end) props)
  | _ => v
  end.

(** *** The disk cache *)

Record AnalysisResult := {
  data : JSValue;
  timestamp : Z;
  contentHash : option string
}.

Record CacheStats := {
  hits : Z;
  misses : Z;
  evictions : Z;
  memoryUsage : Z
}.

(** The persistent store with the statistics of the [DiskCache] in front
    of it.  The store keeps what JSON keeps of a value. *)
Record DiskCache := {
  initialized : bool;
  storage : gmap string AnalysisResult;
  stats : CacheStats
}.

Definition init (c : DiskCache) : DiskCache :=
  {| initialized := true; storage := storage c; stats := stats c |}.

Definition countHit (s : CacheStats) : CacheStats :=
  {| hits := hits s + 1; misses := misses s; evictions := evictions s;
     memoryUsage := memoryUsage s |}.
Definition countMiss (s : CacheStats) : CacheStats :=
  {| hits := hits s; misses := misses s + 1; evictions := evictions s;
     memoryUsage := memoryUsage s |}.
Definition countEviction (s : CacheStats) : CacheStats :=
  {| hits := hits s; misses := misses s; evictions := evictions s + 1;
     memoryUsage := memoryUsage s |}.

(** [DiskCache.get] *)
Definition diskGet (key : string) (c : DiskCache)
  : option AnalysisResult * DiskCache :=
  let c := init c in
  match storage c !! key with
  | Some value =>
      (Some value,
       {| initialized := true; storage := storage c; stats := countHit (stats c) |})
  | None =>
      (None,
       {| initialized := true; storage := storage c; stats := countMiss (stats c) |})
  end.

(** [DiskCache.set] *)
Definition diskSet (key : string) (value : AnalysisResult) (c : DiskCache)
  : DiskCache :=
  let c := init c in
  {| initialized := true;
     storage :=
       <[key := {| data := persisted (data value);
                   timestamp := timestamp value;
                   contentHash := contentHash value |}]> (storage c);
     stats := stats c |}.

(** [DiskCache.delete] *)
Definition diskDelete (key : string) (c : DiskCache) : DiskCache :=
  let c := init c in
  {| initialized := true;
     storage := delete key (storage c);
     stats := countEviction (stats c) |}.

(** *** The cache manager *)

Inductive InvalidationStrategy := ByTimestamp | ByContentHash | Manual.

Record CacheOptions := {
  optCacheDir : option string;
  optInvalidation : option InvalidationStrategy;
  optTtl : option Z
}.

(** The state of a [CacheManager] as far as the analysis cache goes: the
    resolved options and the disk cache. *)
Record CacheManager := {
  cacheDir : string;
  invalidation : InvalidationStrategy;
  ttl : Z;
  analysisCache : DiskCache
}.

(** The constructor; [cwd] is the working directory and [disk] what the
    store holds at that time. *)
Definition newCacheManager (cwd : string) (options : CacheOptions)
    (disk : gmap string AnalysisResult) : CacheManager :=
  {| cacheDir :=
       match optCacheDir options with
       | Some dir => if bool_decide (dir = "") then cwd +:+ "/.mcp-cache" else dir
       | None => cwd +:+ "/.mcp-cache"
       end;
     invalidation := default ByContentHash (optInvalidation options);
     ttl := Tools.orDefault (optTtl options) 3600000;
     analysisCache :=
       {| initialized := false;
          storage := disk;
          stats := {| hits := 0; misses := 0; evictions := 0; memoryUsage := 0 |} |} |}.

Definition withAnalysisCache (m : CacheManager) (c : DiskCache) : CacheManager :=
  {| cacheDir := cacheDir m; invalidation := invalidation m; ttl := ttl m;
     analysisCache := c |}.

(** [getCachedAnalysis]; [now] is the reading of [Date.now()] and
    [JUndefined] the absent result. *)
Definition getCachedAnalysis (key : string) (now : Z) (m : CacheManager)
  : JSValue * CacheManager :=
  let '(cached, c) := diskGet key (analysisCache m) in
  match cached with
  | None => (JUndefined, withAnalysisCache m c)
  | Some cached =>
      if (now - timestamp cached >? ttl m)%Z then
        (JUndefined, withAnalysisCache m (diskDelete key c))
      else (data cached, withAnalysisCache m c)
  end.

(** [setCachedAnalysis] *)
Definition setCachedAnalysis (key : string) (value : JSValue) (now : Z)
    (m : CacheManager) : CacheManager :=
  withAnalysisCache m
    (diskSet key {| data := value; timestamp := now; contentHash := None |}
       (analysisCache m)).

(** [Object.keys(part).sort()]: the keys of an object, or the indices of
    an array, in the order of the default sort. *)
Definition sortedKeys (part : JSValue) : list string :=
  merge_sort String.le
    match part with
    | JObject props => keysOf props
    | JArray items =>
        map (fun i => numberToString (Z.of_nat i)) (seq 0 (length items))
    | _ => []
    end.

(** The callback of [parts.map] in [generateCacheKey]. *)
Definition normalizePart (part : JSValue) : string :=
  match part with
  | JUndefined | JNull => "null"
  | JObject _ | JArray _ => default "undefined" (stringifyWith part (sortedKeys part))
  | JBool b => if b then "true" else "false"
  | JNumber n => numberToString n
  | JString s => s
  end.

(** [generateCacheKey] *)
Definition generateCacheKey (parts : list JSValue) : string :=
  Sha256.sha256hex (Analyzer.joinWith ":" (map normalizePart parts)).

(** [memoize(fn, keyGenerator)] applied to [args]: the clock is read at
    [tGet] by the look-up and at [tSet] by the store. *)
Definition memoize (fn : list JSValue -> JSValue)
    (keyGenerator : option (list JSValue -> string))
    (args : list JSValue) (tGet tSet : Z) (m : CacheManager)
  : JSValue * CacheManager :=
  let key :=
    match keyGenerator with
    | Some keyGenerator => keyGenerator args
    | None => generateCacheKey args
    end in
  let '(cached, m) := getCachedAnalysis key tGet m in
  match cached with
  | JUndefined =>
      let result := fn args in
      (result, setCachedAnalysis key result tSet m)
  | _ => (cached, m)
  end.

(** *** Vocabulary of the properties *)

(** The object parts of a value have distinct keys. *)
Fixpoint wellFormed (v : JSValue) : Prop :=
  match v with
  | JArray items =>
      (fix all (l : list JSValue) : Prop :=
         match l with
         | [] => True
         | x :: l' => wellFormed x /\ all l'
         end) items
  | JObject props =>
      NoDup (keysOf props)
      /\ (fix all (l : list (string * JSValue)) : Prop :=
            match l with
            | [] => True
            | (_, x) :: l' => wellFormed x /\ all l'
            end) props
  | _ => True
  end.

(** A JSON value: no [undefined] inside. *)
Fixpoint isJson (v : JSValue) : Prop :=
  match v with
  | JUndefined => False
  | JArray items =>
      (fix all (l : list JSValue) : Prop :=
         match l with
         | [] => True
         | x :: l' => isJson x /\ all l'
         end) items
  | JObject props =>
      (fix all (l : list (string * JSValue)) : Prop :=
         match l with
         | [] => True
         | (_, x) :: l' => isJson x /\ all l'
         end) props
  | _ => True
  end.

(** Two values that are equal except for the order of the keys inside
    their objects: the objects have the same keys, and under each key
    values that are again equal in this sense. *)
Fixpoint sameUpToKeyOrder (v1 v2 : JSValue) {struct v1} : Prop :=
  match v1, v2 with
  | JUndefined, JUndefined => True
  | JNull, JNull => True
  | JBool a, JBool b => a = b
  | JNumber a, JNumber b => a = b
  | JString a, JString b => a = b
  | JArray l1, JArray l2 =>
      (fix all (l1 l2 : list JSValue) : Prop :=
         match l1, l2 with
         | [], [] => True
         | x :: l1', y :: l2' => sameUpToKeyOrder x y /\ all l1' l2'
         | _, _ => False
         end) l1 l2
  | JObject p1, JObject p2 =>
      NoDup (keysOf p1) /\ NoDup (keysOf p2)
      /\ (forall k, k ∈ keysOf p1 <-> k ∈ keysOf p2)
      /\ (fix all (l : list (string * JSValue)) : Prop :=
            match l with
            | [] => True
            | (k, x) :: l' =>
                (exists y, lookupProperty k p2 = Some y /\ sameUpToKeyOrder x y)
                /\ all l'
            end) p1
  | _, _ => False
  end.

(** The local loops of the definitions, as list functions. *)
Definition elementsOf (K : option (list string)) (items : list JSValue) : list string :=
  map (fun x => default "null" (serialize K x)) items.

Definition serializedProps (K : option (list string)) (props : list (string * JSValue))
  : list (string * option string) :=
  map (fun p => (p.1, serialize K p.2)) props.

Definition member (serialized : list (string * option string)) (P : string)
  : option string :=
  match lookupProperty P serialized with
  | Some (Some str) => Some (quoteJSONString P +:+ ":" +:+ str)
  | _ => None
  end.

(** What the store keeps of an array element and of a property. *)
Definition keepElement (v : JSValue) : JSValue :=
  match persisted v with JUndefined => JNull | y => y end.

Definition keepProperty (p : string * JSValue) : option (string * JSValue) :=
  match persisted p.2 with JUndefined => None | y => Some (p.1, y) end.

(** The member text of one property. *)
Definition memberOf (K : option (list string)) (p : string * JSValue) : option string :=
  (fun str => quoteJSONString p.1 +:+ ":" +:+ str) <$> serialize K p.2.

(** The key of a memoized call:
    [keyGenerator ? keyGenerator(...args) : cacheManager.generateCacheKey(...args)]. *)
Definition memoKey (keyGenerator : option (list JSValue -> string))
    (args : list JSValue) : string :=
  match keyGenerator with
  | Some keyGenerator => keyGenerator args
  | None => generateCacheKey args
  end.

(** The entry that [setCachedAnalysis] leaves in the store. *)
Definition storedEntry (value : JSValue) (now : Z) : AnalysisResult :=
  {| data := persisted value; timestamp := now; contentHash := None |}.

End Cache.

(** ** Sample programs *)

Module Fixtures.

Definition plain : NodeInfo :=
  {| symbolName := None; getType := 0; typeText := "any"; jsDocTags := [];
     getText := ""; getToken := None; inAmbientContext := false;
     filePath := "/work/project/src/sample.ts";
     startLine := 1; startColumn := 1; endLine := 1; endColumn := 1 |}.

Definition named (name type : string) : NodeInfo :=
  {| symbolName := Some name; getType := 0; typeText := type; jsDocTags := [];
     getText := name; getToken := None; inAmbientContext := false;
     filePath := "/work/project/src/sample.ts";
     startLine := 1; startColumn := 1; endLine := 1; endColumn := 1 |}.

Definition token (k : SyntaxKind) : Node := MkNode k plain [].
Definition ident (name : string) : Node := MkNode Identifier (named name "any") [].
Definition param (name : string) : Node :=
  MkNode ParameterDeclaration (named name "any") [ident name].

(** [function add(a, b) { return a + b; }] *)
Definition fnAdd : Node :=
  MkNode FunctionDeclaration (named "add" "(a: any, b: any) => any")
    [ident "add"; param "a"; param "b";
     MkNode Block plain
       [MkNode ReturnStatement plain
          [MkNode BinaryExpression plain
             [ident "a"; token PlusToken; ident "b"]]]].

(** [if (x) {}] *)
Definition ifX : Node :=
  MkNode IfStatement plain [ident "x"; MkNode Block plain []].

(** [function f(x) {}] and [function f(x) { if (x) {} }] *)
Definition fnEmpty : Node :=
  MkNode FunctionDeclaration (named "f" "(x: any) => void")
    [ident "f"; param "x"; MkNode Block plain []].

Definition fnOneIf : Node :=
  MkNode FunctionDeclaration (named "f" "(x: any) => void")
    [ident "f"; param "x"; MkNode Block plain [ifX]].

(** A file with exactly the function [f] above. *)
Definition fileOf (statements : list Node) (text : string) : Analyzer.SourceFile :=
  {| Analyzer.root := MkNode SourceFileKind plain (statements ++ [token EndOfFileToken]);
     Analyzer.importDeclarations := [];
     Analyzer.exportDeclarations := [];
     Analyzer.exportedDeclarations := [];
     Analyzer.preEmitDiagnostics := [];
     Analyzer.fullText := text |}.

Definition fileOneIf : Analyzer.SourceFile :=
  fileOf [fnOneIf] "function f(x) { if (x) {} }".

(** [const g = (x) => { if (x) {} };]: an arrow function with the body
    of [f] above, at the top level of a file. *)
Definition arrowOneIf : Node :=
  MkNode ArrowFunction plain [param "x"; MkNode Block plain [ifX]].

Definition fileArrow : Analyzer.SourceFile :=
  fileOf
    [MkNode VariableStatement plain
       [MkNode VariableDeclarationList plain
          [MkNode VariableDeclaration (named "g" "(x: any) => void")
             [ident "g"; arrowOneIf]]]]
    "const g = (x) => { if (x) {} };".

(** A function with two overload signatures:
    [function pick(a: string): string;]
    [function pick(a: number): number;]
    [function pick(a: any) { return a ? a : a; }] *)
Definition pickSignature (type : string) : Node :=
  MkNode FunctionDeclaration (named "pick" "{ (a: string): string; (a: number): number; }")
    [ident "pick"; param "a"; MkNode (OtherKind 1) (named type type) []].

Definition pickImplementation : Node :=
  MkNode FunctionDeclaration (named "pick" "{ (a: string): string; (a: number): number; }")
    [ident "pick"; param "a";
     MkNode Block plain
       [MkNode ReturnStatement plain
          [MkNode ConditionalExpression plain [ident "a"; ident "a"; ident "a"]]]].

Definition fileOverloads : Analyzer.SourceFile :=
  fileOf [pickSignature "string"; pickSignature "number"; pickImplementation]
    "function pick(a: string): string; function pick(a: number): number; function pick(a: any) { return a ? a : a; }".

Definition thresholdOne : option Tools.Threshold :=
  Some {| Tools.thComplexity := Some 1;
          Tools.thFileSize := None;
          Tools.thFunctionSize := None |}.

(** The AST of [class C { private v = 0; m(){ return this.v; } }]: a
    class declaration whose members are a property with the [private]
    modifier and a method returning [this.v]. *)
Definition propertyV : Node :=
  MkNode PropertyDeclaration (named "v" "number")
    [token PrivateKeyword; ident "v"; MkNode NumericLiteral plain []].

Definition methodM : Node :=
  MkNode MethodDeclaration (named "m" "() => number")
    [ident "m";
     MkNode Block plain
       [MkNode ReturnStatement plain
          [MkNode PropertyAccessExpression plain
             [token ThisKeyword; ident "v"]]]].

Definition classC : Node :=
  MkNode ClassDeclaration (named "C" "C") [ident "C"; propertyV; methodM].

Definition fileClassC : Analyzer.SourceFile :=
  fileOf [classC] "class C { private v = 0; m(){ return this.v; } }".

(** [let _hidden;]: a variable declaration whose name starts with an
    underscore and that has no modifier. *)
Definition variableHidden : Node :=
  MkNode VariableDeclaration (named "_hidden" "any") [ident "_hidden"].

(** A process working in [/work/project] with the class file on disk. *)
Definition sampleWorld : Tools.World :=
  {| Tools.cwd := "/work/project";
     Tools.files := {[ "src/c.ts" := fileClassC ]};
     Tools.projectFiles := ["/work/project/src/c.ts"];
     Tools.now := 1700000000000 |}.

Definition analyzeAll (path : string) (depth : Z) (format : Tools.OutputFormat)
  : Tools.AnalyzeFileParams :=
  {| Tools.afFilePath := path;
     Tools.afAnalysisType := Analyzer.All;
     Tools.afDepth := depth;
     Tools.afIncludePrivate := false;
     Tools.afIncludeNodeModules := false;
     Tools.afOutputFormat := format |}.

(** [let x; let y; x = y;] *)
Definition letStatement (name : string) : Node :=
  MkNode VariableStatement plain
    [MkNode VariableDeclarationList plain
       [MkNode VariableDeclaration (named name "any") [ident name]]].

Definition assignXY : Node :=
  MkNode BinaryExpression plain [ident "x"; token EqualsToken; ident "y"].

Definition fileAssign : Analyzer.SourceFile :=
  fileOf [letStatement "x"; letStatement "y";
          MkNode ExpressionStatement plain [assignXY]]
    "let x; let y; x = y;".

(** The two occurrences of [y]: in its declaration, and as the right
    operand of the assignment. *)
Definition rootFrame (lefts rights : list Node) : Frame :=
  {| parentKind := SourceFileKind; parentInfo := plain;
     leftSiblings := lefts; rightSiblings := rights |}.

Definition yDeclared : NodeRef :=
  {| focus := ident "y";
     above :=
       [{| parentKind := VariableDeclaration; parentInfo := named "y" "any";
           leftSiblings := []; rightSiblings := [] |};
        {| parentKind := VariableDeclarationList; parentInfo := plain;
           leftSiblings := []; rightSiblings := [] |};
        {| parentKind := VariableStatement; parentInfo := plain;
           leftSiblings := []; rightSiblings := [] |};
        rootFrame [letStatement "x"]
          [MkNode ExpressionStatement plain [assignXY]; token EndOfFileToken]] |}.

Definition yAssigned : NodeRef :=
  {| focus := ident "y";
     above :=
       [{| parentKind := BinaryExpression; parentInfo := plain;
           leftSiblings := [ident "x"; token EqualsToken];
           rightSiblings := [] |};
        {| parentKind := ExpressionStatement; parentInfo := plain;
           leftSiblings := []; rightSiblings := [] |};
        rootFrame [letStatement "x"; letStatement "y"]
          [token EndOfFileToken]] |}.

(** A language service that resolves every position to the declared [y]
    and knows its two occurrences. *)
Definition assignService : Tools.LanguageService :=
  {| Tools.getPositionOfLineAndCharacter := fun _ _ character => inr character;
     Tools.getDescendantAtPos := fun _ _ => Some yDeclared;
     Tools.lsFindReferences := fun _ _ => [[yDeclared; yAssigned]];
     Tools.typeTable := fun _ =>
       {| Analyzer.getSymbol := None; Analyzer.getBaseTypes := [] |} |}.

Definition assignWorld : Tools.World :=
  {| Tools.cwd := "/work/project";
     Tools.files := {[ "src/assign.ts" := fileAssign ]};
     Tools.projectFiles := ["/work/project/src/assign.ts"];
     Tools.now := 1700000000000 |}.

Definition referencesOfY : Tools.FindReferencesParams :=
  {| Tools.frFilePath := "src/assign.ts";
     Tools.frPosition := {| line := 0; character := 11 |};
     Tools.frIncludeDeclaration := true;
     Tools.frScope := Tools.FileScope;
     Tools.frMaxResults := 100 |}.

Definition firstReferenceOfY : Tools.FindReferencesParams :=
  {| Tools.frFilePath := "src/assign.ts";
     Tools.frPosition := {| line := 0; character := 11 |};
     Tools.frIncludeDeclaration := true;
     Tools.frScope := Tools.FileScope;
     Tools.frMaxResults := 1 |}.

(** Helpers that find nothing and extract nothing. *)
Definition quietHelpers : Tools.Helpers :=
  {| Tools.detectNamingSmells := fun _ => [];
     Tools.detectUnusedCode := fun _ => [];
     Tools.detectAsyncIssues := fun _ => [];
     Tools.detectCouplingIssues := fun _ => [];
     Tools.extractModuleContext := fun _ _ => "";
     Tools.extractRelatedContext := fun _ _ => "" |}.

(** Helpers whose module extractor produces a text of 88 characters,
    and a request for the module context of a file within 15 tokens. *)
Definition textOf88 : string :=
  "// 0123456789 0123456789 0123456789 0123456789 0123456789 0123456789 0123456789 01234567".

Definition moduleHelpers : Tools.Helpers :=
  {| Tools.detectNamingSmells := fun _ => [];
     Tools.detectUnusedCode := fun _ => [];
     Tools.detectAsyncIssues := fun _ => [];
     Tools.detectCouplingIssues := fun _ => [];
     Tools.extractModuleContext := fun _ _ => textOf88;
     Tools.extractRelatedContext := fun _ _ => "" |}.

Definition moduleContextOf (path : string) (maxTokens : Z)
  : Tools.ExtractContextParams :=
  {| Tools.ecFilePath := path;
     Tools.ecPosition := None;
     Tools.ecContextType := Tools.ModuleContext;
     Tools.ecMaxTokens := maxTokens;
     Tools.ecIncludeImports := false;
     Tools.ecIncludeTypes := true;
     Tools.ecFollowReferences := false |}.

(** A process with the two files above on disk, and the request for the
    complexity findings of a file with the threshold 1. *)
Definition complexityWorld : Tools.World :=
  {| Tools.cwd := "/work/project";
     Tools.files := {[ "src/f.ts" := fileOneIf; "src/g.ts" := fileArrow ]};
     Tools.projectFiles := ["/work/project/src/f.ts"; "/work/project/src/g.ts"];
     Tools.now := 1700000000000 |}.

Definition complexityOf (path : string) : Tools.DetectCodeSmellsParams :=
  {| Tools.dsFilePath := Some path;
     Tools.dsCategories := Some [Complexity];
     Tools.dsThreshold := thresholdOne |}.

Definition smellsOfOutside : Tools.DetectCodeSmellsParams :=
  {| Tools.dsFilePath := Some "../outside/file.ts";
     Tools.dsCategories := None;
     Tools.dsThreshold := None |}.

(** Parameters of a cached operation: the same file and position with the
    keys in two orders, and a different line. *)
Definition paramsLine1 : Cache.JSValue :=
  Cache.JObject
    [("filePath", Cache.JString "a.ts");
     ("position", Cache.JObject [("line", Cache.JNumber 1);
                                 ("character", Cache.JNumber 2)])].

Definition paramsLine1Reordered : Cache.JSValue :=
  Cache.JObject
    [("position", Cache.JObject [("character", Cache.JNumber 2);
                                 ("line", Cache.JNumber 1)]);
     ("filePath", Cache.JString "a.ts")].

Definition paramsLine7 : Cache.JSValue :=
  Cache.JObject
    [("filePath", Cache.JString "a.ts");
     ("position", Cache.JObject [("line", Cache.JNumber 7);
                                 ("character", Cache.JNumber 2)])].

(** A fresh cache manager with the default options and an empty store. *)
Definition freshCache : Cache.CacheManager :=
  Cache.newCacheManager "/work/project"
    {| Cache.optCacheDir := None; Cache.optInvalidation := None;
       Cache.optTtl := None |} ∅.

(** A result with properties that have no value: the name and the kind
    of a symbol with the [documentation] and the [modifiers] that
    [extractSymbolInfo] sets to [undefined] for a symbol without JSDoc
    tags and without modifiers. *)
Definition symbolRecord : Cache.JSValue :=
  Cache.JObject
    [("name", Cache.JString "f");
     ("kind", Cache.JString "function");
     ("documentation", Cache.JUndefined);
     ("modifiers", Cache.JUndefined)].

(** A result to cache. *)
Definition sampleResult : Cache.JSValue :=
  Cache.JObject [("totalSymbols", Cache.JNumber 3);
                 ("complexity", Cache.JNumber 1)].

(** A cyclic hierarchy: type 1 is [A] with base [B], type 2 is [B] with
    base [A]; every other handle has no symbol. *)
Definition declarationOf (name : string) : Node :=
  MkNode ClassDeclaration (named name name) [ident name].

Definition cyclicTypes (t : nat) : Analyzer.TypeRecord :=
  match t with
  | 1%nat =>
      {| Analyzer.getSymbol :=
           Some {| Analyzer.typeName := "A";
                   Analyzer.declarations := [declarationOf "A"] |};
         Analyzer.getBaseTypes := [2%nat] |}
  | 2%nat =>
      {| Analyzer.getSymbol :=
           Some {| Analyzer.typeName := "B";
                   Analyzer.declarations := [declarationOf "B"] |};
         Analyzer.getBaseTypes := [1%nat] |}
  | _ => {| Analyzer.getSymbol := None; Analyzer.getBaseTypes := [] |}
  end.

(** [class Box<T extends object = {}> {}], whose type is the handle 3: a
    class with one type parameter, which has a constraint and a default. *)
Definition typeParameterT : Node :=
  MkNode TypeParameter
    {| symbolName := Some "T"; getType := 0; typeText := "T"; jsDocTags := [];
       getText := "T extends object = {}"; getToken := None;
       inAmbientContext := false;
       filePath := "/work/project/src/sample.ts";
       startLine := 1; startColumn := 11; endLine := 1; endColumn := 32 |}
    [ident "T"; MkNode (OtherKind 2) (named "object" "object") [];
     MkNode (OtherKind 3) (named "{}" "{}") []].

Definition classBox : Node :=
  MkNode ClassDeclaration
    {| symbolName := Some "Box"; getType := 3; typeText := "Box<T>";
       jsDocTags := [];
       getText := "class Box<T extends object = {}> {}"; getToken := None;
       inAmbientContext := false;
       filePath := "/work/project/src/sample.ts";
       startLine := 1; startColumn := 1; endLine := 1; endColumn := 36 |}
    [ident "Box"; typeParameterT].

Definition genericTypes (t : nat) : Analyzer.TypeRecord :=
  match t with
  | 3%nat =>
      {| Analyzer.getSymbol :=
           Some {| Analyzer.typeName := "Box";
                   Analyzer.declarations := [classBox] |};
         Analyzer.getBaseTypes := [] |}
  | _ => {| Analyzer.getSymbol := None; Analyzer.getBaseTypes := [] |}
  end.

(** The declaration of [A], whose type is the handle 1. *)
Definition classA : Node :=
  MkNode ClassDeclaration
    {| symbolName := Some "A"; getType := 1; typeText := "A"; jsDocTags := [];
       getText := "class A extends B {}"; getToken := None;
       inAmbientContext := false;
       filePath := "/work/project/src/sample.ts";
       startLine := 1; startColumn := 1; endLine := 1; endColumn := 21 |}
    [ident "A"].

(** A language service for a text of one line, which resolves every
    position on that line to the declaration of [_hidden]; a position on
    another line fails the compiler's assertion. *)
Definition oneLineService : Tools.LanguageService :=
  {| Tools.getPositionOfLineAndCharacter := fun _ line character =>
       if (line =? 0)%Z then inr character
       else inl "Debug Failure. Bad line number.";
     Tools.getDescendantAtPos := fun _ _ =>
       Some {| focus := variableHidden; above := [] |};
     Tools.lsFindReferences := fun _ _ => [];
     Tools.typeTable := fun _ =>
       {| Analyzer.getSymbol := None; Analyzer.getBaseTypes := [] |} |}.

Definition symbolInfoOnLine (path : string) (line : Z) : Tools.GetSymbolInfoParams :=
  {| Tools.gsFilePath := path;
     Tools.gsPosition := {| line := line; character := 4 |};
     Tools.gsIncludeRelationships := true;
     Tools.gsIncludeUsages := false;
     Tools.gsDepth := 2 |}.

(** A project of two files found by the glob, the second of which is gone
    by the time it is loaded. *)
Definition projectWorld : Tools.World :=
  {| Tools.cwd := "/work/project";
     Tools.files :=
       {[ "src/assign.ts" := fileAssign;
          "/work/project/src/assign.ts" := fileAssign ]};
     Tools.projectFiles :=
       ["/work/project/src/assign.ts"; "/work/project/src/gone.ts"];
     Tools.now := 1700000000000 |}.

Definition referencesOfYInProject : Tools.FindReferencesParams :=
  {| Tools.frFilePath := "src/assign.ts";
     Tools.frPosition := {| line := 0; character := 11 |};
     Tools.frIncludeDeclaration := true;
     Tools.frScope := Tools.ProjectScope;
     Tools.frMaxResults := 1 |}.

(** A text of four lines. *)
Definition fourLines : string :=
  "one" +:+ newline +:+ "two" +:+ newline +:+ "three" +:+ newline +:+ "four".

(** A file with three import declarations: a named import from a
    package, a default import from a path through [node_modules], and an
    import for its side effects only. *)
Definition importOf (specifier : string) (default : option string)
    (named : list string) : Analyzer.ImportDeclarationInfo :=
  {| Analyzer.moduleSpecifierValue := specifier;
     Analyzer.namedImports := named;
     Analyzer.defaultImport := default;
     Analyzer.namespaceImport := None;
     Analyzer.importIsTypeOnly := false;
     Analyzer.importNode := MkNode ImportDeclaration plain [] |}.

Definition fileWithImports : Analyzer.SourceFile :=
  {| Analyzer.root := MkNode SourceFileKind plain [token EndOfFileToken];
     Analyzer.importDeclarations :=
       [importOf "lodash" None ["map"];
        importOf "../node_modules/left-pad/index.js" (Some "leftPad") [];
        importOf "./polyfill.js" None []];
     Analyzer.exportDeclarations := [];
     Analyzer.exportedDeclarations := [];
     Analyzer.preEmitDiagnostics := [];
     Analyzer.fullText := "" |}.

Definition importsWorld : Tools.World :=
  {| Tools.cwd := "/work/project";
     Tools.files := {[ "src/sample.ts" := fileWithImports ]};
     Tools.projectFiles := ["/work/project/src/sample.ts"];
     Tools.now := 1700000000000 |}.

Definition dependenciesOf (path : string) (direction : Tools.DependencyDirection)
  : Tools.AnalyzeDependenciesParams :=
  {| Tools.adFilePath := Some path;
     Tools.adDirection := direction;
     Tools.adDepth := 2;
     Tools.adIncludeNodeModules := false;
     Tools.adGroupBy := Tools.ByModule |}.

(** The end-of-file token of a source file, at its place in the file. *)
Definition endOfFileRef : NodeRef :=
  {| focus := token EndOfFileToken;
     above := [{| parentKind := SourceFileKind; parentInfo := plain;
                  leftSiblings := []; rightSiblings := [] |}] |}.

(** A declaration service that knows of no documentation, names,
    modifiers or properties. *)
Definition silentDeclarations : Analyzer.DeclarationService :=
  {| Analyzer.getJsDocs := fun _ => [];
     Analyzer.getName := fun _ => None;
     Analyzer.getReturnType := fun _ => "any";
     Analyzer.getModifiers := fun _ => [];
     Analyzer.getProperties := fun _ => [] |}.

(** A result with a property that has no value, and two functions to
    memoize. *)
Definition resultWithGap : Cache.JSValue :=
  Cache.JObject [("count", Cache.JNumber 1); ("note", Cache.JUndefined)].

Definition countOnce (args : list Cache.JSValue) : Cache.JSValue := resultWithGap.

Definition countTwice (args : list Cache.JSValue) : Cache.JSValue :=
  Cache.JObject [("count", Cache.JNumber 2)].

End Fixtures.

(** * Properties *)

(** ** The AST *)

Section NodeInduction.
Variable P : Node -> Prop.
Hypothesis step : forall k i cs, Forall P cs -> P (MkNode k i cs).

Lemma Node_nested_ind (n : Node) : P n.
Proof.
  revert n. fix IH 1. intros [k i cs]. apply step.
  induction cs as [|c cs IHcs]; constructor; [apply IH | exact IHcs].
Qed.
End NodeInduction.

Lemma descendants_unfold k i cs :
  descendants (MkNode k i cs) = descendantsOfList cs.
Proof.
  unfold descendantsOfList. simpl.
  induction cs as [|c cs IH]; simpl; [done|]. by rewrite IH.
Qed.

Lemma descendantsOfList_app l1 l2 :
  descendantsOfList (l1 ++ l2) = descendantsOfList l1 ++ descendantsOfList l2.
Proof. unfold descendantsOfList. apply flat_map_app. Qed.

(** ** Cyclomatic complexity *)

Module UtilsFacts.
Import Utils.

Lemma countsTowardsComplexity_spec k :
  countsTowardsComplexity k = bool_decide (k ∈ countedKinds).
Proof.
  unfold countsTowardsComplexity, countedKinds.
  destruct k; vm_compute; reflexivity.
Qed.

Lemma countedNodes_cons c l :
  countedNodes (c :: l) =
  if decide (getKind c ∈ countedKinds) then c :: countedNodes l
  else countedNodes l.
Proof. reflexivity. Qed.

Lemma length_countedNodes_cons c l :
  length (countedNodes (c :: l)) = (counted1 c + length (countedNodes l))%nat.
Proof.
  rewrite countedNodes_cons. unfold counted1.
  destruct (decide (getKind c ∈ countedKinds)); reflexivity.
Qed.

Lemma fold_complexity_count l a :
  fold_left
    (fun complexity child =>
       if countsTowardsComplexity (getKind child) then complexity + 1
       else complexity) l a
  = a + Z.of_nat (length (countedNodes l)).
Proof.
  revert a. induction l as [|c l IH]; intros a; cbn [fold_left].
  { unfold countedNodes. rewrite filter_nil. cbn [length]. lia. }
  rewrite IH, countsTowardsComplexity_spec, length_countedNodes_cons.
  unfold counted1.
  destruct (decide (getKind c ∈ countedKinds)) as [H|H];
    [rewrite (bool_decide_eq_true_2 _ H) | rewrite (bool_decide_eq_false_2 _ H)];
    lia.
Qed.

Lemma getNodeComplexity_count node :
  getNodeComplexity node = 1 + Z.of_nat (length (countedNodes (descendants node))).
Proof. apply fold_complexity_count. Qed.

Lemma getNodeComplexity_pos node : 1 <= getNodeComplexity node.
Proof. rewrite getNodeComplexity_count. lia. Qed.

Lemma countedNodes_app l1 l2 :
  countedNodes (l1 ++ l2) = countedNodes l1 ++ countedNodes l2.
Proof. apply filter_app. Qed.

Lemma AddedStatement_kind s n n' :
  AddedStatement s n n' -> getKind n' = getKind n.
Proof. intros []; reflexivity. Qed.

Lemma descendantsOfList_cons c l :
  descendantsOfList (c :: l) = c :: descendants c ++ descendantsOfList l.
Proof. reflexivity. Qed.

Lemma AddedStatement_count s n n' :
  AddedStatement s n n' ->
  length (countedNodes (descendants n')) =
  (length (countedNodes (descendants n)) +
   length (countedNodes (s :: descendants s)))%nat.
Proof.
  induction 1 as [k i l1 l2 | k i l1 l2 c c' Hadd IH];
    rewrite !descendants_unfold, !descendantsOfList_app,
      !descendantsOfList_cons, !countedNodes_app, !length_app,
      !length_countedNodes_cons, !countedNodes_app, !length_app.
  - lia.
  - rewrite IH, length_countedNodes_cons. unfold counted1.
    rewrite (AddedStatement_kind _ _ _ Hadd). lia.
Qed.

End UtilsFacts.

Module ComplexityClaims.
Import Utils UtilsFacts Fixtures.

(** C2, as stated, fails: [function add(a, b) { return a + b; }] has no
    branching construct in the specification's sense (its only binary
    expression is arithmetic), so the specification's formula gives 1,
    yet [getNodeComplexity] returns 2. *)
Lemma getNodeComplexity_counts_arithmetic :
  filter (fun c => Is_true (isBranchingConstruct c)) (descendants fnAdd) = []
  /\ specComplexity fnAdd = 1
  /\ getNodeComplexity fnAdd = 2
  /\ getNodeComplexity fnAdd <> specComplexity fnAdd.
Proof. vm_compute. repeat split; congruence. Qed.

(** C2, amended: the complexity of a node is 1 plus the number of its
    descendants whose kind is an if statement, a for, for-in, for-of,
    while or do statement, a conditional expression, a catch clause, a
    case clause, or a binary expression with any operator; a node with no
    such descendant has complexity exactly 1; and adding, anywhere in the
    tree, one if statement that has no such descendant of its own raises
    the complexity by exactly 1. *)
Theorem getNodeComplexity_counts_listed_kinds :
  (forall node,
     getNodeComplexity node
     = 1 + Z.of_nat (length (countedNodes (descendants node))))
  /\ (forall node,
        countedNodes (descendants node) = [] -> getNodeComplexity node = 1)
  /\ (forall s before after,
        getKind s = IfStatement ->
        countedNodes (descendants s) = [] ->
        AddedStatement s before after ->
        getNodeComplexity after = getNodeComplexity before + 1).
Proof.
  split; [exact getNodeComplexity_count|]. split.
  - intros node Hnone. rewrite getNodeComplexity_count, Hnone. reflexivity.
  - intros s before after Hkind Hnone Hadd.
    rewrite !getNodeComplexity_count, (AddedStatement_count _ _ _ Hadd).
    rewrite length_countedNodes_cons, Hnone. unfold counted1.
    rewrite Hkind. rewrite decide_True by (vm_compute; set_solver).
    cbn [length]. lia.
Qed.

Lemma getNodeComplexity_counts_listed_kinds_witness :
  getNodeComplexity fnEmpty = 1
  /\ getNodeComplexity fnOneIf = getNodeComplexity fnEmpty + 1.
Proof.
  destruct getNodeComplexity_counts_listed_kinds as (_ & Hzero & Hadd).
  split.
  - apply Hzero. reflexivity.
  - apply (Hadd ifX fnEmpty fnOneIf); [reflexivity | reflexivity |].
    exact (added_below ifX FunctionDeclaration (named "f" "(x: any) => void")
             [ident "f"; param "x"] [] _ _
             (added_here ifX Block plain [] [])).
Defined.

End ComplexityClaims.

(** ** The complexity detector *)

Module SmellFacts.
Import Utils Analyzer Tools Fixtures.

Lemma numberToString_head z :
  exists c s, numberToString z = String c s /\ c <> "c"%char.
Proof.
  unfold numberToString.
  destruct (Z.to_int z) as [d|d]; destruct d; simpl;
    eexists _, _; (split; [reflexivity | discriminate]).
Qed.

Lemma prefix_append_same a b c :
  String.prefix (a +:+ b) (a +:+ c) = String.prefix b c.
Proof.
  induction a as [|x a IH]; [reflexivity|].
  change (String.prefix (String x (a +:+ b)) (String x (a +:+ c))
          = String.prefix b c).
  cbn [String.prefix]. destruct (ascii_dec x x); [exact IH | congruence].
Qed.

Lemma prefix_append_self a b : String.prefix a (a +:+ b) = true.
Proof.
  induction a as [|x a IH]; [by destruct b|].
  change (String.prefix (String x a) (String x (a +:+ b)) = true).
  cbn [String.prefix]. destruct (ascii_dec x x); [exact IH | congruence].
Qed.

Lemma not_complexity_finding_lines z rest :
  String.prefix "Function has cyclomatic complexity of "
    ("Function has " +:+ numberToString z +:+ rest) = false.
Proof.
  destruct (numberToString_head z) as (c & s & -> & Hc).
  change "Function has cyclomatic complexity of "
    with ("Function has " +:+ "cyclomatic complexity of ").
  rewrite prefix_append_same.
  change (String c s +:+ rest) with (String c (s +:+ rest)).
  cbn [String.prefix].
  destruct (ascii_dec "c" c) as [<-|Hne]; [done | reflexivity].
Qed.

Lemma filter_checkFunction threshold smells func :
  List.filter isFunctionComplexityFinding (checkFunction threshold smells func)
  = List.filter isFunctionComplexityFinding smells
    ++ (if (getNodeComplexity func >? complexityThreshold threshold)%Z
        then [functionComplexitySmell threshold func] else []).
Proof.
  unfold checkFunction.
  destruct (getNodeComplexity func >? complexityThreshold threshold)%Z;
    destruct (getEndLineNumber func - getStartLineNumber func
              >? functionSizeThreshold threshold)%Z;
    rewrite ?List.filter_app, ?app_nil_r; cbn [List.filter];
    unfold isFunctionComplexityFinding; cbn [message functionComplexitySmell];
    rewrite ?not_complexity_finding_lines, ?prefix_append_self, ?app_nil_r;
    reflexivity.
Qed.

Lemma filter_fold_checkFunction threshold funcs smells :
  List.filter isFunctionComplexityFinding
    (fold_left (checkFunction threshold) funcs smells)
  = List.filter isFunctionComplexityFinding smells
    ++ map (functionComplexitySmell threshold)
         (List.filter
            (fun f => (getNodeComplexity f >? complexityThreshold threshold)%Z)
            funcs).
Proof.
  revert smells. induction funcs as [|f funcs IH]; intros smells;
    cbn [fold_left List.filter].
  - by rewrite app_nil_r.
  - rewrite IH, filter_checkFunction, <- app_assoc.
    by destruct (getNodeComplexity f >? complexityThreshold threshold)%Z.
Qed.

Lemma filter_fold_checkClass threshold classes smells :
  List.filter isFunctionComplexityFinding
    (fold_left (checkClass threshold) classes smells)
  = List.filter isFunctionComplexityFinding smells.
Proof.
  revert smells. induction classes as [|c classes IH]; intros smells;
    cbn [fold_left]; [done|].
  rewrite IH. unfold checkClass.
  destruct (_ >? _)%Z; [|done].
  rewrite List.filter_app. cbn. by rewrite app_nil_r.
Qed.

Lemma filter_detectComplexitySmells sourceFile smells threshold :
  List.filter isFunctionComplexityFinding
    (detectComplexitySmells sourceFile smells threshold)
  = List.filter isFunctionComplexityFinding smells
    ++ map (functionComplexitySmell threshold)
         (List.filter
            (fun f => (getNodeComplexity f >? complexityThreshold threshold)%Z)
            (getFunctions (root sourceFile))).
Proof.
  unfold detectComplexitySmells.
  rewrite filter_fold_checkClass, filter_fold_checkFunction.
  destruct (_ >? _)%Z; [|done].
  rewrite List.filter_app. cbn. by rewrite app_nil_r.
Qed.

End SmellFacts.

(** ** Symbol extraction and file analysis *)

Module AnalyzerClaims.
Import Utils Analyzer Tools Fixtures.

Lemma extractSymbolInfo_name node includePrivate info :
  extractSymbolInfo node includePrivate = Some info ->
  symbolName (getInfo node) = Some (name info).
Proof.
  unfold extractSymbolInfo.
  destruct (symbolName (getInfo node)) as [n|]; [|discriminate].
  destruct (negb includePrivate && String.prefix "_" n); [discriminate|].
  intros [= <-]. reflexivity.
Qed.

(** C6: with [includePrivate = false] no returned record has a name
    starting with an underscore; with [includePrivate = true] such a
    record can be returned; and the filter looks at the name only: without
    [includePrivate] the result is that with [includePrivate], dropped
    exactly when the symbol's name starts with an underscore, so a
    property carrying the [private] modifier but no underscore is still
    returned. *)
Theorem extractSymbolInfo_underscore_filter :
  (forall node info,
      extractSymbolInfo node false = Some info ->
      String.prefix "_" (name info) = false)
  /\ (exists node info,
        extractSymbolInfo node true = Some info
        /\ String.prefix "_" (name info) = true)
  /\ (forall node,
        extractSymbolInfo node false =
        match symbolName (getInfo node) with
        | Some n =>
            if String.prefix "_" n then None else extractSymbolInfo node true
        | None => None
        end)
  /\ (exists node info,
        hasModifier node PrivateKeyword = true
        /\ extractSymbolInfo node false = Some info
        /\ modifiers info = Some ["private"]).
Proof.
  repeat split.
  - intros node info Hsome.
    pose proof (extractSymbolInfo_name _ _ _ Hsome) as Hname.
    unfold extractSymbolInfo in Hsome. rewrite Hname in Hsome.
    cbn [negb andb] in Hsome.
    destruct (String.prefix "_" (name info)); [discriminate | reflexivity].
  - exists variableHidden. eexists. split; reflexivity.
  - intros node. unfold extractSymbolInfo.
    destruct (symbolName (getInfo node)) as [n|]; [|reflexivity].
    cbn [negb andb]. destruct (String.prefix "_" n); reflexivity.
  - exists propertyV. eexists. repeat split; reflexivity.
Qed.

Lemma extractSymbolInfo_underscore_filter_witness :
  extractSymbolInfo variableHidden false = None
  /\ String.prefix "_" "v" = false.
Proof.
  destruct extractSymbolInfo_underscore_filter as (Hnever & _ & Hname & _).
  split.
  - rewrite Hname. reflexivity.
  - apply (Hnever propertyV
             {| name := "v"; kind := KProperty; type := "number";
                documentation := None; modifiers := Some ["private"];
                location := nodeToLocation propertyV;
                relationships := None |}).
    reflexivity.
Defined.

(** C3, as stated, fails: on the file
    [class C { private v = 0; m(){ return this.v; } }], [analyzeFile]
    with [analysisType = all] and default parameters reads the file and
    returns a summary with 3 symbols ([C], [v] and [m]) and complexity
    1, not 2 symbols and a complexity of at least 2. *)
Lemma analyzeFile_class_sample_counts :
  exists result,
    analyzeFile sampleWorld (analyzeAll "src/c.ts" 2 Summary)
    = ([ReadFile "src/c.ts"], inr result)
    /\ totalSymbols (summary result) = 3
    /\ summaryComplexity (summary result) = 1
    /\ totalSymbols (summary result) <> 2
    /\ ~ (2 <= summaryComplexity (summary result)).
Proof. eexists. split; [reflexivity|]. vm_compute. repeat split; congruence. Qed.

(** C3, amended: for the file containing exactly
    [class C { private v = 0; m(){ return this.v; } }], [analyzeFile]
    with [analysisType = all] and [includePrivate = false] returns a
    summary whose [totalSymbols] is exactly 3 (the class, the property [v],
    which is kept because its name has no leading underscore, and the
    method) and whose complexity is exactly 1 (the sum over the methods,
    here the single straight-line method [m]). *)
Theorem analyzeFile_class_sample w path depth format :
  validatePath (cwd w) path = inr tt ->
  files w !! path = Some fileClassC ->
  exists result,
    analyzeFile w (analyzeAll path depth format) = ([ReadFile path], inr result)
    /\ totalSymbols (summary result) = 3
    /\ map name (symbols (analyzeSourceFile fileClassC All depth false))
       = ["C"; "v"; "m"]
    /\ summaryComplexity (summary result) = 1.
Proof.
  intros Hvalid Hfile.
  unfold analyzeFile, validatePathM, addSourceFileAtPath, analyzeAll.
  cbn [afFilePath afAnalysisType afDepth afIncludePrivate afOutputFormat].
  rewrite Hvalid. cbn [bind ret emit throw]. rewrite Hfile.
  cbn [bind ret emit throw app].
  destruct (bool_decide (format = Summary));
    eexists; (split; [reflexivity|]); repeat split; reflexivity.
Qed.

Lemma analyzeFile_class_sample_witness :
  exists result,
    analyzeFile sampleWorld (analyzeAll "src/c.ts" 2 Summary)
    = ([ReadFile "src/c.ts"], inr result)
    /\ totalSymbols (summary result) = 3
    /\ map name (symbols (analyzeSourceFile fileClassC All 2 false))
       = ["C"; "v"; "m"]
    /\ summaryComplexity (summary result) = 1.
Proof.
  apply (analyzeFile_class_sample sampleWorld "src/c.ts" 2 Summary);
    reflexivity.
Defined.

End AnalyzerClaims.

(** ** Paths and scope validation *)

Module PathFacts.
Import Utils.

Lemma stripCommon_prefix from to :
  (stripCommon from to).1 = [] -> from `prefix_of` to.
Proof.
  revert to. induction from as [|f from IH]; intros to; cbn [stripCommon].
  - intros _. by exists to.
  - destruct to as [|t to]; [discriminate|].
    case_bool_decide as Heq; [|discriminate].
    subst t. intros Hup. destruct (IH to Hup) as [k ->]. by exists k.
Qed.

Lemma joinPath_cons_prefix seg rest :
  String.prefix seg (joinPath (seg :: rest)) = true.
Proof.
  destruct rest; cbn [joinPath].
  - induction seg as [|c seg IH]; [reflexivity|].
    cbn [String.prefix]. by destruct (ascii_dec c c).
  - induction seg as [|c seg IH]; [reflexivity|].
    change (String.prefix (String c seg)
              (String c (seg +:+ "/" +:+ joinPath (s :: rest))) = true).
    cbn [String.prefix]. by destruct (ascii_dec c c).
Qed.

Lemma relative_outside cwd to :
  ~ (resolveSegments cwd cwd `prefix_of` resolveSegments cwd to) ->
  String.prefix ".." (relative cwd cwd to) = true.
Proof.
  intros Hout. unfold relative.
  destruct (stripCommon (resolveSegments cwd cwd) (resolveSegments cwd to))
    as [up down] eqn:Hstrip.
  destruct up as [|u up].
  - exfalso. apply Hout, stripCommon_prefix. by rewrite Hstrip.
  - cbn [length replicate app]. apply joinPath_cons_prefix.
Qed.

(** *** Splitting and joining *)

Lemma splitOn_nonempty sep s : splitOn sep s <> [].
Proof.
  destruct s as [|c s]; cbn [splitOn]; [done|].
  case_bool_decide; [done|]. by destruct (splitOn sep s).
Qed.

Lemma splitOn_noSlash s : noSlash s -> splitOn "/" s = [s].
Proof.
  induction s as [|c s IH]; [done|]. intros [Hc Hs]. cbn [splitOn].
  rewrite bool_decide_eq_false_2 by done. by rewrite IH.
Qed.

Lemma splitOn_append a b :
  splitOn "/" (a +:+ "/" +:+ b) = splitOn "/" a ++ splitOn "/" b.
Proof.
  induction a as [|c a IH].
  - reflexivity.
  - change (String c a +:+ "/" +:+ b) with (String c (a +:+ "/" +:+ b)).
    cbn [splitOn]. rewrite IH. case_bool_decide; [reflexivity|].
    pose proof (splitOn_nonempty "/" a).
    by destruct (splitOn "/" a).
Qed.

Lemma splitOn_append_slash a :
  splitOn "/" (a +:+ "/") = splitOn "/" a ++ [""].
Proof. apply (splitOn_append a ""). Qed.

Lemma splitOn_slash_append b :
  splitOn "/" ("/" +:+ b) = "" :: splitOn "/" b.
Proof. reflexivity. Qed.

Lemma splitOn_Forall_noSlash s : Forall noSlash (splitOn "/" s).
Proof.
  induction s as [|c s IH]; cbn [splitOn]; [by repeat constructor|].
  case_bool_decide as Hc; [by constructor|].
  destruct (splitOn "/" s) as [|p ps]; [by repeat constructor|].
  inversion IH; subst. by repeat constructor.
Qed.

Lemma splitOn_joinPath segs :
  segs <> [] -> Forall noSlash segs -> splitOn "/" (joinPath segs) = segs.
Proof.
  induction segs as [|p segs IH]; [done|]. intros _ Hall.
  inversion Hall as [|? ? Hp Hrest]; subst.
  destruct segs as [|q segs].
  - by apply splitOn_noSlash.
  - change (joinPath (p :: q :: segs)) with (p +:+ "/" +:+ joinPath (q :: segs)).
    rewrite splitOn_append, (splitOn_noSlash p Hp), IH by done. reflexivity.
Qed.

(** *** Normal forms *)

Lemma N_app b acc l1 l2 : N b acc (l1 ++ l2) = N b (N b acc l1) l2.
Proof. apply fold_left_app. Qed.

Lemma N_snoc b acc l x : N b acc (l ++ [x]) = normalizeStep b (N b acc l) x.
Proof. by rewrite N_app. Qed.

Lemma step_skip b acc seg : seg = "" \/ seg = "." -> normalizeStep b acc seg = acc.
Proof. intros [-> | ->]; reflexivity. Qed.

Lemma step_name b acc seg : isName seg -> normalizeStep b acc seg = acc ++ [seg].
Proof.
  intros (H1 & H2 & H3). unfold normalizeStep.
  by rewrite !bool_decide_eq_false_2.
Qed.

Lemma step_up_name b acc n :
  n <> ".." -> normalizeStep b (acc ++ [n]) ".." = acc.
Proof.
  intros Hn. unfold normalizeStep. cbn [bool_decide orb].
  rewrite !bool_decide_eq_false_2 by done. cbn [orb].
  rewrite bool_decide_eq_true_2 by done.
  rewrite last_snoc, bool_decide_eq_false_2 by done.
  apply removelast_last.
Qed.

Lemma step_up_nil b : normalizeStep b [] ".." = if b then [".."] else [].
Proof. reflexivity. Qed.

Lemma step_up_up b acc :
  normalizeStep b (acc ++ [".."]) ".."
  = if b then acc ++ [".."; ".."] else acc ++ [".."].
Proof.
  unfold normalizeStep. cbn [bool_decide orb].
  rewrite !bool_decide_eq_false_2 by done. cbn [orb].
  rewrite bool_decide_eq_true_2 by done.
  rewrite last_snoc, bool_decide_eq_true_2 by done.
  destruct b; [by rewrite <- app_assoc | done].
Qed.

Lemma N_names acc names : Forall isName names -> N false acc names = acc ++ names.
Proof.
  intros Hnames. revert acc.
  induction Hnames as [|n names Hn _ IH]; intros acc; cbn [N fold_left].
  - by rewrite app_nil_r.
  - fold (N false (normalizeStep false acc n) names).
    rewrite IH, step_name by done. by rewrite <- app_assoc.
Qed.

Lemma N_ups acc k :
  Forall isName acc ->
  N false acc (replicate k "..") = take (length acc - k) acc.
Proof.
  revert acc. induction k as [|k IH]; intros acc Hacc; cbn [replicate N fold_left].
  - rewrite Nat.sub_0_r. by rewrite firstn_all.
  - fold (N false (normalizeStep false acc "..") (replicate k "..")).
    destruct acc as [|a acc _] using rev_ind.
    + rewrite step_up_nil. rewrite IH by done. reflexivity.
    + apply Forall_app in Hacc as [Hacc Ha].
      inversion Ha as [|? ? (_ & _ & Hup) _]; subst.
      rewrite step_up_name, IH by done.
      rewrite length_app. cbn [length].
      replace (length acc + 1 - S k)%nat with (length acc - k)%nat by lia.
      rewrite take_app_le by lia. reflexivity.
Qed.

(** The result of normalising with [..] allowed on top: some [..], then
    names. *)
Lemma N_true_shape s :
  exists k names,
    Forall isName names /\ N true [] s = replicate k ".." ++ names.
Proof.
  induction s as [|x s IH] using rev_ind.
  - exists 0%nat, []. by split.
  - destruct IH as (k & names & Hnames & HR).
    rewrite N_app, HR. cbn [N fold_left].
    destruct (decide (x = "" \/ x = ".")) as [Hskip|Hno].
    { rewrite step_skip by done. eauto. }
    destruct (decide (x = "..")) as [->|Hup].
    + destruct names as [|n names _] using rev_ind.
      * rewrite app_nil_r. destruct k as [|k].
        -- exists 1%nat, []. by split.
        -- exists (S (S k)), []. split; [done|].
           rewrite app_nil_r.
           replace (replicate (S k) "..") with (replicate k ".." ++ [".."])
             by (rewrite <- replicate_S_end; done).
           rewrite step_up_up.
           replace (replicate (S (S k)) "..")
             with (replicate k ".." ++ [".."; ".."]); [done|].
           change [".."; ".."] with ([".."] ++ [".."]).
           by rewrite app_assoc, <- !replicate_S_end.
      * apply Forall_app in Hnames as [Hnames Hn].
        inversion Hn as [|? ? (_ & _ & Hnup) _]; subst.
        exists k, names. split; [done|].
        by rewrite app_assoc, step_up_name.
    + exists k, (names ++ [x]). split.
      * apply Forall_app. split; [done|]. constructor; [|done].
        repeat split; [tauto | tauto | done].
      * rewrite step_name, app_assoc; [done|]. repeat split; [tauto|tauto|done].
Qed.

Lemma N_false_names acc s :
  Forall isName acc -> Forall isName (N false acc s).
Proof.
  revert acc. induction s as [|x s IH]; intros acc Hacc; [done|].
  cbn [N fold_left]. apply IH.
  destruct (decide (x = "" \/ x = ".")) as [Hskip|Hno].
  { by rewrite step_skip. }
  destruct (decide (x = "..")) as [->|Hup].
  - destruct acc as [|a acc _] using rev_ind; [done|].
    apply Forall_app in Hacc as [Hacc Ha].
    inversion Ha as [|? ? (_ & _ & Hnup) _]; subst.
    by rewrite step_up_name.
  - rewrite step_name; [|repeat split; [tauto|tauto|done]].
    apply Forall_app. split; [done|]. constructor; [|done].
    repeat split; [tauto|tauto|done].
Qed.

Lemma N_false_shape acc k names :
  Forall isName acc -> Forall isName names ->
  N false acc (replicate k ".." ++ names) = take (length acc - k) acc ++ names.
Proof.
  intros Hacc Hnames. rewrite N_app, N_ups by done. by rewrite N_names.
Qed.

Lemma step_up_replicate k :
  normalizeStep true (replicate k "..") ".." = replicate (S k) "..".
Proof.
  destruct k as [|k]; [done|].
  rewrite replicate_S_end, step_up_up.
  change [".."; ".."] with ([".."] ++ [".."]).
  by rewrite app_assoc, <- !replicate_S_end.
Qed.

Lemma step_false_up_names acc :
  Forall isName acc -> normalizeStep false acc ".." = removelast acc.
Proof.
  intros Hacc. destruct acc as [|a acc _] using rev_ind; [done|].
  apply Forall_app in Hacc as [_ Ha].
  inversion Ha as [|? ? (_ & _ & Hnup) _]; subst.
  by rewrite step_up_name, removelast_last.
Qed.

Lemma removelast_take {A} (l : list A) n :
  (n <= length l)%nat -> removelast (take n l) = take (n - 1) l.
Proof.
  intros Hn. destruct n as [|n]; [by destruct l|].
  cbn [Nat.sub]. rewrite Nat.sub_0_r. apply removelast_firstn. lia.
Qed.

(** Normalising first, with [..] allowed on top, does not change what a
    relative path resolves to. *)
Lemma N_false_after_true acc s :
  Forall isName acc -> N false acc (N true [] s) = N false acc s.
Proof.
  intros Hacc. induction s as [|x s IH] using rev_ind; [done|].
  rewrite !N_snoc, <- IH.
  destruct (N_true_shape s) as (k & names & Hnames & HR). rewrite HR.
  destruct (decide (x = "" \/ x = ".")) as [Hskip|Hno].
  { by rewrite !step_skip. }
  destruct (decide (x = "..")) as [->|Hup].
  - rewrite (N_false_shape acc k names) by done.
    destruct names as [|n names _] using rev_ind.
    + rewrite !app_nil_r, step_up_replicate.
      rewrite (N_ups acc (S k)) by done.
      rewrite step_false_up_names by (by apply Forall_take).
      rewrite removelast_take by lia. f_equal. lia.
    + apply Forall_app in Hnames as [Hnames Hn].
      inversion Hn as [|? ? (_ & _ & Hnup) _]; subst.
      rewrite !app_assoc, !step_up_name by done.
      by rewrite N_false_shape.
  - assert (isName x) as Hx by (repeat split; [tauto|tauto|done]).
    rewrite !step_name by done.
    by rewrite N_snoc, step_name.
Qed.

Lemma N_false_idempotent s : N false [] (N false [] s) = N false [] s.
Proof. apply N_names, N_false_names. constructor. Qed.

(** *** [path.normalize] keeps what a path resolves to *)

Lemma Forall_removelast {A} (P : A -> Prop) l :
  Forall P l -> Forall P (removelast l).
Proof.
  destruct l as [|a l _] using rev_ind; [done|].
  rewrite removelast_last. by intros [? _]%Forall_app.
Qed.

Lemma normalizeStep_segments b acc x :
  Forall isSegment acc -> noSlash x -> Forall isSegment (normalizeStep b acc x).
Proof.
  intros Hacc Hx. unfold normalizeStep.
  assert (isSegment "..") as Hup by (by repeat split).
  repeat case_bool_decide; cbn [orb]; try done.
  - destruct (last acc); [|destruct b];
      repeat case_bool_decide; try destruct b;
      try done; try (by apply Forall_removelast);
      apply Forall_app; split; try done; by repeat constructor.
  - apply Forall_app; split; [done|]. repeat constructor; [tauto|done].
Qed.

Lemma N_segments b acc s :
  Forall isSegment acc -> Forall noSlash s -> Forall isSegment (N b acc s).
Proof.
  intros Hacc Hs. revert acc Hacc.
  induction Hs as [|x s Hx _ IH]; intros acc Hacc; [done|].
  cbn [N fold_left]. apply IH. by apply normalizeStep_segments.
Qed.

Lemma joinPath_empty segs :
  Forall isSegment segs -> joinPath segs = "" -> segs = [].
Proof.
  destruct segs as [|p segs]; [done|]. intros Hall.
  inversion Hall as [|? ? [Hp _] _]; subst.
  destruct segs; cbn [joinPath]; [done|].
  destruct p; [done | discriminate].
Qed.

Lemma isAbsolute_String c r :
  isAbsolute (String c r) = bool_decide (c = "/"%char).
Proof.
  unfold isAbsolute. cbn [String.prefix].
  destruct (ascii_dec "/" c) as [<-|Hne].
  - by destruct r.
  - by rewrite bool_decide_eq_false_2.
Qed.

Lemma isAbsolute_String_append c x y :
  isAbsolute (String c x +:+ y) = bool_decide (c = "/"%char).
Proof. exact (isAbsolute_String c (x +:+ y)). Qed.

Lemma isAbsolute_slash x : isAbsolute ("/" +:+ x) = true.
Proof. by destruct x. Qed.

Lemma isAbsolute_joinPath segs :
  Forall isSegment segs -> isAbsolute (joinPath segs) = false.
Proof.
  destruct segs as [|p segs]; [done|]. intros Hall.
  inversion Hall as [|? ? [Hp Hslash] _]; subst.
  destruct p as [|c p]; [done|]. destruct Hslash as [Hc _].
  destruct segs; cbn [joinPath].
  - rewrite (isAbsolute_String c p). by rewrite bool_decide_eq_false_2.
  - rewrite (isAbsolute_String_append c p). by rewrite bool_decide_eq_false_2.
Qed.

Lemma isAbsolute_append_slash x :
  x <> "" -> isAbsolute (x +:+ "/") = isAbsolute x.
Proof.
  destruct x as [|c x]; [done|]. intros _.
  by rewrite (isAbsolute_String c x), (isAbsolute_String_append c x "/").
Qed.

Lemma N_skip_last acc l : N false acc (l ++ [""]) = N false acc l.
Proof. rewrite N_snoc. by apply step_skip; left. Qed.

(** The segments of the normalised path, with the empty segment that a
    trailing slash adds. *)
Lemma splitOn_decorated segs (trailing : bool) :
  segs <> [] -> Forall isSegment segs ->
  splitOn "/" (if trailing then joinPath segs +:+ "/" else joinPath segs)
  = if trailing then segs ++ [""] else segs.
Proof.
  intros Hne Hall.
  assert (Forall noSlash segs) by (eapply Forall_impl; [done|]; by intros ? []).
  destruct trailing; [rewrite splitOn_append_slash|]; by rewrite splitOn_joinPath.
Qed.

Lemma resolveSegments_normalize cwd p :
  resolveSegments cwd (normalize p) = resolveSegments cwd p.
Proof.
  unfold normalize. case_bool_decide as Hempty.
  { subst p. unfold resolveSegments.
    change (isAbsolute ".") with false. change (isAbsolute "") with false.
    cbn iota. change (splitOn "/" ".") with ["."].
    change (splitOn "/" "") with [""].
    change (N false [] (splitOn "/" cwd ++ ["."])
            = N false [] (splitOn "/" cwd ++ [""])).
    by rewrite !N_snoc, !step_skip by tauto. }
  pose (segs := N (negb (isAbsolute p)) [] (splitOn "/" p)).
  change (normalizeSegments (negb (isAbsolute p)) (splitOn "/" p)) with segs.
  assert (Forall isSegment segs) as Hsegs.
  { apply (N_segments _ []); [done | apply splitOn_Forall_noSlash]. }
  unfold resolveSegments.
  destruct (isAbsolute p) eqn:Habs; cbn [negb] in *.
  - (* an absolute path *)
    change (normalizeSegments false (splitOn "/" p)) with segs.
    case_bool_decide as Hpath.
    + apply joinPath_empty in Hpath; [|done]. by rewrite Hpath.
    + assert (segs <> []) by (by intros Hnil; rewrite Hnil in Hpath).
      set (path' := if endsWithSlash p then _ else _).
      rewrite isAbsolute_slash, splitOn_slash_append. subst path'.
      rewrite splitOn_decorated by done.
      change (normalizeSegments false ("" :: ?l)) with (N false [] l).
      destruct (endsWithSlash p); rewrite ?N_skip_last; apply N_false_idempotent.
  - (* a relative path *)
    assert (forall l, normalizeSegments false (splitOn "/" cwd ++ l)
                      = N false (N false [] (splitOn "/" cwd)) l) as Hcwd.
    { intros l. apply (N_app false [] (splitOn "/" cwd) l). }
    assert (Forall isName (N false [] (splitOn "/" cwd))) as Hacc.
    { apply N_false_names. constructor. }
    rewrite (Hcwd (splitOn "/" p)), <- N_false_after_true by done.
    change (N true [] (splitOn "/" p)) with segs.
    case_bool_decide as Hpath.
    + apply joinPath_empty in Hpath; [|done]. rewrite Hpath.
      destruct (endsWithSlash p);
        [change (isAbsolute "./") with false | change (isAbsolute ".") with false];
        cbn iota; rewrite Hcwd; reflexivity.
    + assert (segs <> []) by (by intros Hnil; rewrite Hnil in Hpath).
      set (path' := if endsWithSlash p then _ else _).
      assert (isAbsolute path' = false) as ->.
      { subst path'. destruct (endsWithSlash p);
          rewrite ?isAbsolute_append_slash by done;
          by apply isAbsolute_joinPath. }
      rewrite Hcwd. subst path'. rewrite splitOn_decorated by done.
      destruct (endsWithSlash p); by rewrite ?N_skip_last.
Qed.

(** *** Paths outside the working directory are rejected *)

Lemma validatePath_outside cwd filePath :
  resolvesOutside cwd filePath ->
  validatePath cwd filePath = inl (outsideScope filePath).
Proof.
  intros Hout. unfold validatePath.
  rewrite relative_outside; [reflexivity|].
  by rewrite resolveSegments_normalize.
Qed.

End PathFacts.

(** ** The tools *)

Module ToolsFacts.
Import Utils Analyzer Tools.

Lemma bind_returns {A B} (m : M A) (f : A -> M B) tr b :
  bind m f = (tr, inr b) ->
  exists tr1 a tr2, m = (tr1, inr a) /\ f a = (tr2, inr b) /\ tr = tr1 ++ tr2.
Proof.
  destruct m as [tr1 [e|a]]; cbn [bind]; [discriminate|].
  destruct (f a) as [tr2 r] eqn:Hf. intros [= <- ->]. eauto 6.
Qed.

Lemma bind_throws_first {A B} (m : M A) (f : A -> M B) tr e :
  m = (tr, inl e) -> bind m f = (tr, inl e).
Proof. intros ->. reflexivity. Qed.

Lemma elem_of_slice0 {A} (n : Z) (l : list A) x : x ∈ slice0 n l -> x ∈ l.
Proof.
  unfold slice0. destruct (0 <=? n)%Z; intros Hin;
    apply elem_of_take in Hin as (i & Hi & _); eapply list_elem_of_lookup_2, Hi.
Qed.

(** Which parents make [getReferenceKind] answer what. *)
Lemma getReferenceKind_cases node :
  (getReferenceKind node = RCall
   <-> getKind <$> getParent node = Some CallExpression)
  /\ (getReferenceKind node = RImport
      <-> getKind <$> getParent node = Some ImportSpecifier)
  /\ (getReferenceKind node = RWrite
      <-> getKind <$> getParent node = Some BinaryExpression
          /\ getKind <$> (getParent node ≫= getOperatorToken) = Some EqualsToken)
  /\ (getReferenceKind node = RRead
      <-> getKind <$> getParent node <> Some CallExpression
          /\ getKind <$> getParent node <> Some ImportSpecifier
          /\ ~ (getKind <$> getParent node = Some BinaryExpression
                /\ getKind <$> (getParent node ≫= getOperatorToken)
                   = Some EqualsToken)).
Proof.
  unfold getReferenceKind.
  destruct (getParent node) as [parent|]; cbn [fmap option_fmap option_map mbind option_bind].
  2: { repeat split; intros; try discriminate; try tauto;
       try (destruct H; discriminate); intros []; discriminate. }
  repeat case_bool_decide; cbn [andb];
    repeat split; intros; try discriminate; try congruence; try tauto;
    repeat match goal with
           | H : _ /\ _ |- _ => destruct H
           | H : Some _ = Some _ |- _ => injection H as H
           | |- _ /\ _ => split
           | |- ~ _ => intros ?
           | |- Some _ = Some _ => f_equal
           end; try congruence.
  exfalso. apply H5. split; [congruence | assumption].
Qed.

Lemma findSymbolAtPosition_cases ls sourceFile position :
  match getPositionOfLineAndCharacter ls sourceFile
          (line position) (character position) with
  | inl message =>
      findSymbolAtPosition ls sourceFile position = ([], inl (ThrowError message))
  | inr offset =>
      findSymbolAtPosition ls sourceFile position
      = ret (getDescendantAtPos ls sourceFile offset)
  end.
Proof.
  unfold findSymbolAtPosition, positionToOffset.
  by destruct (getPositionOfLineAndCharacter _ _ _ _).
Qed.

Lemma findSymbolAtPosition_returns ls sourceFile position tr found :
  findSymbolAtPosition ls sourceFile position = (tr, inr found) ->
  findSymbolAtPosition ls sourceFile position = ret found.
Proof.
  pose proof (findSymbolAtPosition_cases ls sourceFile position) as Hcases.
  destruct (getPositionOfLineAndCharacter _ _ _ _); rewrite Hcases;
    [discriminate|].
  by intros [= <- <-].
Qed.

Lemma loadFiles_spec w paths loaded :
  exists tr,
    loadFiles w paths loaded = (tr, inr (loaded ++ omap (fun p => files w !! p) paths))
    /\ readsOf tr = paths
    /\ length (loggedBy tr)
       = length (List.filter (fun p => bool_decide (files w !! p = None)) paths).
Proof.
  revert loaded. induction paths as [|p paths IH]; intros loaded.
  - exists []. by rewrite app_nil_r.
  - cbn [loadFiles omap list_omap List.filter].
    unfold addSourceFileAtPath.
    destruct (files w !! p) as [sf|] eqn:Hp.
    + destruct (IH (loaded ++ [sf])) as (tr & Hrun & Hreads & Hlogged).
      exists (ReadFile p :: tr). cbn [bind ret emit tryCatch app].
      rewrite Hrun. rewrite <- app_assoc. cbn [app].
      rewrite bool_decide_eq_false_2 by done.
      split; [done|]. split; [|exact Hlogged].
      change (readsOf (ReadFile p :: tr)) with (p :: readsOf tr). by rewrite Hreads.
    + destruct (IH loaded) as (tr & Hrun & Hreads & Hlogged).
      eexists (ReadFile p :: ConsoleError _ :: tr).
      cbn [bind ret emit throw tryCatch app]. rewrite Hrun. cbn [app].
      rewrite bool_decide_eq_true_2 by done.
      split; [done|]. split.
      * change (readsOf (ReadFile p :: ConsoleError ?t :: tr))
          with (p :: readsOf tr). by rewrite Hreads.
      * change (loggedBy (ReadFile p :: ConsoleError ?t :: tr))
          with (t :: loggedBy tr). cbn [length]. by rewrite Hlogged.
Qed.

Lemma slice0_map {A B} (f : A -> B) (n : Z) (l : list A) :
  slice0 n (map f l) = map f (slice0 n l).
Proof.
  unfold slice0. rewrite length_map.
  destruct (0 <=? n)%Z; by rewrite fmap_take.
Qed.

(** What a call of [findReferences] that returns has returned. *)
Lemma findReferences_result ls w params tr result :
  findReferences ls w params = (tr, inr result) ->
  exists sourceFile node,
    files w !! frFilePath params = Some sourceFile
    /\ findSymbolAtPosition ls sourceFile (frPosition params) = ret (Some node)
    /\ references result
       = map (describeReference (loadedFiles w params sourceFile))
           (slice0 (frMaxResults params)
              (referenceNodes ls (loadedFiles w params sourceFile) node))
    /\ totalReferences result
       = Z.of_nat
           (length (referenceNodes ls (loadedFiles w params sourceFile) node)).
Proof.
  unfold findReferences. intros Hrun.
  apply bind_returns in Hrun as (tr1 & [] & tr2 & _ & Hrun & _).
  apply bind_returns in Hrun as (tr3 & sourceFile & tr4 & Hload & Hrun & _).
  apply bind_returns in Hrun as (tr5 & found & tr6 & Hfound & Hrun & _).
  apply findSymbolAtPosition_returns in Hfound.
  destruct found as [node|]; [|discriminate].
  destruct (symbolName (getInfo (focus node))); [|discriminate].
  apply bind_returns in Hrun as (tr7 & loaded & tr8 & Hloaded & Hrun & _).
  injection Hrun as _ <-.
  assert (loaded = loadedFiles w params sourceFile) as ->.
  { unfold loadedFiles. destruct (frScope params).
    - by injection Hloaded as _ <-.
    - destruct (loadFiles_spec w (take 50 (projectFiles w)) [sourceFile])
        as (tr' & Hspec & _).
      rewrite Hspec in Hloaded. by injection Hloaded as _ <-. }
  exists sourceFile, node. cbn [references totalReferences].
  split; [|split; [done|split]].
  - unfold addSourceFileAtPath in Hload.
    destruct (files w !! frFilePath params); [|discriminate].
    cbn in Hload. by injection Hload as _ ->.
  - apply slice0_map.
  - by rewrite length_map.
Qed.

End ToolsFacts.

Module ReferenceClaims.
Import Utils Analyzer Tools Fixtures ToolsFacts.

(** C4, as stated, fails for the right operand of an assignment: in
    [let x; let y; x = y;] the occurrence of [y] in [x = y] is not the
    left operand, so the specification classifies it as a read, yet
    [findReferences] returns it with kind [write]. *)
Lemma findReferences_right_operand_is_write :
  In yAssigned (descendantRefs (root fileAssign) [])
  /\ isLeftOperand yAssigned = false
  /\ specReferenceKind yAssigned = RRead
  /\ exists result,
       findReferences assignService assignWorld referencesOfY
       = ([ReadFile "src/assign.ts"], inr result)
       /\ references result
          = [describeReference [fileAssign] yDeclared;
             describeReference [fileAssign] yAssigned]
       /\ map referenceKind (references result) = [RRead; RWrite]
       /\ map referenceKind (references result)
          <> map specReferenceKind [yDeclared; yAssigned].
Proof.
  split; [|split; [|split]].
  - vm_compute. do 12 right. left. reflexivity.
  - reflexivity.
  - reflexivity.
  - eexists. split; [reflexivity|]. split; [reflexivity|].
    split; [reflexivity | discriminate].
Qed.

(** C4, amended: the references [findReferences] returns are, in order,
    the first [maxResults] of the occurrence nodes the language service
    reports for the symbol at the position; each carries the location of
    its node, and its kind is [call] exactly when the parent of the node
    is a call expression, [import] exactly when the parent is an import
    specifier, [write] exactly when the parent is a binary expression
    whose operator is the assignment operator [=] (whichever operand the
    occurrence is), and [read] in every other case. *)
Theorem findReferences_kind_by_parent ls w params sourceFile node tr result :
  files w !! frFilePath params = Some sourceFile ->
  findSymbolAtPosition ls sourceFile (frPosition params) = ret (Some node) ->
  findReferences ls w params = (tr, inr result) ->
  Forall2
    (fun entry refNode =>
       referenceLocation entry = nodeToLocation (focus refNode)
       /\ (referenceKind entry = RCall
           <-> getKind <$> getParent refNode = Some CallExpression)
       /\ (referenceKind entry = RImport
           <-> getKind <$> getParent refNode = Some ImportSpecifier)
       /\ (referenceKind entry = RWrite
           <-> getKind <$> getParent refNode = Some BinaryExpression
               /\ getKind <$> (getParent refNode ≫= getOperatorToken)
                  = Some EqualsToken)
       /\ (referenceKind entry = RRead
           <-> getKind <$> getParent refNode <> Some CallExpression
               /\ getKind <$> getParent refNode <> Some ImportSpecifier
               /\ ~ (getKind <$> getParent refNode = Some BinaryExpression
                     /\ getKind <$> (getParent refNode ≫= getOperatorToken)
                        = Some EqualsToken)))
    (references result)
    (slice0 (frMaxResults params)
       (referenceNodes ls (loadedFiles w params sourceFile) node)).
Proof.
  intros Hfile Hnode Hrun.
  destruct (findReferences_result ls w params tr result Hrun)
    as (sourceFile' & node' & Hfile' & Hnode' & -> & _).
  rewrite Hfile in Hfile'. injection Hfile' as <-.
  rewrite Hnode in Hnode'. injection Hnode' as <-.
  apply Forall2_fmap_l, Forall_Forall2_diag, Forall_forall.
  intros refNode _. split; [reflexivity|].
  apply getReferenceKind_cases.
Qed.

Lemma findReferences_kind_by_parent_witness :
  Forall2
    (fun entry refNode =>
       referenceLocation entry = nodeToLocation (focus refNode)
       /\ (referenceKind entry = RCall
           <-> getKind <$> getParent refNode = Some CallExpression)
       /\ (referenceKind entry = RImport
           <-> getKind <$> getParent refNode = Some ImportSpecifier)
       /\ (referenceKind entry = RWrite
           <-> getKind <$> getParent refNode = Some BinaryExpression
               /\ getKind <$> (getParent refNode ≫= getOperatorToken)
                  = Some EqualsToken)
       /\ (referenceKind entry = RRead
           <-> getKind <$> getParent refNode <> Some CallExpression
               /\ getKind <$> getParent refNode <> Some ImportSpecifier
               /\ ~ (getKind <$> getParent refNode = Some BinaryExpression
                     /\ getKind <$> (getParent refNode ≫= getOperatorToken)
                        = Some EqualsToken)))
    [describeReference [fileAssign] yDeclared;
     describeReference [fileAssign] yAssigned]
    [yDeclared; yAssigned].
Proof.
  apply (findReferences_kind_by_parent assignService assignWorld referencesOfY
           fileAssign yDeclared [ReadFile "src/assign.ts"]
           {| references := [describeReference [fileAssign] yDeclared;
                             describeReference [fileAssign] yAssigned];
              referencedSymbol := extractSymbolInfo (focus yDeclared) false;
              totalReferences := 2 |});
    reflexivity.
Defined.

End ReferenceClaims.

Module ScopeClaims.
Import Utils Analyzer Tools Fixtures PathFacts ToolsFacts.

Lemma outside_example : resolvesOutside "/work/project" "../outside/file.ts".
Proof. intros [k Hk]. vm_compute in Hk. discriminate. Qed.

(** C5, as stated, fails for [detect_code_smells]: with the file path
    [../outside/file.ts], which resolves outside the working directory
    [/work/project], the call does not fail; the scope error is caught
    and logged, no file is read, and the call returns an empty result. *)
Lemma detectCodeSmells_swallows_scope_error :
  resolvesOutside (cwd sampleWorld) "../outside/file.ts"
  /\ exists result,
       detectCodeSmells quietHelpers sampleWorld smellsOfOutside
       = ([ConsoleError
             "Error analyzing ../outside/file.ts: Path is outside allowed scope"],
          inr result)
       /\ smells result = []
       /\ total (smellSummary result) = 0.
Proof.
  split; [exact outside_example|].
  eexists. split; [reflexivity|]. split; reflexivity.
Qed.

Lemma validatePathM_outside {B} w filePath (k : unit -> M B) :
  resolvesOutside (cwd w) filePath ->
  bind (validatePathM w filePath) k
  = ([], inl (ThrowAnalysisError (outsideScope filePath))).
Proof.
  intros Hout. unfold validatePathM. by rewrite validatePath_outside.
Qed.

(** C5, amended: for [analyze_file], [get_symbol_info], [find_references]
    and [extract_context], a path that resolves outside the working
    directory makes the call fail with the scope error before any file is
    read (the trace of the call is empty).  [detect_code_smells] with
    such a file path reads no file either, but it does not fail: the
    scope error is caught and logged inside the work item of the file,
    and the call returns normally with no findings. *)
Theorem scope_error_before_any_read ls d h w filePath :
  resolvesOutside (cwd w) filePath ->
  (forall params,
      afFilePath params = filePath ->
      analyzeFile w params
      = ([], inl (ThrowAnalysisError (outsideScope filePath))))
  /\ (forall params,
        gsFilePath params = filePath ->
        getSymbolInfo ls w params
        = ([], inl (ThrowAnalysisError (outsideScope filePath))))
  /\ (forall params,
        frFilePath params = filePath ->
        findReferences ls w params
        = ([], inl (ThrowAnalysisError (outsideScope filePath))))
  /\ (forall fuel params,
        ecFilePath params = filePath ->
        extractContext ls d h w fuel params
        = ([], inl (ThrowAnalysisError (outsideScope filePath))))
  /\ (forall params,
        dsFilePath params = Some filePath ->
        filePath <> "" ->
        exists result,
          detectCodeSmells h w params
          = ([ConsoleError ("Error analyzing " +:+ filePath +:+ ": "
                            +:+ "Path is outside allowed scope")],
             inr result)
          /\ smells result = []
          /\ total (smellSummary result) = 0)
  /\ code (outsideScope filePath) = SCOPE_ERROR.
Proof.
  intros Hout. repeat split.
  - intros params <-. by apply validatePathM_outside.
  - intros params <-. by apply validatePathM_outside.
  - intros params <-. by apply validatePathM_outside.
  - intros fuel params <-. by apply validatePathM_outside.
  - intros params Hpath Hnonempty. unfold detectCodeSmells. rewrite Hpath.
    rewrite bool_decide_eq_false_2 by done.
    cbn [analyzeFiles]. unfold analyzeOneFile.
    rewrite validatePathM_outside by done.
    eexists. split; [reflexivity|]. split; reflexivity.
Qed.

Lemma scope_error_before_any_read_witness :
  analyzeFile sampleWorld (analyzeAll "../outside/file.ts" 2 Summary)
  = ([], inl (ThrowAnalysisError (outsideScope "../outside/file.ts")))
  /\ exists result,
       detectCodeSmells quietHelpers sampleWorld smellsOfOutside
       = ([ConsoleError
             "Error analyzing ../outside/file.ts: Path is outside allowed scope"],
          inr result)
       /\ smells result = []
       /\ total (smellSummary result) = 0.
Proof.
  destruct (scope_error_before_any_read assignService silentDeclarations
              quietHelpers sampleWorld "../outside/file.ts" outside_example)
    as (Hanalyze & _ & _ & _ & Hsmells & _).
  split.
  - apply Hanalyze. reflexivity.
  - apply Hsmells; [reflexivity | discriminate].
Defined.

End ScopeClaims.

(** ** The analysis cache *)

Module CacheFacts.
Import Cache.

Section ValueInduction.
Variable P : JSValue -> Prop.
Hypothesis Hundefined : P JUndefined.
Hypothesis Hnull : P JNull.
Hypothesis Hbool : forall b, P (JBool b).
Hypothesis Hnumber : forall n, P (JNumber n).
Hypothesis Hstring : forall s, P (JString s).
Hypothesis Harray : forall items, Forall P items -> P (JArray items).
Hypothesis Hobject : forall props, Forall (fun p => P p.2) props -> P (JObject props).

Lemma JSValue_nested_ind (v : JSValue) : P v.
Proof.
  revert v. fix IH 1.
  intros [| |b|n|s|items|props];
    [apply Hundefined | apply Hnull | apply Hbool | apply Hnumber
    | apply Hstring | | ].
  - apply Harray. induction items as [|x items IHitems]; constructor;
      [apply IH | exact IHitems].
  - apply Hobject. induction props as [|[k x] props IHprops]; constructor;
      [apply IH | exact IHprops].
Qed.
End ValueInduction.

Lemma serialize_array K items :
  serialize K (JArray items)
  = Some ("[" +:+ joinComma (elementsOf K items) +:+ "]").
Proof.
  cbn [serialize].
  assert ((fix elements (l : list JSValue) : list string :=
             match l with
             | [] => []
             | x :: l' => default "null" (serialize K x) :: elements l'
             end) items = elementsOf K items) as ->; [|done].
  unfold elementsOf. induction items as [|x items IH]; [done|].
  cbn [map]. by f_equal.
Qed.

Lemma serialize_object K props :
  serialize K (JObject props)
  = Some ("{" +:+
          joinComma (omap (member (serializedProps K props))
                       (default (keysOf props) K))
          +:+ "}").
Proof.
  cbn [serialize].
  assert ((fix each (l : list (string * JSValue)) : list (string * option string) :=
             match l with
             | [] => []
             | (k, x) :: l' => (k, serialize K x) :: each l'
             end) props = serializedProps K props) as ->; [|done].
  unfold serializedProps. induction props as [|[k x] props IH]; [done|].
  cbn [map fst snd]. by f_equal.
Qed.

Lemma lookupProperty_serialized K props key :
  lookupProperty key (serializedProps K props)
  = serialize K <$> lookupProperty key props.
Proof.
  induction props as [|[k x] props IH]; [done|].
  cbn [serializedProps map lookupProperty fst snd].
  case_bool_decide; [done|]. exact IH.
Qed.

Lemma lookupProperty_None {A} key (props : list (string * A)) :
  lookupProperty key props = None <-> key ∉ keysOf props.
Proof.
  induction props as [|[k x] props IH]; cbn [lookupProperty keysOf map fst].
  - split; [intros _; apply not_elem_of_nil | done].
  - rewrite not_elem_of_cons. case_bool_decide as Hk.
    + split; [discriminate | intros [Hne _]; by subst].
    + fold (keysOf props). rewrite IH. split; [intros ?; split; [congruence|done] | tauto].
Qed.

Lemma lookupProperty_elem {A} key (props : list (string * A)) x :
  lookupProperty key props = Some x -> (key, x) ∈ props.
Proof.
  induction props as [|[k y] props IH]; cbn [lookupProperty]; [discriminate|].
  case_bool_decide as Hk.
  - intros [= ->]. subst. by left.
  - intros ?. right. by apply IH.
Qed.

(** *** Order of keys *)

Lemma same_array l1 l2 :
  sameUpToKeyOrder (JArray l1) (JArray l2) <-> Forall2 sameUpToKeyOrder l1 l2.
Proof.
  cbn [sameUpToKeyOrder]. revert l2.
  induction l1 as [|x l1 IH]; intros [|y l2].
  - split; [constructor | done].
  - split; [done | inversion 1].
  - split; [done | inversion 1].
  - rewrite Forall2_cons, <- IH. reflexivity.
Qed.

Lemma same_object p1 p2 :
  sameUpToKeyOrder (JObject p1) (JObject p2)
  <-> NoDup (keysOf p1) /\ NoDup (keysOf p2)
      /\ (forall k, k ∈ keysOf p1 <-> k ∈ keysOf p2)
      /\ Forall (fun p => exists y, lookupProperty p.1 p2 = Some y
                                    /\ sameUpToKeyOrder p.2 y) p1.
Proof.
  cbn [sameUpToKeyOrder].
  assert (forall l,
            (fix all (l : list (string * JSValue)) : Prop :=
               match l with
               | [] => True
               | (k, x) :: l' =>
                   (exists y, lookupProperty k p2 = Some y /\ sameUpToKeyOrder x y)
                   /\ all l'
               end) l
            <-> Forall (fun p => exists y, lookupProperty p.1 p2 = Some y
                                           /\ sameUpToKeyOrder p.2 y) l) as Hall.
  { induction l as [|[k x] l IH]; [by split|].
    rewrite Forall_cons, <- IH. reflexivity. }
  by rewrite Hall.
Qed.

Lemma serialize_same K v1 v2 :
  sameUpToKeyOrder v1 v2 -> serialize (Some K) v1 = serialize (Some K) v2.
Proof.
  revert v2. induction v1 as [| |b|n|s|items IH|props IH] using JSValue_nested_ind;
    intros [| |b'|n'|s'|items'|props']; try done;
    try (by cbn; intros ->).
  - intros Hsame%same_array. rewrite !serialize_array.
    assert (elementsOf (Some K) items = elementsOf (Some K) items') as ->;
      [|done].
    unfold elementsOf. induction Hsame as [|x y l1 l2 Hxy _ IHl]; [done|].
    inversion IH as [|? ? Hx Hl1]; subst. cbn [map].
    rewrite (Hx _ Hxy). f_equal. by apply IHl.
  - intros (Hnd1 & Hnd2 & Hkeys & Hall)%same_object.
    rewrite !serialize_object. cbn [from_option id].
    assert (omap (member (serializedProps (Some K) props)) K
            = omap (member (serializedProps (Some K) props')) K) as ->;
      [|done].
    apply list_omap_ext, Forall_Forall2_diag, Forall_forall. intros P _.
    unfold member.
    rewrite !lookupProperty_serialized.
    destruct (lookupProperty P props) as [x|] eqn:Hx.
    + apply lookupProperty_elem in Hx as Hin.
      rewrite Forall_forall in Hall, IH.
      destruct (Hall _ Hin) as (y & Hy & Hxy). cbn [fst snd] in *.
      rewrite Hy. cbn [fmap option_fmap option_map].
      pose proof (IH _ Hin _ Hxy) as Heq. cbn [snd] in Heq. by rewrite Heq.
    + apply lookupProperty_None in Hx.
      assert (lookupProperty P props' = None) as ->; [|done].
      apply lookupProperty_None. by rewrite <- Hkeys.
Qed.

Lemma sortedKeys_same v1 v2 :
  sameUpToKeyOrder v1 v2 -> sortedKeys v1 = sortedKeys v2.
Proof.
  destruct v1, v2; try done.
  - intros Hsame%same_array. unfold sortedKeys.
    by rewrite (Forall2_length _ _ _ Hsame).
  - intros (Hnd1 & Hnd2 & Hkeys & _)%same_object. unfold sortedKeys.
    apply (Sorted_unique String.le).
    + apply Sorted_merge_sort; apply _.
    + apply Sorted_merge_sort; apply _.
    + rewrite !merge_sort_Permutation. by apply NoDup_Permutation.
Qed.

Lemma normalizePart_same v1 v2 :
  sameUpToKeyOrder v1 v2 -> normalizePart v1 = normalizePart v2.
Proof.
  intros Hsame.
  destruct v1, v2; try done; try (by cbn in Hsame; subst).
  - unfold normalizePart, stringifyWith.
    by rewrite (sortedKeys_same _ _ Hsame), (serialize_same _ _ _ Hsame).
  - unfold normalizePart, stringifyWith.
    by rewrite (sortedKeys_same _ _ Hsame), (serialize_same _ _ _ Hsame).
Qed.

(** *** Keys that the property list leaves out *)

Lemma elem_of_dedupe x l : x ∈ dedupe l -> x ∈ l.
Proof.
  induction l as [|y l IH]; cbn [dedupe]; [done|].
  intros [->|Hin]%elem_of_cons; [by left|]. right. apply IH.
  apply list_elem_of_In in Hin. apply List.filter_In in Hin as [Hin _].
  by apply list_elem_of_In.
Qed.

Lemma serialize_agreeing_objects K inner1 inner2 :
  (forall P, P ∈ K -> lookupProperty P inner1 = lookupProperty P inner2) ->
  serialize (Some K) (JObject inner1) = serialize (Some K) (JObject inner2).
Proof.
  intros Hagree. rewrite !serialize_object. cbn [from_option id].
  assert (omap (member (serializedProps (Some K) inner1)) K
          = omap (member (serializedProps (Some K) inner2)) K) as ->; [|done].
  apply list_omap_ext, Forall_Forall2_diag, Forall_forall. intros P HP.
  unfold member. by rewrite !lookupProperty_serialized, (Hagree P HP).
Qed.

Lemma keysOf_app {A} (l1 l2 : list (string * A)) :
  keysOf (l1 ++ l2) = keysOf l1 ++ keysOf l2.
Proof. apply map_app. Qed.

Lemma normalizePart_nested before k inner1 inner2 after :
  (forall P, P ∈ keysOf (before ++ (k, JObject inner1) :: after) ->
             lookupProperty P inner1 = lookupProperty P inner2) ->
  normalizePart (JObject (before ++ (k, JObject inner1) :: after))
  = normalizePart (JObject (before ++ (k, JObject inner2) :: after)).
Proof.
  intros Hagree. unfold normalizePart, stringifyWith.
  assert (sortedKeys (JObject (before ++ (k, JObject inner2) :: after))
          = sortedKeys (JObject (before ++ (k, JObject inner1) :: after))) as ->.
  { unfold sortedKeys. by rewrite !keysOf_app. }
  set (K := dedupe _). f_equal.
  rewrite !serialize_object. cbn [from_option id].
  assert (serializedProps (Some K) (before ++ (k, JObject inner1) :: after)
          = serializedProps (Some K) (before ++ (k, JObject inner2) :: after))
    as ->; [|done].
  unfold serializedProps. rewrite !map_app. cbn [map fst snd]. do 3 f_equal.
  apply serialize_agreeing_objects. intros P HP. apply Hagree.
  apply elem_of_dedupe in HP. unfold sortedKeys in HP.
  by rewrite merge_sort_Permutation in HP.
Qed.

(** *** What the store keeps of a value *)

Lemma persisted_array items :
  persisted (JArray items) = JArray (map keepElement items).
Proof.
  reflexivity.
Qed.

Lemma persisted_object props :
  persisted (JObject props) = JObject (omap keepProperty props).
Proof.
  induction props as [|[k x] props IH]; [done|].
  cbn [persisted omap list_omap] in *. injection IH as IH.
  unfold keepProperty at 1. cbn [fst snd]. rewrite IH.
  by destruct (persisted x).
Qed.

Lemma wellFormed_array items :
  wellFormed (JArray items) <-> Forall wellFormed items.
Proof.
  cbn [wellFormed]. induction items as [|x items IH]; [by split|].
  by rewrite Forall_cons, <- IH.
Qed.

Lemma wellFormed_object props :
  wellFormed (JObject props)
  <-> NoDup (keysOf props) /\ Forall (fun p => wellFormed p.2) props.
Proof.
  cbn [wellFormed]. apply and_iff_compat_l.
  induction props as [|[k x] props IH]; [by split|].
  by rewrite Forall_cons, <- IH.
Qed.

Lemma isJson_array items : isJson (JArray items) <-> Forall isJson items.
Proof.
  cbn [isJson]. induction items as [|x items IH]; [by split|].
  by rewrite Forall_cons, <- IH.
Qed.

Lemma isJson_object props :
  isJson (JObject props) <-> Forall (fun p => isJson p.2) props.
Proof.
  cbn [isJson]. induction props as [|[k x] props IH]; [by split|].
  by rewrite Forall_cons, <- IH.
Qed.

Lemma persisted_undefined v : persisted v = JUndefined <-> v = JUndefined.
Proof. destruct v; cbn; split; congruence. Qed.

Lemma keepElement_unchanged x : keepElement x = x -> persisted x = x /\ x <> JUndefined.
Proof.
  unfold keepElement. intros Hkeep.
  destruct (persisted x) eqn:Hx; try (split; [congruence|]; intros ->; by cbn in Hx).
  subst x. by cbn in Hx.
Qed.

Lemma length_kept props : (length (omap keepProperty props) <= length props)%nat.
Proof.
  induction props as [|p props IH]; [done|].
  change (omap keepProperty (p :: props))
    with (match keepProperty p with
          | Some q => q :: omap keepProperty props
          | None => omap keepProperty props
          end).
  destruct (keepProperty p); cbn [length]; lia.
Qed.

Lemma kept_unchanged props :
  omap keepProperty props = props ->
  Forall (fun p => persisted p.2 = p.2 /\ p.2 <> JUndefined) props.
Proof.
  induction props as [|p props IH]; [constructor|].
  change (omap keepProperty (p :: props))
    with (match keepProperty p with
          | Some q => q :: omap keepProperty props
          | None => omap keepProperty props
          end).
  destruct (keepProperty p) as [q|] eqn:Hp.
  - intros [= -> Hrest]. constructor; [|by apply IH].
    unfold keepProperty in Hp. destruct p as [k x]. cbn [fst snd] in *.
    destruct (persisted x) eqn:Hx; try discriminate;
      injection Hp as Hsame; subst x; (split; [done|]); discriminate.
  - intros Hsame. pose proof (length_kept props) as Hlen.
    rewrite Hsame in Hlen. cbn [length] in Hlen. lia.
Qed.

(** A value that the store keeps as it is has no [undefined] inside. *)
Lemma unchanged_isJson v : v <> JUndefined -> persisted v = v -> isJson v.
Proof.
  induction v as [| |b|n|s|items IH|props IH] using JSValue_nested_ind;
    try done.
  - intros _. rewrite persisted_array. intros [= Hitems].
    apply isJson_array. induction items as [|x items IHitems]; [constructor|].
    cbn [map] in Hitems. injection Hitems as Hx Hitems.
    inversion IH as [|? ? IHx IHrest]; subst.
    apply keepElement_unchanged in Hx as [Hx Hdefined].
    constructor; [by apply IHx | by apply IHitems].
  - intros _. rewrite persisted_object. intros [= Hprops].
    apply isJson_object. apply kept_unchanged in Hprops.
    induction props as [|p props IHprops]; [constructor|].
    inversion IH as [|? ? IHp IHrest]; subst.
    inversion Hprops as [|? ? [Hp Hdefined] Hrest]; subst.
    constructor; [by apply IHp | by apply IHprops].
Qed.

Lemma persisted_isJson v : isJson v -> persisted v = v.
Proof.
  induction v as [| |b|n|s|items IH|props IH] using JSValue_nested_ind;
    try done.
  - intros Hjson%isJson_array. rewrite persisted_array. f_equal.
    induction items as [|x items IHitems]; [done|].
    inversion IH; inversion Hjson; subst. cbn [map]. f_equal; [|by auto].
    unfold keepElement. rewrite H1 by done. by destruct x.
  - intros Hjson%isJson_object. rewrite persisted_object. f_equal.
    induction props as [|[k x] props IHprops]; [done|].
    inversion IH; inversion Hjson; subst. cbn [omap list_omap fst snd] in *.
    unfold keepProperty at 1. cbn [fst snd]. rewrite H1 by done.
    rewrite IHprops by done. by destruct x.
Qed.

Lemma members_distinct_keys K props :
  NoDup (keysOf props) ->
  omap (member (serializedProps K props)) (keysOf props)
  = omap (memberOf K) props.
Proof.
  induction props as [|[k x] props IH]; [done|].
  cbn [keysOf map fst]. fold (keysOf props).
  intros [Hk Hnd]%NoDup_cons. cbn [omap list_omap].
  assert (member (serializedProps K ((k, x) :: props)) k = memberOf K (k, x)) as ->.
  { unfold member, memberOf. cbn [serializedProps map lookupProperty fst snd].
    rewrite bool_decide_eq_true_2 by done. by destruct (serialize K x). }
  assert (omap (member (serializedProps K ((k, x) :: props))) (keysOf props)
          = omap (member (serializedProps K props)) (keysOf props)) as ->.
  { apply list_omap_ext, Forall_Forall2_diag, Forall_forall. intros P HP.
    unfold member. cbn [serializedProps map lookupProperty fst snd].
    rewrite bool_decide_eq_false_2; [done|]. by intros ->. }
  by rewrite IH.
Qed.

Lemma keysOf_kept props : keysOf (omap keepProperty props) `sublist_of` keysOf props.
Proof.
  induction props as [|[k x] props IH]; [done|].
  cbn [omap list_omap]. unfold keepProperty at 1. cbn [fst snd].
  destruct (persisted x); cbn [keysOf map fst];
    first [by apply sublist_cons | by apply sublist_skip].
Qed.

Lemma stringify_persisted v :
  wellFormed v -> stringify (persisted v) = stringify v.
Proof.
  unfold stringify.
  induction v as [| |b|n|s|items IH|props IH] using JSValue_nested_ind;
    try done.
  - intros Hwf%wellFormed_array. rewrite persisted_array, !serialize_array.
    assert (elementsOf None (map keepElement items) = elementsOf None items)
      as ->; [|done].
    unfold elementsOf. rewrite map_map. apply map_ext_Forall.
    rewrite Forall_forall in IH, Hwf. apply Forall_forall. intros x Hx.
    unfold keepElement. rewrite <- (IH x Hx (Hwf x Hx)).
    by destruct (persisted x).
  - intros [Hnd Hwf]%wellFormed_object.
    rewrite persisted_object, !serialize_object. cbn [from_option id].
    rewrite !members_distinct_keys;
      [|done|exact (sublist_NoDup _ _ Hnd (keysOf_kept props))].
    assert (omap (memberOf None) (omap keepProperty props)
            = omap (memberOf None) props) as ->; [|done].
    clear Hnd. induction props as [|[k x] props IHprops]; [done|].
    inversion IH as [|? ? Hx Hprops]; inversion Hwf as [|? ? Hwfx Hwfprops];
      subst. cbn [fst snd] in *.
    assert (memberOf None (k, x) = memberOf None (k, persisted x)) as Hm.
    { unfold memberOf. cbn [fst snd]. by rewrite Hx. }
    cbn [omap list_omap]. rewrite Hm. unfold keepProperty at 1. cbn [fst snd].
    destruct (persisted x); cbn [omap list_omap]; by rewrite IHprops.
Qed.

End CacheFacts.

Module CacheClaims.
Import Cache CacheFacts Fixtures.

Ltac distinct_keys :=
  cbn [keysOf map fst];
  repeat (apply NoDup_cons_2;
          [rewrite ?not_elem_of_cons; repeat split; try discriminate;
           apply not_elem_of_nil|]);
  apply NoDup_nil_2.

Ltac same_keys :=
  let k := fresh "k" in
  intros k; cbn [keysOf map fst]; rewrite !elem_of_cons, !elem_of_nil; tauto.

Lemma paramsLine1_reordered : sameUpToKeyOrder paramsLine1 paramsLine1Reordered.
Proof.
  apply same_object.
  split; [distinct_keys|]. split; [distinct_keys|]. split; [same_keys|].
  repeat constructor.
  - by eexists.
  - eexists. split; [reflexivity|]. apply same_object.
    split; [distinct_keys|]. split; [distinct_keys|]. split; [same_keys|].
    repeat constructor; by eexists.
Qed.

Lemma wellFormed_position n :
  wellFormed
    (JObject [("filePath", JString "a.ts");
              ("position", JObject [("line", JNumber n);
                                    ("character", JNumber 2)])]).
Proof.
  apply wellFormed_object. split; [distinct_keys|].
  apply Forall_cons; split; [exact I|].
  apply Forall_cons; split; [|apply Forall_nil_2].
  cbn [snd]. apply wellFormed_object. split; [distinct_keys|].
  repeat (apply Forall_cons; split; [exact I|]). apply Forall_nil_2.
Qed.

Lemma storage_after_set key value tSet m :
  storage (analysisCache (setCachedAnalysis key value tSet m)) !! key
  = Some {| data := persisted value; timestamp := tSet; contentHash := None |}.
Proof. cbn. apply lookup_insert_eq. Qed.

(** The time-to-live of a manager is the configured one, or one hour when
    none (or 0) is configured. *)
Lemma newCacheManager_ttl cwd options disk :
  ttl (newCacheManager cwd options disk)
  = match optTtl options with
    | Some t => if (t =? 0)%Z then 3600000 else t
    | None => 3600000
    end.
Proof. reflexivity. Qed.

Lemma getCachedAnalysis_fresh key cached now m :
  storage (analysisCache m) !! key = Some cached ->
  now - timestamp cached <= ttl m ->
  (getCachedAnalysis key now m).1 = data cached
  /\ storage (analysisCache (getCachedAnalysis key now m).2)
     = storage (analysisCache m).
Proof.
  intros Hstored Hfresh. unfold getCachedAnalysis, diskGet. cbn [init storage].
  rewrite Hstored.
  destruct (Z.gtb_spec (now - timestamp cached) (ttl m)); [lia|]. by split.
Qed.

Lemma getCachedAnalysis_expired key cached now m :
  storage (analysisCache m) !! key = Some cached ->
  ttl m < now - timestamp cached ->
  (getCachedAnalysis key now m).1 = JUndefined
  /\ storage (analysisCache (getCachedAnalysis key now m).2) !! key = None.
Proof.
  intros Hstored Hold. unfold getCachedAnalysis, diskGet. cbn [init storage].
  rewrite Hstored.
  destruct (Z.gtb_spec (now - timestamp cached) (ttl m)); [|lia].
  split; [done|]. cbn. apply lookup_delete_eq.
Qed.

(** C7, as stated, fails for a result that has a property without a
    value, as the record of a symbol without documentation has: stored
    and looked up again within the time-to-live, it comes back without
    that property. *)
Lemma cached_result_loses_undefined_properties :
  1500 - 1000 <= ttl freshCache
  /\ (getCachedAnalysis "k" 1500
        (setCachedAnalysis "k" symbolRecord 1000 freshCache)).1
     = JObject [("name", JString "f"); ("kind", JString "function")]
  /\ (getCachedAnalysis "k" 1500
        (setCachedAnalysis "k" symbolRecord 1000 freshCache)).1
     <> symbolRecord.
Proof.
  split; [change (ttl freshCache) with 3600000; lia|].
  split; [reflexivity | discriminate].
Qed.

(** C7, amended: a result stored under a key with [setCachedAnalysis] at
    time [tSet] and looked up with [getCachedAnalysis] at time [tGet]
    comes back as the store keeps it as long as no more than the
    time-to-live has passed, and the entry stays; once more than the
    time-to-live has passed the look-up answers absent and the entry is
    removed from the store.  What the store keeps is what JSON keeps of
    the result: properties without a value are dropped and array elements
    without a value become [null].  So the result comes back unchanged
    exactly when it is a JSON value, one with no [undefined] inside; and
    what comes back always has the same JSON text as the result. *)
Theorem cached_analysis_round_trip key value tSet tGet m :
  let stored := setCachedAnalysis key value tSet m in
  (tGet - tSet <= ttl m ->
     (getCachedAnalysis key tGet stored).1 = persisted value
     /\ storage (analysisCache (getCachedAnalysis key tGet stored).2) !! key
        = storage (analysisCache stored) !! key)
  /\ (ttl m < tGet - tSet ->
        (getCachedAnalysis key tGet stored).1 = JUndefined
        /\ storage (analysisCache (getCachedAnalysis key tGet stored).2) !! key
           = None)
  /\ (isJson value -> persisted value = value)
  /\ (value <> JUndefined -> persisted value = value -> isJson value)
  /\ (wellFormed value -> stringify (persisted value) = stringify value).
Proof.
  intros stored.
  pose proof (storage_after_set key value tSet m) as Hstored. fold stored in Hstored.
  repeat split.
  - by apply (getCachedAnalysis_fresh key _ tGet stored Hstored).
  - f_equal. by apply (getCachedAnalysis_fresh key _ tGet stored Hstored).
  - by apply (getCachedAnalysis_expired key _ tGet stored Hstored).
  - by apply (getCachedAnalysis_expired key _ tGet stored Hstored).
  - apply persisted_isJson.
  - apply unchanged_isJson.
  - apply stringify_persisted.
Qed.

Lemma cached_analysis_round_trip_witness :
  (getCachedAnalysis "k" 1500 (setCachedAnalysis "k" sampleResult 1000 freshCache)).1
  = sampleResult
  /\ (getCachedAnalysis "k" 3601001
        (setCachedAnalysis "k" sampleResult 1000 freshCache)).1 = JUndefined
  /\ storage (analysisCache
                (getCachedAnalysis "k" 3601001
                   (setCachedAnalysis "k" sampleResult 1000 freshCache)).2)
     !! "k" = None.
Proof.
  destruct (cached_analysis_round_trip "k" sampleResult 1000 1500 freshCache)
    as (Hfresh & _ & Hjson & _).
  destruct (cached_analysis_round_trip "k" sampleResult 1000 3601001 freshCache)
    as (_ & Hexpired & _).
  split; [|split].
  - rewrite <- (Hjson ltac:(cbn; tauto)) at 2.
    apply Hfresh. change (ttl freshCache) with 3600000. lia.
  - apply Hexpired. change (ttl freshCache) with 3600000. lia.
  - apply Hexpired. change (ttl freshCache) with 3600000. lia.
Defined.

(** C8: parameter lists that are equal except for the order of the keys
    inside their object-valued parameters get the same cache key. *)
Theorem generateCacheKey_key_order parts1 parts2 :
  Forall2 sameUpToKeyOrder parts1 parts2 ->
  generateCacheKey parts1 = generateCacheKey parts2.
Proof.
  intros Hsame. unfold generateCacheKey. do 2 f_equal.
  induction Hsame as [|v1 v2 l1 l2 Hv _ IH]; [done|].
  cbn [map]. by rewrite (normalizePart_same _ _ Hv), IH.
Qed.

Lemma generateCacheKey_key_order_witness :
  paramsLine1 <> paramsLine1Reordered
  /\ generateCacheKey [JString "analyze"; paramsLine1]
     = generateCacheKey [JString "analyze"; paramsLine1Reordered].
Proof.
  split; [discriminate|].
  apply generateCacheKey_key_order.
  constructor; [reflexivity|]. constructor; [|constructor].
  exact paramsLine1_reordered.
Defined.

(** C9: an object-valued parameter is serialised through the sorted list
    of its own top-level keys, so two parameter objects that differ only
    under nested keys that are not top-level keys have the same cache key;
    such distinct objects exist; and a result cached for one of them is
    what a memoised call with the other returns while it is fresh. *)
Theorem generateCacheKey_drops_nested_keys :
  (forall props,
      normalizePart (JObject props)
      = default "undefined"
          (stringifyWith (JObject props) (merge_sort String.le (keysOf props))))
  /\ (forall before k inner1 inner2 after pre post,
        (forall P, P ∈ keysOf (before ++ (k, JObject inner1) :: after) ->
                   lookupProperty P inner1 = lookupProperty P inner2) ->
        generateCacheKey
          (pre ++ JObject (before ++ (k, JObject inner1) :: after) :: post)
        = generateCacheKey
            (pre ++ JObject (before ++ (k, JObject inner2) :: after) :: post))
  /\ (exists p q,
        p <> q /\ wellFormed p /\ wellFormed q
        /\ generateCacheKey [p] = generateCacheKey [q])
  /\ (forall fn p q value tSet tGet tSet' m,
        generateCacheKey p = generateCacheKey q ->
        persisted value <> JUndefined ->
        tGet - tSet <= ttl m ->
        (memoize fn None q tGet tSet'
           (setCachedAnalysis (generateCacheKey p) value tSet m)).1
        = persisted value).
Proof.
  split; [reflexivity|]. split; [|split].
  - intros before k inner1 inner2 after pre post Hagree.
    unfold generateCacheKey. rewrite !map_app. cbn [map].
    by rewrite (normalizePart_nested _ _ _ _ _ Hagree).
  - exists paramsLine1, paramsLine7. split; [discriminate|].
    split; [exact (wellFormed_position 1)|].
    split; [exact (wellFormed_position 7)|].
    unfold generateCacheKey. cbn [map].
    by assert (normalizePart paramsLine1 = normalizePart paramsLine7)
         as -> by (vm_compute; reflexivity).
  - intros fn p q value tSet tGet tSet' m Hkey Hdefined Hfresh.
    unfold memoize. rewrite <- Hkey.
    destruct (getCachedAnalysis_fresh (generateCacheKey p) _ tGet _
                (storage_after_set (generateCacheKey p) value tSet m) Hfresh)
      as [Hdata _].
    destruct (getCachedAnalysis _ _ _) as [cached m'].
    cbn [fst data] in *. subst cached. by destruct (persisted value).
Qed.

Lemma generateCacheKey_drops_nested_keys_witness :
  generateCacheKey [paramsLine1] = generateCacheKey [paramsLine7]
  /\ (memoize (fun _ => JString "analysis of line 7") None [paramsLine7] 2000 2001
        (setCachedAnalysis (generateCacheKey [paramsLine1])
           (JString "analysis of line 1") 1000 freshCache)).1
     = JString "analysis of line 1".
Proof.
  destruct generateCacheKey_drops_nested_keys as (_ & Hnested & _ & Hserved).
  assert (generateCacheKey [paramsLine1] = generateCacheKey [paramsLine7]) as Hkey.
  { apply (Hnested [("filePath", JString "a.ts")] "position"
             [("line", JNumber 1); ("character", JNumber 2)]
             [("line", JNumber 7); ("character", JNumber 2)] [] [] []).
    intros P HP. cbn in HP.
    apply elem_of_cons in HP as [->|HP]; [reflexivity|].
    apply elem_of_cons in HP as [->|HP]; [reflexivity|].
    by apply elem_of_nil in HP. }
  split; [exact Hkey|].
  apply (Hserved _ [paramsLine1] [paramsLine7] (JString "analysis of line 1")
           1000 2000 2001 freshCache Hkey).
  - discriminate.
  - change (ttl freshCache) with 3600000. lia.
Defined.

End CacheClaims.

(** ** The type hierarchy *)

Module HierarchyFacts.
Import Utils Analyzer.

Section ProcessType.
Variable types : nat -> TypeRecord.
Variable direction : Direction.
Variable maxDepth : Z.

Abbreviation process := (processType types direction maxDepth).

Lemma forEachM_invariant {A S} (I : S -> Prop) (f : A -> S -> option S) l s s' :
  (forall x t t', I t -> f x t = Some t' -> I t') ->
  I s -> forEachM f l s = Some s' -> I s'.
Proof.
  intros Hstep. revert s. induction l as [|x l IH]; intros s Hs; cbn [forEachM].
  - by intros [= <-].
  - destruct (f x s) as [t|] eqn:Hf; [|discriminate]. eauto.
Qed.

Lemma forEachM_total {A S} (I : S -> Prop) (f : A -> S -> option S) l s :
  (forall x t, I t -> exists t', f x t = Some t' /\ I t') ->
  I s -> exists s', forEachM f l s = Some s' /\ I s'.
Proof.
  intros Hstep. revert s. induction l as [|x l IH]; intros s Hs; cbn [forEachM].
  - eauto.
  - destruct (Hstep x s Hs) as (t & -> & Ht). eauto.
Qed.

Lemma forEachM_more_fuel {A S} (f g : A -> S -> option S) l s s' :
  (forall x t t', f x t = Some t' -> g x t = Some t') ->
  forEachM f l s = Some s' -> forEachM g l s = Some s'.
Proof.
  intros Hfg. revert s. induction l as [|x l IH]; intros s; cbn [forEachM]; [done|].
  destruct (f x s) as [t|] eqn:Hf; [|discriminate].
  rewrite (Hfg _ _ _ Hf). apply IH.
Qed.

(** A call that returns only extends the visited set and keeps the state
    consistent. *)
Lemma process_invariant fuel type depth st st' :
  process fuel type depth st = Some st' ->
  visited st ⊆ visited st' /\ (consistent st -> consistent st').
Proof.
  revert type depth st st'.
  induction fuel as [|fuel IH]; intros type depth st st'; cbn [processType];
    [discriminate|].
  destruct (depth >? maxDepth)%Z; [by intros [= <-]|].
  destruct (getSymbol (types type)) as [symbol|]; [|by intros [= <-]].
  destruct (decide (typeName symbol ∈ visited st)) as [Hin|Hnew];
    [by intros [= <-]|].
  destruct (declarations symbol) as [|declaration rest].
  { intros [= <-]. cbn [visited hierarchy]. split; [set_solver|].
    intros [Hnd Hsub]. split; [done|]. cbn [visited hierarchy]. set_solver. }
  set (st1 := {| visited := _; hierarchy := _ |}).
  assert (visited st ⊆ visited st1 /\ (consistent st -> consistent st1))
    as [Hsub1 Hcons1].
  { subst st1. cbn [visited hierarchy]. split; [set_solver|].
    intros [Hnd Hsub]. split; cbn [visited hierarchy].
    - rewrite map_app. cbn [map tiName]. apply NoDup_app. split; [done|].
      split; [|apply NoDup_singleton].
      intros n Hn ->%list_elem_of_singleton. apply Hnew. by apply Hsub.
    - intros n. rewrite map_app. cbn [map tiName].
      rewrite elem_of_app, list_elem_of_singleton. set_solver. }
  destruct (bool_decide (direction = Ancestors) || bool_decide (direction = Both));
    [|by intros [= <-]].
  intros Hrun.
  apply (forEachM_invariant
           (fun t => visited st ⊆ visited t /\ (consistent st -> consistent t)))
    in Hrun; [done| |done].
  intros base t t' [Hsub Hcons] Hcall. apply IH in Hcall as [Hsub' Hcons'].
  split; [set_solver | auto].
Qed.

(** More fuel does not change the result of a call that returns. *)
Lemma process_more_fuel fuel fuel' type depth st st' :
  (fuel <= fuel')%nat ->
  process fuel type depth st = Some st' ->
  process fuel' type depth st = Some st'.
Proof.
  revert fuel' type depth st st'.
  induction fuel as [|fuel IH]; intros fuel' type depth st st' Hle;
    cbn [processType]; [discriminate|].
  destruct fuel' as [|fuel']; [lia|]. cbn [processType].
  destruct (depth >? maxDepth)%Z; [done|].
  destruct (getSymbol (types type)) as [symbol|]; [|done].
  destruct (decide (typeName symbol ∈ visited st)); [done|].
  destruct (declarations symbol) as [|declaration rest]; [done|].
  destruct (bool_decide (direction = Ancestors) || bool_decide (direction = Both));
    [|done].
  apply forEachM_more_fuel. intros base t t'. apply IH. lia.
Qed.

(** The depth bound alone makes every call return. *)
Lemma process_returns_by_depth fuel type depth st :
  (Z.to_nat (maxDepth - depth + 1) < fuel)%nat ->
  exists st', process fuel type depth st = Some st'.
Proof.
  revert type depth st.
  induction fuel as [|fuel IH]; intros type depth st Hfuel; [lia|].
  cbn [processType].
  destruct (Z.gtb_spec depth maxDepth) as [Hdeep|Hshallow]; [eauto|].
  destruct (getSymbol (types type)) as [symbol|]; [|eauto].
  destruct (decide (typeName symbol ∈ visited st)); [eauto|].
  destruct (declarations symbol) as [|declaration rest]; [eauto|].
  destruct (bool_decide (direction = Ancestors) || bool_decide (direction = Both));
    [|eauto].
  match goal with
  | |- exists st', forEachM ?f ?l ?s = Some st' =>
      destruct (forEachM_total (fun _ : HierarchyState => True) f l s)
        as (st' & Hrun & _); [|exact I|eauto]
  end.
  intros base t _. destruct (IH base (depth + 1) t) as [t' Ht']; [lia|]. eauto.
Qed.

(** The visited set alone makes every call return when the symbols of
    the program have finitely many names. *)
Lemma process_returns_by_names (names : gset string) fuel type depth st :
  (forall t symbol, getSymbol (types t) = Some symbol -> typeName symbol ∈ names) ->
  (size (names ∖ visited st) < fuel)%nat ->
  exists st', process fuel type depth st = Some st'.
Proof.
  intros Hnames. revert type depth st.
  induction fuel as [|fuel IH]; intros type depth st Hfuel; [lia|].
  cbn [processType].
  destruct (depth >? maxDepth)%Z; [eauto|].
  destruct (getSymbol (types type)) as [symbol|] eqn:Hsymbol; [|eauto].
  destruct (decide (typeName symbol ∈ visited st)) as [|Hnew]; [eauto|].
  destruct (declarations symbol) as [|declaration rest]; [eauto|].
  destruct (bool_decide (direction = Ancestors) || bool_decide (direction = Both));
    [|eauto].
  set (st1 := {| visited := _; hierarchy := _ |}).
  assert (size (names ∖ visited st1) < size (names ∖ visited st))%nat as Hless.
  { apply subset_size. subst st1. cbn [visited].
    pose proof (Hnames _ _ Hsymbol). set_solver. }
  match goal with
  | |- exists st', forEachM ?f ?l ?s = Some st' =>
      destruct (forEachM_total (fun t => visited st1 ⊆ visited t) f l s)
        as (st' & Hrun & _); [|reflexivity|eauto]
  end.
  intros base t Hsub.
  destruct (IH base (depth + 1) t) as [t' Ht'].
  { assert (size (names ∖ visited t) <= size (names ∖ visited st1))%nat
      by (apply subseteq_size; set_solver). lia. }
  exists t'. split; [done|].
  apply process_invariant in Ht' as [Hsub' _]. set_solver.
Qed.

End ProcessType.

End HierarchyFacts.

Module HierarchyClaims.
Import Utils Analyzer Fixtures HierarchyFacts.

Lemma initial_consistent : consistent {| visited := ∅; hierarchy := [] |}.
Proof. split; cbn; [constructor | intros n Hn; by apply elem_of_nil in Hn]. Qed.

(** C10: [getTypeHierarchy] returns for every type graph, cyclic ones
    included, every starting node, direction and depth bound: the fuel
    [hierarchyFuel maxDepth], which depends on the depth bound only, is
    enough, more fuel gives the same list, and no type name occurs twice
    in the list.  When the symbols of the program have finitely many
    names, the visited set alone bounds the recursion: fuel above the
    number of names is enough whatever the depth bound. *)
Theorem getTypeHierarchy_terminates types node direction maxDepth :
  (exists result,
      (forall fuel,
          (hierarchyFuel maxDepth <= fuel)%nat ->
          getTypeHierarchy types fuel node direction maxDepth = Some result)
      /\ NoDup (map tiName result))
  /\ (forall names : gset string,
        (forall t symbol,
            getSymbol (types t) = Some symbol -> typeName symbol ∈ names) ->
        forall fuel,
          (size names < fuel)%nat ->
          exists result,
            getTypeHierarchy types fuel node direction maxDepth = Some result
            /\ NoDup (map tiName result)).
Proof.
  split.
  - destruct (process_returns_by_depth types direction maxDepth
                (hierarchyFuel maxDepth) (getType (getInfo node)) 0
                {| visited := ∅; hierarchy := [] |}) as [st' Hrun].
    { unfold hierarchyFuel. lia. }
    exists (hierarchy st'). split.
    + intros fuel Hfuel. unfold getTypeHierarchy.
      by rewrite (process_more_fuel _ _ _ _ _ _ _ _ _ Hfuel Hrun).
    + apply process_invariant in Hrun as [_ Hcons].
      by destruct (Hcons initial_consistent).
  - intros names Hnames fuel Hfuel.
    destruct (process_returns_by_names types direction maxDepth names fuel
                (getType (getInfo node)) 0
                {| visited := ∅; hierarchy := [] |} Hnames) as [st' Hrun].
    { cbn [visited]. by rewrite difference_empty_L. }
    exists (hierarchy st'). unfold getTypeHierarchy. rewrite Hrun.
    split; [done|].
    apply process_invariant in Hrun as [_ Hcons].
    by destruct (Hcons initial_consistent).
Qed.

Lemma getTypeHierarchy_terminates_witness :
  exists result,
    getTypeHierarchy cyclicTypes 3 classA Ancestors 1000 = Some result
    /\ NoDup (map tiName result).
Proof.
  destruct (getTypeHierarchy_terminates cyclicTypes classA Ancestors 1000)
    as [_ Hnames].
  apply (Hnames {[ "A"; "B" ]}).
  - intros [|[|[|t]]] symbol; cbn; intros [= <-]; cbn; set_solver.
  - rewrite size_union, !size_singleton by set_solver. lia.
Defined.

End HierarchyClaims.

(** ** SHA-256 test vectors *)

Module Sha256Facts.

Example sha256_empty :
  Sha256.sha256hex ""
  = "e3b0c44298fc1c149afbf4c8996fb92427ae41e4649b934ca495991b7852b855".
Proof. vm_compute. reflexivity. Qed.

Example sha256_abc :
  Sha256.sha256hex "abc"
  = "ba7816bf8f01cfea414140de5dae2223b00361a396177a9cb410ff61f20015ad".
Proof. vm_compute. reflexivity. Qed.

Example sha256_two_blocks :
  Sha256.sha256hex "abcdbcdecdefdefgefghfghighijhijkijkljklmklmnlmnomnopnopq"
  = "248d6a61d20638b8e5c026930c3e6039a33ce45964ff2167f6ecedd419db06c1".
Proof. vm_compute. reflexivity. Qed.

End Sha256Facts.

(** ** More on utils.ts *)

Module StringFacts.

Lemma append_String c a b : String c a +:+ b = String c (a +:+ b).
Proof. reflexivity. Qed.

Lemma length_append a b :
  String.length (a +:+ b) = (String.length a + String.length b)%nat.
Proof.
  induction a as [|c a IH]; [reflexivity|].
  rewrite append_String. cbn [String.length]. by rewrite IH.
Qed.

Lemma length_substring0 n s :
  String.length (String.substring 0 n s) = Nat.min n (String.length s).
Proof.
  revert s. induction n as [|n IH]; intros [|c s]; cbn; try reflexivity.
  by rewrite IH.
Qed.

Lemma prefix_substring0 n s : String.prefix (String.substring 0 n s) s = true.
Proof.
  revert s. induction n as [|n IH]; intros [|c s]; cbn; try reflexivity.
  destruct (ascii_dec c c); [apply IH | congruence].
Qed.

Lemma prefix_empty s : String.prefix "" s = true.
Proof. by destruct s. Qed.

Lemma prefix_refl s : String.prefix s s = true.
Proof.
  induction s as [|c s IH]; [done|]. cbn [String.prefix].
  by destruct (ascii_dec c c).
Qed.

End StringFacts.

Module TypeStringProperties.
Import Utils StringFacts.

Lemma getTypeString_length typeText :
  (String.length (getTypeString typeText) <= 100)%nat.
Proof.
  unfold getTypeString.
  destruct (Z.ltb_spec 100 (Z.of_nat (String.length typeText))); [|lia].
  rewrite length_append, length_substring0. cbn [String.length]. lia.
Qed.

(** X1: [getTypeString] never returns more than 100 characters.  A type
    text of at most 100 characters is returned as it is; a longer one is
    cut to its first 97 characters followed by three dots, which makes
    exactly 100 characters. *)
Theorem getTypeString_at_most_100 typeText :
  (String.length (getTypeString typeText) <= 100)%nat
  /\ ((String.length typeText <= 100)%nat -> getTypeString typeText = typeText)
  /\ ((100 < String.length typeText)%nat ->
      getTypeString typeText = String.substring 0 97 typeText +:+ "..."
      /\ String.length (getTypeString typeText) = 100%nat
      /\ String.prefix (String.substring 0 97 typeText) typeText = true).
Proof.
  split; [apply getTypeString_length|]. unfold getTypeString.
  destruct (Z.ltb_spec 100 (Z.of_nat (String.length typeText))) as [Hlong|Hshort].
  - assert (String.length (String.substring 0 97 typeText +:+ "...") = 100%nat)
      as Hlen.
    { rewrite length_append, length_substring0. cbn [String.length]. lia. }
    split; [lia|]. intros _.
    split; [reflexivity|]. split; [exact Hlen|]. apply prefix_substring0.
  - split; [reflexivity | lia].
Qed.

End TypeStringProperties.

Module ScopeProperties.
Import Utils PathFacts.

Lemma fileNames_names l : Forall isFileName l -> Forall isName l.
Proof. intros H. eapply Forall_impl; [exact H|]. by intros ? []. Qed.

Lemma fileNames_noSlash l : Forall isFileName l -> Forall noSlash l.
Proof. intros H. eapply Forall_impl; [exact H|]. by intros ? []. Qed.

Lemma fileNames_segments l : Forall isFileName l -> Forall isSegment l.
Proof. intros H. eapply Forall_impl; [exact H|]. by intros ? [(? & _ & _) ?]. Qed.

Lemma N_names_any b acc names :
  Forall isName names -> N b acc names = acc ++ names.
Proof.
  intros Hnames. revert acc.
  induction Hnames as [|n names Hn _ IH]; intros acc; cbn [N fold_left].
  - by rewrite app_nil_r.
  - fold (N b (normalizeStep b acc n) names).
    rewrite IH, step_name by done. by rewrite <- app_assoc.
Qed.

Lemma stripCommon_app l r : stripCommon l (l ++ r) = ([], r).
Proof.
  induction l as [|x l IH]; [by destruct r|].
  cbn [stripCommon app]. by rewrite bool_decide_eq_true_2.
Qed.

Lemma joinPath_nonempty names :
  names <> [] -> Forall isFileName names -> joinPath names <> "".
Proof.
  intros Hne Hnames Hjoin. apply Hne.
  apply joinPath_empty; [by apply fileNames_segments | done].
Qed.

Lemma last_fileName names n :
  Forall isFileName names -> last names = Some n -> n <> "".
Proof.
  intros Hnames Hlast. apply last_Some in Hlast as [l ->].
  apply Forall_app in Hnames as [_ Hn].
  inversion Hn as [|? ? [(Hn' & _) _] _]; by subst.
Qed.

(** The segments of the working directory [/a/b/...]. *)
Lemma splitOn_root cwdNames :
  Forall isFileName cwdNames ->
  N false [] (splitOn "/" ("/" +:+ joinPath cwdNames)) = cwdNames.
Proof.
  intros Hcwd. rewrite splitOn_slash_append.
  change (N false [] ("" :: ?l)) with (N false [] l).
  destruct cwdNames as [|n cwdNames]; [reflexivity|].
  rewrite splitOn_joinPath by (done || by apply fileNames_noSlash).
  apply (N_names_any false []). by apply fileNames_names.
Qed.

Lemma resolveSegments_cwd cwdNames :
  Forall isFileName cwdNames ->
  resolveSegments ("/" +:+ joinPath cwdNames) ("/" +:+ joinPath cwdNames)
  = cwdNames.
Proof.
  intros Hcwd. unfold resolveSegments. rewrite isAbsolute_slash.
  by apply splitOn_root.
Qed.

Lemma resolveSegments_relative cwdNames names :
  Forall isFileName cwdNames -> names <> [] -> Forall isFileName names ->
  resolveSegments ("/" +:+ joinPath cwdNames) (joinPath names)
  = cwdNames ++ names.
Proof.
  intros Hcwd Hne Hnames. unfold resolveSegments.
  rewrite isAbsolute_joinPath by (by apply fileNames_segments).
  change (normalizeSegments false (?a ++ ?b)) with (N false [] (a ++ b)).
  rewrite N_app, splitOn_root by done.
  rewrite splitOn_joinPath by (done || by apply fileNames_noSlash).
  apply N_names_any. by apply fileNames_names.
Qed.

Lemma endsWithSlash_joinPath names :
  names <> [] -> Forall isFileName names -> endsWithSlash (joinPath names) = false.
Proof.
  intros Hne Hnames. unfold endsWithSlash.
  rewrite splitOn_joinPath by (done || by apply fileNames_noSlash).
  destruct (last names) as [n|] eqn:Hlast; [|done].
  pose proof (last_fileName _ _ Hnames Hlast). by destruct n.
Qed.

(** A relative path made of proper names is its own normal form. *)
Lemma normalize_joinPath names :
  names <> [] -> Forall isFileName names ->
  normalize (joinPath names) = joinPath names.
Proof.
  intros Hne Hnames. unfold normalize.
  pose proof (joinPath_nonempty _ Hne Hnames) as Hjoin.
  rewrite bool_decide_eq_false_2 by done.
  rewrite isAbsolute_joinPath by (by apply fileNames_segments). cbn [negb].
  rewrite splitOn_joinPath by (done || by apply fileNames_noSlash).
  change (normalizeSegments true names) with (N true [] names).
  rewrite (N_names_any true []) by (by apply fileNames_names). cbn [app].
  rewrite bool_decide_eq_false_2 by done.
  by rewrite endsWithSlash_joinPath.
Qed.

Lemma prefix_dots_joinPath n rest :
  isName n -> String.prefix ".." n = false ->
  String.prefix ".." (joinPath (n :: rest)) = false.
Proof.
  intros (Hempty & Hdot & _) Hn.
  destruct rest as [|r rest]; [exact Hn|].
  change (joinPath (n :: r :: rest)) with (n +:+ "/" +:+ joinPath (r :: rest)).
  destruct n as [|c [|c' n]]; [done| |].
  - change (String c "" +:+ ?x) with (String c x). cbn [String.prefix].
    destruct (ascii_dec "." c) as [<-|]; [done | reflexivity].
  - change (String c (String c' n) +:+ ?x) with (String c (String c' (n +:+ x))).
    cbn [String.prefix] in *.
    destruct (ascii_dec "." c); [|reflexivity].
    destruct (ascii_dec "." c'); [|reflexivity].
    by destruct n.
Qed.

Lemma prefix_dot_dots n :
  String.prefix "." n = false -> String.prefix ".." n = false.
Proof.
  destruct n as [|c n]; [done|]. cbn [String.prefix].
  destruct (ascii_dec "." c); [|done]. by destruct n.
Qed.

(** *** The exclusion patterns *)

Lemma excludePatterns_directories :
  map parsePattern excludePatterns
  = map (fun d => [Globstar; Literal d; Globstar]) excludedDirectories.
Proof. reflexivity. Qed.

Lemma matchOne_directory_absent d names :
  d ∉ names -> matchOne [Globstar; Literal d; Globstar] names = false.
Proof.
  intros Habsent. cbn [matchOne].
  induction names as [|n names IH]; [reflexivity|].
  apply not_elem_of_cons in Habsent as [Hn Hrest].
  rewrite (bool_decide_eq_false_2 (n = d)) by done. cbn [andb orb].
  rewrite IH by done. by rewrite andb_false_r.
Qed.

Lemma matchOne_directory_present d before after :
  Forall (fun n => String.prefix "." n = false) (before ++ after) ->
  after <> [] ->
  matchOne [Globstar; Literal d; Globstar] (before ++ d :: after) = true.
Proof.
  intros Hdots Hafter. apply Forall_app in Hdots as [Hbefore Hdots].
  cbn [matchOne].
  induction Hbefore as [|n before Hn _ IH]; cbn [app].
  - rewrite bool_decide_eq_true_2 by done. cbn [andb].
    destruct after as [|a after]; [done|].
    assert (forallb (fun f => negb (isDotSegment f)) (a :: after) = true) as ->;
      [|reflexivity].
    apply forallb_forall. intros f Hf%list_elem_of_In.
    rewrite Forall_forall in Hdots. unfold isDotSegment. by rewrite Hdots.
  - rewrite IH. assert (isDotSegment n = false) as -> by exact Hn.
    cbn [negb andb]. apply orb_true_r.
Qed.

Lemma excluded_none p :
  Forall (fun d => d ∉ splitOn "/" p) excludedDirectories ->
  existsb (fun pattern => minimatch p pattern) excludePatterns = false.
Proof.
  intros Hnone. unfold minimatch.
  change (existsb (fun pattern => matchOne (parsePattern pattern) (splitOn "/" p))
            excludePatterns)
    with (existsb (fun pattern => matchOne pattern (splitOn "/" p))
            (map parsePattern excludePatterns)).
  rewrite excludePatterns_directories.
  induction Hnone as [|d ds Hd _ IH]; [reflexivity|].
  cbn [map existsb]. by rewrite matchOne_directory_absent, IH.
Qed.

Lemma excluded_some p d before after :
  splitOn "/" p = before ++ d :: after ->
  d ∈ excludedDirectories ->
  Forall (fun n => String.prefix "." n = false) (before ++ after) ->
  after <> [] ->
  existsb (fun pattern => minimatch p pattern) excludePatterns = true.
Proof.
  intros Hsplit Hd Hdots Hafter. unfold minimatch.
  change (existsb (fun pattern => matchOne (parsePattern pattern) (splitOn "/" p))
            excludePatterns)
    with (existsb (fun pattern => matchOne pattern (splitOn "/" p))
            (map parsePattern excludePatterns)).
  rewrite excludePatterns_directories, Hsplit.
  apply existsb_exists. exists [Globstar; Literal d; Globstar]. split.
  - apply in_map_iff. exists d. split; [done | by apply list_elem_of_In].
  - by apply matchOne_directory_present.
Qed.

Lemma fileNames_not_excluded (names : list string) :
  Forall (fun n => n ∉ excludedDirectories) names ->
  Forall (fun d => d ∉ names) excludedDirectories.
Proof.
  intros Hnames. apply Forall_forall. intros d Hd Hin.
  rewrite Forall_forall in Hnames. by apply (Hnames d).
Qed.

(** The scope test passes for a relative path of proper names whose
    first name does not start with two dots. *)
Lemma relative_inside cwdNames names :
  Forall isFileName cwdNames -> names <> [] -> Forall isFileName names ->
  Forall (fun n => String.prefix ".." n = false) names ->
  String.prefix ".."
    (relative ("/" +:+ joinPath cwdNames) ("/" +:+ joinPath cwdNames)
       (joinPath names)) = false.
Proof.
  intros Hcwd Hne Hnames Hdots. unfold relative.
  rewrite resolveSegments_cwd, resolveSegments_relative, stripCommon_app by done.
  cbn [length replicate app].
  destruct names as [|n names]; [done|].
  inversion Hnames as [|? ? [Hn _] _]; inversion Hdots; subst.
  by apply prefix_dots_joinPath.
Qed.

Lemma validatePath_inside cwdNames names :
  Forall isFileName cwdNames ->
  names <> [] ->
  Forall isFileName names ->
  Forall (fun n => String.prefix ".." n = false) names ->
  Forall (fun n => n ∉ excludedDirectories) names ->
  validatePath ("/" +:+ joinPath cwdNames) (joinPath names) = inr tt.
Proof.
  intros Hcwd Hne Hnames Hdots Hnone. unfold validatePath.
  rewrite normalize_joinPath, relative_inside by done.
  rewrite excluded_none; [reflexivity|].
  rewrite splitOn_joinPath by (done || by apply fileNames_noSlash).
  by apply fileNames_not_excluded.
Qed.

Ltac file_names :=
  repeat (apply Forall_cons; split; [repeat split; discriminate|]);
  apply Forall_nil_2.

(** X2: a relative path made of proper file names, none of which starts
    with two dots and none of which is one of the excluded directory
    names ([node_modules], [.git], [dist], [build]), is accepted by
    [validatePath] whatever the working directory is. *)
Theorem validatePath_accepts_inside cwdNames names :
  Forall isFileName cwdNames ->
  names <> [] ->
  Forall isFileName names ->
  Forall (fun n => String.prefix ".." n = false) names ->
  Forall (fun n => n ∉ excludedDirectories) names ->
  validatePath ("/" +:+ joinPath cwdNames) (joinPath names) = inr tt.
Proof. apply validatePath_inside. Qed.

Lemma validatePath_accepts_inside_witness :
  validatePath "/work/project" "src/tools/index.ts" = inr tt.
Proof.
  apply (validatePath_accepts_inside ["work"; "project"] ["src"; "tools"; "index.ts"]).
  - file_names.
  - discriminate.
  - file_names.
  - repeat (apply Forall_cons; split; [reflexivity|]). apply Forall_nil_2.
  - repeat (apply Forall_cons; split; [apply (bool_decide_unpack _); vm_compute; exact I|]).
    apply Forall_nil_2.
Defined.

(** X3: a relative path that goes through one of the excluded
    directories ([node_modules], [.git], [dist], [build]) to something
    inside it is rejected by [validatePath] with the scope error
    "Path matches excluded pattern", provided the other names on the path
    are proper file names that do not start with a dot. *)
Theorem validatePath_rejects_excluded_directories cwdNames before d after :
  Forall isFileName cwdNames ->
  d ∈ excludedDirectories ->
  Forall isFileName (before ++ after) ->
  Forall (fun n => String.prefix "." n = false) (before ++ after) ->
  after <> [] ->
  validatePath ("/" +:+ joinPath cwdNames) (joinPath (before ++ d :: after))
  = inl (excludedByPattern (joinPath (before ++ d :: after))).
Proof.
  intros Hcwd Hd Hnames Hdots Hafter.
  assert (isFileName d /\ String.prefix ".." d = false) as [Hdname Hddots].
  { unfold excludedDirectories in Hd.
    repeat (apply elem_of_cons in Hd as [->|Hd];
            [split; [repeat split; try discriminate | reflexivity]|]).
    by apply elem_of_nil in Hd. }
  assert (Forall isFileName (before ++ d :: after)) as Hall.
  { apply Forall_app in Hnames as [? ?]. apply Forall_app. split; [done|].
    by constructor. }
  assert (Forall (fun n => String.prefix ".." n = false) (before ++ d :: after))
    as Hall2.
  { apply Forall_app in Hdots as [Hb Ha]. apply Forall_app. split.
    - eapply Forall_impl; [exact Hb | exact prefix_dot_dots].
    - constructor; [done|].
      eapply Forall_impl; [exact Ha | exact prefix_dot_dots]. }
  assert (before ++ d :: after <> []) as Hne by (by destruct before).
  unfold validatePath.
  rewrite normalize_joinPath, relative_inside by done.
  rewrite (excluded_some _ d before after); [reflexivity| |done|done|done].
  apply splitOn_joinPath; [done | by apply fileNames_noSlash].
Qed.

Lemma validatePath_rejects_excluded_directories_witness :
  validatePath "/work/project" "packages/app/node_modules/lodash/index.ts"
  = inl (excludedByPattern "packages/app/node_modules/lodash/index.ts").
Proof.
  apply (validatePath_rejects_excluded_directories ["work"; "project"]
           ["packages"; "app"] "node_modules" ["lodash"; "index.ts"]).
  - file_names.
  - apply (bool_decide_unpack _); vm_compute; exact I.
  - file_names.
  - repeat (apply Forall_cons; split; [reflexivity|]). apply Forall_nil_2.
  - discriminate.
Defined.

End ScopeProperties.

Module MatchesScopeProperties.
Import Utils.

Lemma existsb_false_iff {A} (f : A -> bool) l :
  existsb f l = false <-> forall x, x ∈ l -> f x = false.
Proof.
  induction l as [|y l IH]; cbn [existsb].
  - split; [intros _ x Hx; by apply elem_of_nil in Hx | done].
  - rewrite orb_false_iff, IH. split.
    + intros [Hy Hl] x [->|Hx]%elem_of_cons; auto.
    + intros Hall. split; [apply Hall; by left|].
      intros x Hx. apply Hall. by right.
Qed.

Lemma existsb_true_iff {A} (f : A -> bool) l :
  existsb f l = true <-> exists x, x ∈ l /\ f x = true.
Proof.
  rewrite existsb_exists. split; intros (x & Hx & Hf); exists x;
    (split; [by apply list_elem_of_In | done]).
Qed.

(** X4: [matchesScope] accepts every file when no scope is given.  With
    a scope, a file is accepted exactly when its extension is among the
    file types (if file types are given), no exclusion pattern matches it
    (if exclusions are given), and some inclusion pattern matches it (if
    inclusions are given); an exclusion therefore wins over an inclusion,
    and an inclusion list that is present but empty rejects every file. *)
Theorem matchesScope_characterised extname matcher filePath scope :
  matchesScope extname matcher filePath None = true
  /\ (matchesScope extname matcher filePath (Some scope) = true
      <-> (forall types, fileTypes scope = Some types -> extname filePath ∈ types)
          /\ (forall patterns pattern,
                excludeFiles scope = Some patterns -> pattern ∈ patterns ->
                matcher filePath pattern = false)
          /\ (forall patterns,
                includeFiles scope = Some patterns ->
                exists pattern, pattern ∈ patterns /\ matcher filePath pattern = true))
  /\ (includeFiles scope = Some [] ->
      matchesScope extname matcher filePath (Some scope) = false).
Proof.
  split; [reflexivity|]. split.
  - unfold matchesScope.
    set (wrongType := match fileTypes scope with Some _ => _ | None => _ end).
    set (excluded := match excludeFiles scope with Some _ => _ | None => _ end).
    set (included := match includeFiles scope with Some _ => _ | None => _ end).
    assert (wrongType = false
            <-> forall types, fileTypes scope = Some types -> extname filePath ∈ types)
      as <-.
    { subst wrongType. destruct (fileTypes scope) as [types|].
      - rewrite negb_false_iff, bool_decide_eq_true.
        split; [intros H ? ?; by simplify_eq | eauto].
      - split; [discriminate | done]. }
    assert (excluded = false
            <-> forall patterns pattern,
                excludeFiles scope = Some patterns -> pattern ∈ patterns ->
                matcher filePath pattern = false) as <-.
    { subst excluded. destruct (excludeFiles scope) as [patterns|].
      - rewrite existsb_false_iff.
        split; [intros H ? ? ? ?; simplify_eq; eauto | eauto].
      - split; [discriminate | done]. }
    assert (included = true
            <-> forall patterns,
                includeFiles scope = Some patterns ->
                exists pattern, pattern ∈ patterns /\ matcher filePath pattern = true)
      as <-.
    { subst included. destruct (includeFiles scope) as [patterns|].
      - rewrite existsb_true_iff.
        split; [intros H ? ?; by simplify_eq | eauto].
      - split; [discriminate | done]. }
    destruct wrongType, excluded, included; intuition discriminate.
  - intros Hinc. unfold matchesScope. rewrite Hinc.
    destruct (match fileTypes scope with Some _ => _ | None => _ end); [done|].
    by destruct (match excludeFiles scope with Some _ => _ | None => _ end).
Qed.

End MatchesScopeProperties.
(** ** More on analyzer.ts *)

Module SymbolProperties.
Import Utils Analyzer TypeStringProperties.

Lemma elem_of_filtered_names {A} (f : A * string -> bool) (l : list (A * string)) k s :
  NoDup (map snd l) -> (k, s) ∈ l ->
  s ∈ map snd (List.filter f l) <-> f (k, s) = true.
Proof.
  intros Hnd Hin. rewrite list_elem_of_fmap. split.
  - intros ([k' s'] & -> & Hf%list_elem_of_In%List.filter_In).
    destruct Hf as [Hin' Hf]. cbn [snd] in *.
    assert (k' = k) as ->; [|done].
    apply list_elem_of_In in Hin'.
    apply list_elem_of_lookup in Hin as [i Hi], Hin' as [j Hj].
    assert (i = j) as ->.
    { eapply NoDup_lookup; [exact Hnd| |];
        rewrite list_lookup_fmap; [by rewrite Hi | by rewrite Hj]. }
    congruence.
  - intros Hf. exists (k, s). split; [done|].
    apply list_elem_of_In, List.filter_In. split; [by apply list_elem_of_In | done].
Qed.

Lemma filter_sublist {A} (f : A -> bool) l : List.filter f l `sublist_of` l.
Proof.
  induction l as [|x l IH]; [done|]. cbn [List.filter].
  destruct (f x); [by apply sublist_skip | by apply sublist_cons].
Qed.

Lemma extractSymbolInfo_fields node includePrivate info :
  extractSymbolInfo node includePrivate = Some info ->
  modifiers info
  = (if (0 <? Z.of_nat (length (listedModifiers node)))%Z
     then Some (listedModifiers node) else None)
  /\ kind info = getSymbolKind node
  /\ type info = getTypeString (typeText (getInfo node)).
Proof.
  unfold extractSymbolInfo.
  destruct (symbolName (getInfo node)) as [n|]; [|discriminate].
  destruct (negb includePrivate && String.prefix "_" n); [discriminate|].
  intros [= <-]. repeat split.
Qed.

(** X5: the modifiers of a record returned by [extractSymbolInfo] are
    never an empty list (no modifier gives an absent field); they are
    listed in the fixed order public, private, protected, static, async,
    readonly, abstract, whatever their order in the source; and a name is
    listed exactly when the node can carry modifiers and has that
    modifier.  The kind is that of [getSymbolKind] and the type text has
    at most 100 characters. *)
Theorem extractSymbolInfo_modifiers node includePrivate info :
  extractSymbolInfo node includePrivate = Some info ->
  modifiers info <> Some []
  /\ default [] (modifiers info)
       `sublist_of` ["public"; "private"; "protected"; "static"; "async";
                     "readonly"; "abstract"]
  /\ (forall k s,
        (k, s) ∈ modifierKeywords ->
        s ∈ default [] (modifiers info)
        <-> isModifierable node = true /\ hasModifier node k = true)
  /\ kind info = getSymbolKind node
  /\ (String.length (type info) <= 100)%nat.
Proof.
  intros (Hmodifiers & -> & ->)%extractSymbolInfo_fields.
  rewrite Hmodifiers. clear Hmodifiers.
  set (listed := listedModifiers node).
  assert (default [] (if (0 <? Z.of_nat (length listed))%Z then Some listed else None)
          = listed) as Hlisted.
  { destruct listed; reflexivity. }
  split; [by destruct listed|]. rewrite Hlisted.
  split; [|split; [|split; [reflexivity | apply getTypeString_length]]].
  - subst listed. unfold listedModifiers.
    destruct (isModifierable node); [|apply sublist_nil_l].
    change ["public"; "private"; "protected"; "static"; "async"; "readonly";
            "abstract"] with (map snd modifierKeywords).
    apply (fmap_sublist snd), filter_sublist.
  - intros k s Hks. subst listed. unfold listedModifiers.
    destruct (isModifierable node).
    + rewrite (elem_of_filtered_names _ _ k s); [cbn [fst]; tauto| |done].
      apply (bool_decide_unpack _). vm_compute. exact I.
    + split; [intros Hin; by apply elem_of_nil in Hin | by intros []].
Qed.

Lemma extractSymbolInfo_modifiers_witness :
  modifiers
    {| name := "v"; kind := KProperty; type := "number"; documentation := None;
       modifiers := Some ["private"];
       location := nodeToLocation Fixtures.propertyV; relationships := None |}
  <> Some []
  /\ hasModifier Fixtures.propertyV PrivateKeyword = true.
Proof.
  destruct (extractSymbolInfo_modifiers Fixtures.propertyV false
              {| name := "v"; kind := KProperty; type := "number";
                 documentation := None; modifiers := Some ["private"];
                 location := nodeToLocation Fixtures.propertyV;
                 relationships := None |} eq_refl)
    as (Hnonempty & _ & Hlisted & _).
  split; [exact Hnonempty|].
  apply (Hlisted PrivateKeyword "private").
  - apply (bool_decide_unpack _). vm_compute. exact I.
  - cbn. by left.
Defined.

(** X6: [extractRelationships] reports relationships for class and
    interface declarations only, and only when there is something to
    report: a list that is present is never empty.  Every entry under
    [extends] has kind class, also the interfaces an interface extends;
    [implements] is only ever present for a class, and its entries have
    kind interface. *)
Theorem extractRelationships_shape node :
  (getKind node <> ClassDeclaration -> getKind node <> InterfaceDeclaration ->
   extractRelationships node = None)
  /\ (forall r,
        extractRelationships node = Some r ->
        (extends r <> None \/ implements r <> None)
        /\ extends r <> Some [] /\ implements r <> Some []
        /\ Forall (fun s => refKind s = KClass) (default [] (extends r))
        /\ Forall (fun s => refKind s = KInterface) (default [] (implements r))
        /\ (implements r <> None -> getKind node = ClassDeclaration)).
Proof.
  unfold extractRelationships. split.
  - intros Hclass Hinterface.
    by rewrite !bool_decide_eq_false_2 by done.
  - intros r.
    set (ext := if _ || _ then _ else None).
    set (impl := if bool_decide (getKind node = ClassDeclaration) then _ else None).
    assert (ext <> Some []
            /\ Forall (fun s => refKind s = KClass) (default [] ext)) as [He1 He2].
    { subst ext. destruct (_ || _); [|by split].
      destruct (List.find _ _) as [clause|]; [|by split].
      destruct (getTypeNodes clause) as [|x l]; [by split|].
      split; [done|]. cbn [default from_option id]. apply Forall_fmap.
      by apply Forall_true. }
    assert (impl <> Some []
            /\ Forall (fun s => refKind s = KInterface) (default [] impl)
            /\ (impl <> None -> getKind node = ClassDeclaration))
      as (Hi1 & Hi2 & Hi3).
    { subst impl. case_bool_decide as Hclass; [|by repeat split].
      destruct (getImplements node) as [|x l]; [by repeat split|].
      split; [done|]. split; [|done]. cbn [default from_option id].
      apply Forall_fmap. by apply Forall_true. }
    destruct ext, impl; intros [= <-]; cbn [extends implements];
      repeat split; try done; try (by left); try (by right).
Qed.

End SymbolProperties.

Module FileAnalysisProperties.
Import Utils Analyzer UtilsFacts.

Lemma fold_left_add {A} (f : A -> Z) l a :
  fold_left (fun total x => total + f x) l a = a + foldr Z.add 0 (map f l).
Proof.
  revert a. induction l as [|x l IH]; intros a; cbn [fold_left map foldr]; [lia|].
  rewrite IH. lia.
Qed.

Lemma fold_left_methods classes a :
  fold_left
    (fun total cls =>
       fold_left (fun total method => total + getNodeComplexity method)
         (getMethods cls) total) classes a
  = a + foldr Z.add 0 (map getNodeComplexity (flat_map getMethods classes)).
Proof.
  revert a. induction classes as [|c classes IH]; intros a;
    cbn [fold_left flat_map]; [cbn; lia|].
  rewrite IH, fold_left_add, map_app, foldr_app.
  assert (forall l b, foldr Z.add b l = b + foldr Z.add 0 l) as Hshift.
  { induction l as [|x l IHl]; intros b; cbn [foldr]; [lia|].
    rewrite IHl. lia. }
  rewrite (Hshift _ (foldr _ _ _)). lia.
Qed.

Lemma sum_complexity_bounds l :
  Z.of_nat (length l) <= foldr Z.add 0 (map getNodeComplexity l)
  /\ (foldr Z.add 0 (map getNodeComplexity l) = 0 <-> l = []).
Proof.
  induction l as [|x l [IH1 IH2]]; cbn [length map foldr]; [by split|].
  pose proof (getNodeComplexity_pos x). split; [lia|]. split; [lia | discriminate].
Qed.

(** X7: the complexity [analyzeSourceFile] reports is 0 unless the
    analysis type is complexity or all; for these it is the sum of the
    cyclomatic complexities of the declarations that [getFunctions] and
    [getMethods] list: the top-level function declarations that have a
    body or are ambient, and the methods of the top-level classes that
    have a body, are abstract or belong to an ambient class (an overload
    signature is not listed).  It is therefore at least the number of
    these declarations, and it is 0 exactly when the file has none of
    them, whatever other code (arrow functions, function expressions,
    constructors, accessors, overload signatures) the file contains. *)
Theorem analyzeSourceFile_complexity sourceFile analysisType depth includePrivate :
  let result := analyzeSourceFile sourceFile analysisType depth includePrivate in
  let measured := measuredDeclarations sourceFile in
  (analysisType = Symbols \/ analysisType = Dependencies -> complexity result = 0)
  /\ (analysisType = ComplexityOnly \/ analysisType = All ->
      complexity result = foldr Z.add 0 (map getNodeComplexity measured)
      /\ Z.of_nat (length measured) <= complexity result
      /\ (complexity result = 0 <-> measured = [])).
Proof.
  intros result measured. subst result. unfold analyzeSourceFile.
  cbn [complexity]. split.
  - by intros [-> | ->].
  - intros Hselected.
    assert (bool_decide (analysisType = ComplexityOnly)
            || bool_decide (analysisType = All) = true) as ->.
    { by destruct Hselected as [-> | ->]. }
    rewrite fold_left_methods, fold_left_add.
    assert (0 + foldr Z.add 0 (map getNodeComplexity (getFunctions (root sourceFile)))
            + foldr Z.add 0
                (map getNodeComplexity
                   (flat_map getMethods (getClasses (root sourceFile))))
            = foldr Z.add 0 (map getNodeComplexity measured)) as ->.
    { subst measured. unfold measuredDeclarations. rewrite map_app, foldr_app.
      assert (forall l b, foldr Z.add b l = b + foldr Z.add 0 l) as Hshift.
      { induction l as [|x l IHl]; intros b; cbn [foldr]; [lia|].
        rewrite IHl. lia. }
      rewrite (Hshift _ (foldr _ _ _)). lia. }
    split; [reflexivity|]. apply sum_complexity_bounds.
Qed.

Lemma analyzeSourceFile_complexity_witness :
  measuredDeclarations Fixtures.fileOverloads = [Fixtures.pickImplementation]
  /\ complexity (analyzeSourceFile Fixtures.fileOverloads All 1 false) = 2
  /\ complexity (analyzeSourceFile Fixtures.fileOverloads Symbols 1 false) = 0.
Proof.
  destruct (analyzeSourceFile_complexity Fixtures.fileOverloads All 1 false)
    as [_ Hsum].
  destruct Hsum as (Hsum & _); [by right|].
  destruct (analyzeSourceFile_complexity Fixtures.fileOverloads Symbols 1 false)
    as [Hnone _].
  split; [reflexivity|]. split; [by rewrite Hsum | by apply Hnone; left].
Defined.

Lemma length_omap_le {A B} (f : A -> option B) l :
  (length (omap f l) <= length l)%nat.
Proof.
  induction l as [|x l IH]; [done|]. cbn [omap list_omap length].
  destruct (f x); cbn [length]; lia.
Qed.

Lemma fold_left_symbols includePrivate nodes acc :
  fold_left
    (fun symbols node =>
       if isDeclarationNode node then
         match extractSymbolInfo node includePrivate with
         | Some symbolInfo => symbols ++ [symbolInfo]
         | None => symbols
         end
       else symbols) nodes acc
  = acc ++ omap (fun node => extractSymbolInfo node includePrivate)
             (List.filter isDeclarationNode nodes).
Proof.
  revert acc. induction nodes as [|n nodes IH]; intros acc;
    cbn [fold_left List.filter]; [by rewrite app_nil_r|].
  rewrite IH. destruct (isDeclarationNode n); [|done].
  cbn [omap list_omap].
  destruct (extractSymbolInfo n includePrivate); [|done].
  by rewrite <- app_assoc.
Qed.

Lemma extractSymbolInfo_no_underscore node info :
  extractSymbolInfo node false = Some info -> String.prefix "_" (name info) = false.
Proof.
  intros Hsome.
  pose proof (AnalyzerClaims.extractSymbolInfo_name _ _ _ Hsome) as Hname.
  unfold extractSymbolInfo in Hsome. rewrite Hname in Hsome.
  cbn [negb andb] in Hsome.
  by destruct (String.prefix "_" (name info)).
Qed.

Lemma analyzeSourceFile_symbols_no_underscore sourceFile analysisType depth :
  Forall (fun s => String.prefix "_" (name s) = false)
    (symbols (analyzeSourceFile sourceFile analysisType depth false)).
Proof.
  unfold analyzeSourceFile. cbn [symbols].
  destruct (_ || _); [|constructor].
  rewrite fold_left_symbols. cbn [app]. apply Forall_forall. intros info Hin.
  apply list_elem_of_omap in Hin as (node & _ & Hnode).
  by apply (extractSymbolInfo_no_underscore node).
Qed.

(** X8: the symbols [analyzeSourceFile] reports are empty unless the
    analysis type is symbols or all; for these they are, in document
    order, the records [extractSymbolInfo] gives for the declaration nodes
    among the descendants of the file (those without a record are left
    out).  So there are at most as many symbols as nodes, and with
    [includePrivate = false] no reported symbol has a name starting with
    an underscore. *)
Theorem analyzeSourceFile_symbols sourceFile analysisType depth includePrivate :
  let result := analyzeSourceFile sourceFile analysisType depth includePrivate in
  (analysisType = Dependencies \/ analysisType = ComplexityOnly ->
   symbols result = [])
  /\ (analysisType = Symbols \/ analysisType = All ->
      symbols result
      = omap (fun node => extractSymbolInfo node includePrivate)
          (List.filter isDeclarationNode (descendants (root sourceFile))))
  /\ (length (symbols result) <= length (descendants (root sourceFile)))%nat
  /\ (includePrivate = false ->
      Forall (fun s => String.prefix "_" (name s) = false) (symbols result)).
Proof.
  intros result. subst result. unfold analyzeSourceFile. cbn [symbols].
  rewrite fold_left_symbols. cbn [app].
  set (found := omap _ _).
  assert (length found <= length (descendants (root sourceFile)))%nat as Hlen.
  { subst found. etransitivity; [apply length_omap_le | apply filter_length_le]. }
  assert (includePrivate = false ->
          Forall (fun s => String.prefix "_" (name s) = false) found) as Hnames.
  { intros ->. subst found. apply Forall_forall. intros info Hin.
    apply list_elem_of_omap in Hin as (node & _ & Hnode).
    by apply (extractSymbolInfo_no_underscore node). }
  split; [by intros [-> | ->]|]. split; [by intros [-> | ->]|].
  destruct (bool_decide (analysisType = Symbols) || bool_decide (analysisType = All)).
  - by split.
  - split; [cbn; lia | intros _; constructor].
Qed.

Lemma analyzeSourceFile_symbols_witness :
  map name (symbols (analyzeSourceFile Fixtures.fileClassC All 2 false))
  = ["C"; "v"; "m"].
Proof.
  destruct (analyzeSourceFile_symbols Fixtures.fileClassC All 2 false)
    as (_ & Hsymbols & _).
  rewrite Hsymbols by (by right). reflexivity.
Defined.

Lemma fold_left_imports decls acc :
  fold_left
    (fun imports importDecl =>
       let allImports :=
         optionToList (defaultImport importDecl)
         ++ optionToList (namespaceImport importDecl)
         ++ namedImports importDecl in
       if (0 <? Z.of_nat (length allImports))%Z then
         imports ++
           [{| moduleSpecifier := moduleSpecifierValue importDecl;
               importedSymbols := allImports;
               isTypeOnly := importIsTypeOnly importDecl;
               importLocation := nodeToLocation (importNode importDecl) |}]
       else imports) decls acc
  = acc ++ map (fun importDecl =>
                  {| moduleSpecifier := moduleSpecifierValue importDecl;
                     importedSymbols := boundNames importDecl;
                     isTypeOnly := importIsTypeOnly importDecl;
                     importLocation := nodeToLocation (importNode importDecl) |})
             (List.filter (fun importDecl =>
                             negb (bool_decide (boundNames importDecl = [])))
                decls).
Proof.
  revert acc. induction decls as [|d decls IH]; intros acc;
    cbn [fold_left List.filter]; [by rewrite app_nil_r|].
  rewrite IH. fold (boundNames d).
  destruct (boundNames d) as [|x l] eqn:Hbound; cbn [length]; [done|].
  assert ((0 <? Z.of_nat (S (length l)))%Z = true) as -> by (apply Z.ltb_lt; lia).
  rewrite bool_decide_eq_false_2 by done.
  cbn [negb map]. rewrite <- app_assoc. cbn [app]. by rewrite Hbound.
Qed.

Lemma fold_left_exports (lists : list (list string)) acc :
  fold_left (fun exports namedExports => exports ++ namedExports) lists acc
  = acc ++ concat lists.
Proof.
  revert acc. induction lists as [|l lists IH]; intros acc;
    cbn [fold_left concat]; [by rewrite app_nil_r|].
  by rewrite IH, app_assoc.
Qed.

(** X9: the imports and exports [analyzeSourceFile] reports are empty
    unless the analysis type is dependencies or all.  For these, there is
    one import entry, in order, for every import declaration that binds
    at least one name (an import for side effects only is left out), with
    the bound names in the order default import, namespace import, named
    imports; and the exports are the named exports of the export
    declarations followed by the names of the exported declarations. *)
Theorem analyzeSourceFile_dependencies sourceFile analysisType depth includePrivate :
  let result := analyzeSourceFile sourceFile analysisType depth includePrivate in
  (analysisType = Symbols \/ analysisType = ComplexityOnly ->
   imports result = [] /\ exports result = [])
  /\ (analysisType = Dependencies \/ analysisType = All ->
      imports result
      = map (fun importDecl =>
               {| moduleSpecifier := moduleSpecifierValue importDecl;
                  importedSymbols := boundNames importDecl;
                  isTypeOnly := importIsTypeOnly importDecl;
                  importLocation := nodeToLocation (importNode importDecl) |})
          (List.filter (fun importDecl =>
                          negb (bool_decide (boundNames importDecl = [])))
             (importDeclarations sourceFile))
      /\ exports result
         = concat (exportDeclarations sourceFile) ++ exportedDeclarations sourceFile)
  /\ Forall (fun entry => importedSymbols entry <> []) (imports result)
  /\ (length (imports result) <= length (importDeclarations sourceFile))%nat.
Proof.
  intros result. subst result. unfold analyzeSourceFile. cbn [imports exports].
  rewrite fold_left_imports, fold_left_exports. cbn [app].
  set (listed := map _ _).
  assert (Forall (fun entry => importedSymbols entry <> []) listed) as Hbound.
  { subst listed. apply Forall_fmap, Forall_forall.
    intros d Hd%list_elem_of_In%List.filter_In. destruct Hd as [_ Hd].
    cbn [importedSymbols]. apply negb_true_iff, bool_decide_eq_false in Hd. exact Hd. }
  assert (length listed <= length (importDeclarations sourceFile))%nat as Hlen.
  { subst listed. rewrite length_map. apply filter_length_le. }
  split; [by intros [-> | ->]|]. split; [by intros [-> | ->]|].
  destruct (bool_decide (analysisType = Dependencies)
            || bool_decide (analysisType = All)).
  - by split.
  - split; [constructor | cbn; lia].
Qed.

End FileAnalysisProperties.

Module HierarchyProperties.
Import Utils Analyzer Fixtures HierarchyFacts.

Lemma forEachM_invariant_in {A S} (I : S -> Prop) (f : A -> S -> option S) l s s' :
  (forall x t t', x ∈ l -> I t -> f x t = Some t' -> I t') ->
  I s -> forEachM f l s = Some s' -> I s'.
Proof.
  revert s. induction l as [|x l IH]; intros s Hstep Hs; cbn [forEachM].
  - by intros [= <-].
  - destruct (f x s) as [t|] eqn:Hf; [|discriminate].
    apply IH.
    + intros y u u' Hy. apply Hstep. by right.
    + eapply Hstep; [by left | exact Hs | exact Hf].
Qed.

Section Soundness.
Variable types : nat -> TypeRecord.
Variable direction : Direction.
Variable maxDepth : Z.
Variable start : nat.

Abbreviation listed := (withinDepth types direction maxDepth start).

Lemma process_sound fuel type d st st' :
  baseSteps types d start type ->
  (direction = Descendants -> d = 0%nat) ->
  processType types direction maxDepth fuel type (Z.of_nat d) st = Some st' ->
  Forall listed (hierarchy st) -> Forall listed (hierarchy st').
Proof.
  revert type d st st'.
  induction fuel as [|fuel IH]; intros type d st st' Hreach Hdir;
    cbn [processType]; [discriminate|].
  destruct (Z.gtb_spec (Z.of_nat d) maxDepth) as [|Hdepth]; [by intros [= <-]|].
  destruct (getSymbol (types type)) as [symbol|] eqn:Hsymbol; [|by intros [= <-]].
  destruct (decide (typeName symbol ∈ visited st)); [by intros [= <-]|].
  destruct (declarations symbol) as [|declaration rest] eqn:Hdecl;
    [by intros [= <-]|].
  set (st1 := {| visited := _; hierarchy := _ |}).
  intros Hrun Hlisted.
  assert (Forall listed (hierarchy st1)) as Hlisted1.
  { subst st1. cbn [hierarchy]. apply Forall_app. split; [done|].
    constructor; [|constructor].
    exists d, type, symbol, declaration, rest. repeat split; [done|lia|done..]. }
  destruct (bool_decide (direction = Ancestors) || bool_decide (direction = Both))
    eqn:Hup; [|by injection Hrun as <-].
  revert Hrun.
  apply (forEachM_invariant_in (fun t => Forall listed (hierarchy t))); [|done].
  intros base t t' Hbase Ht Hcall.
  replace (Z.of_nat d + 1) with (Z.of_nat (S d)) in Hcall by lia.
  apply (IH base (S d) t t'); [|intros ->; done|done|done].
  by apply (steps_base types d start type).
Qed.

(** A call only appends to the hierarchy. *)
Lemma process_appends fuel type depth st st' :
  processType types direction maxDepth fuel type depth st = Some st' ->
  hierarchy st `prefix_of` hierarchy st'.
Proof.
  revert type depth st st'.
  induction fuel as [|fuel IH]; intros type depth st st'; cbn [processType];
    [discriminate|].
  destruct (depth >? maxDepth)%Z; [by intros [= <-]|].
  destruct (getSymbol (types type)) as [symbol|]; [|by intros [= <-]].
  destruct (decide (typeName symbol ∈ visited st)); [by intros [= <-]|].
  destruct (declarations symbol) as [|declaration rest]; [by intros [= <-]|].
  set (st1 := {| visited := _; hierarchy := _ |}).
  assert (hierarchy st `prefix_of` hierarchy st1) as Hst1
    by (by apply prefix_app_r).
  destruct (bool_decide (direction = Ancestors) || bool_decide (direction = Both));
    [|by intros [= <-]].
  apply (forEachM_invariant (fun t => hierarchy st `prefix_of` hierarchy t));
    [|done].
  intros base t t' Ht Hcall. etransitivity; [exact Ht | by eapply IH].
Qed.

End Soundness.



(** X11: three edge cases of [getTypeHierarchy].  With a negative
    [maxDepth] the list is empty.  With the direction descendants the
    list has at most one entry, the type of the node itself: descendants
    are not searched for.  And whenever the depth bound is not negative
    and the type of the node has a symbol with a declaration, the list
    starts with the entry of that type itself. *)
Theorem getTypeHierarchy_edge_cases types node direction maxDepth fuel :
  (maxDepth < 0 ->
   getTypeHierarchy types (S fuel) node direction maxDepth = Some [])
  /\ (exists result,
        getTypeHierarchy types (S fuel) node Descendants maxDepth = Some result
        /\ (length result <= 1)%nat)
  /\ (forall result symbol declaration rest,
        0 <= maxDepth ->
        getSymbol (types (getType (getInfo node))) = Some symbol ->
        declarations symbol = declaration :: rest ->
        getTypeHierarchy types (S fuel) node direction maxDepth = Some result ->
        exists more, result = typeInfoOf symbol declaration :: more).
Proof.
  unfold getTypeHierarchy. split; [|split].
  - intros Hneg. cbn [processType].
    destruct (Z.gtb_spec 0 maxDepth); [reflexivity | lia].
  - cbn [processType].
    destruct (0 >? maxDepth)%Z; [by exists []; split; [|cbn; lia]|].
    destruct (getSymbol _) as [symbol|]; [|by exists []; split; [|cbn; lia]].
    destruct (decide _); [by exists []; split; [|cbn; lia]|].
    destruct (declarations symbol); [by exists []; split; [|cbn; lia]|].
    cbn. eexists. split; [reflexivity | cbn; lia].
  - intros result symbol declaration rest Hdepth Hsymbol Hdecl.
    cbn [processType].
    destruct (Z.gtb_spec 0 maxDepth); [lia|].
    rewrite Hsymbol. rewrite decide_False by set_solver. rewrite Hdecl.
    set (st1 := {| visited := _; hierarchy := _ |}).
    destruct (bool_decide (direction = Ancestors) || bool_decide (direction = Both)).
    + destruct (forEachM _ _ _) as [st'|] eqn:Hrun; [|discriminate].
      intros [= <-].
      assert (hierarchy st1 `prefix_of` hierarchy st') as [more ->].
      { revert Hrun.
        apply (forEachM_invariant (fun t => hierarchy st1 `prefix_of` hierarchy t));
          [|done].
        intros base t t' Ht Hcall. etransitivity; [exact Ht|].
        by eapply process_appends. }
      by exists more.
    + intros [= <-]. by exists [].
Qed.

Lemma getTypeHierarchy_edge_cases_witness :
  getTypeHierarchy cyclicTypes 3 classA Both (-1) = Some []
  /\ exists more,
       [typeInfoOf {| typeName := "A"; declarations := [declarationOf "A"] |}
          (declarationOf "A");
        typeInfoOf {| typeName := "B"; declarations := [declarationOf "B"] |}
          (declarationOf "B")]
       = typeInfoOf {| typeName := "A"; declarations := [declarationOf "A"] |}
           (declarationOf "A") :: more.
Proof.
  destruct (getTypeHierarchy_edge_cases cyclicTypes classA Both (-1) 2)
    as (Hnegative & _ & _).
  destruct (getTypeHierarchy_edge_cases cyclicTypes classA Both 5 2)
    as (_ & _ & Hfirst).
  split; [apply Hnegative; lia|].
  apply (Hfirst _ {| typeName := "A"; declarations := [declarationOf "A"] |}
           (declarationOf "A") []); [lia | reflexivity | reflexivity |].
  vm_compute. reflexivity.
Defined.

End HierarchyProperties.
(** ** More on tools.ts *)

Module ToolProperties.
Import Utils Analyzer Tools Fixtures PathFacts ToolsFacts ScopeProperties.

Lemma validated w filePath {B} (k : unit -> M B) :
  validatePath (cwd w) filePath = inr tt ->
  bind (validatePathM w filePath) k = k tt.
Proof.
  intros Hvalid. unfold validatePathM. rewrite Hvalid. cbn [bind ret].
  by destruct (k tt).
Qed.

Lemma loaded w path sourceFile {B} (k : SourceFile -> M B) :
  files w !! path = Some sourceFile ->
  bind (addSourceFileAtPath w path) k
  = ((ReadFile path :: (k sourceFile).1), (k sourceFile).2).
Proof.
  intros Hfile. unfold addSourceFileAtPath. rewrite Hfile.
  cbn [bind ret emit]. by destruct (k sourceFile).
Qed.

Lemma not_loaded w path {B} (k : SourceFile -> M B) :
  files w !! path = None ->
  bind (addSourceFileAtPath w path) k
  = ([ReadFile path], inl (ThrowFileNotFound path)).
Proof.
  intros Hfile. unfold addSourceFileAtPath. rewrite Hfile. reflexivity.
Qed.

(** X12: [analyzeFile] on a path inside the working directory: the scope
    check passes and exactly that file is read.  If the file does not
    load the call fails with the project's error.  Otherwise the summary
    counts all symbols of the analysis, while the symbols listed are none
    for the summary format, the first 10 for the detailed format and all
    of them for the full format. *)
Theorem analyzeFile_inside w params cwdNames names :
  cwd w = "/" +:+ joinPath cwdNames ->
  afFilePath params = joinPath names ->
  Forall isFileName cwdNames ->
  names <> [] ->
  Forall isFileName names ->
  Forall (fun n => String.prefix ".." n = false) names ->
  Forall (fun n => n ∉ excludedDirectories) names ->
  match files w !! afFilePath params with
  | None =>
      analyzeFile w params
      = ([ReadFile (afFilePath params)],
         inl (ThrowFileNotFound (afFilePath params)))
  | Some sourceFile =>
      let analysis :=
        analyzeSourceFile sourceFile (afAnalysisType params) (afDepth params)
          (afIncludePrivate params) in
      exists result,
        analyzeFile w params = ([ReadFile (afFilePath params)], inr result)
        /\ totalSymbols (summary result) = Z.of_nat (length (symbols analysis))
        /\ resultSymbols result
           = match afOutputFormat params with
             | Summary => None
             | Detailed => Some (take 10 (symbols analysis))
             | Full => Some (symbols analysis)
             end
        /\ (length (default [] (resultSymbols result)) <= length (symbols analysis))%nat
        /\ (afOutputFormat params = Detailed ->
            (length (default [] (resultSymbols result)) <= 10)%nat)
  end.
Proof.
  intros Hcwd Hpath Hcwdnames Hne Hnames Hdots Hnone.
  assert (validatePath (cwd w) (afFilePath params) = inr tt) as Hvalid.
  { rewrite Hcwd, Hpath. by apply validatePath_inside. }
  unfold analyzeFile. rewrite validated by done.
  destruct (files w !! afFilePath params) as [sourceFile|] eqn:Hfile.
  - rewrite (loaded _ _ sourceFile) by done.
    destruct (afOutputFormat params); repeat case_bool_decide; try done;
      eexists; (split; [reflexivity|]); cbn [summary totalSymbols resultSymbols];
      repeat split; try done; cbn [default from_option id length];
      rewrite ?length_take; try lia; try (intros ?; discriminate); intros; lia.
  - by apply not_loaded.
Qed.

Lemma analyzeFile_inside_witness :
  exists result,
    analyzeFile sampleWorld (analyzeAll "src/c.ts" 2 Detailed)
    = ([ReadFile "src/c.ts"], inr result)
    /\ totalSymbols (summary result) = 3.
Proof.
  pose proof (analyzeFile_inside sampleWorld (analyzeAll "src/c.ts" 2 Detailed)
                ["work"; "project"] ["src"; "c.ts"] eq_refl eq_refl) as H.
  destruct H as (result & Hrun & Htotal & _).
  - file_names.
  - discriminate.
  - file_names.
  - repeat (apply Forall_cons; split; [reflexivity|]). apply Forall_nil_2.
  - repeat (apply Forall_cons; split;
            [apply (bool_decide_unpack _); vm_compute; exact I|]).
    apply Forall_nil_2.
  - exists result. split; [exact Hrun | exact Htotal].
Defined.

End ToolProperties.

Module SymbolInfoProperties.
Import Utils Analyzer Tools Fixtures ToolsFacts ToolProperties.

(** X13: how [getSymbolInfo] fails on a file that is in scope and loads.
    When the position is outside the text, the compiler's assertion fails
    and the call fails with that plain error, which is not an analysis
    error.  When no node is found at the position the error has the code
    FILE_NOT_FOUND, although the file was found.  When the node has no
    symbol, and also when the name of its symbol starts with an
    underscore, the error is the parse error "Could not extract symbol
    information".  In every other case the call returns a record with the
    name of the symbol.  In all cases exactly the one file is read. *)
Theorem getSymbolInfo_errors ls w params sourceFile :
  validatePath (cwd w) (gsFilePath params) = inr tt ->
  files w !! gsFilePath params = Some sourceFile ->
  match getPositionOfLineAndCharacter ls sourceFile
          (line (gsPosition params)) (character (gsPosition params)) with
  | inl message =>
      getSymbolInfo ls w params
      = ([ReadFile (gsFilePath params)], inl (ThrowError message))
  | inr offset =>
      match getDescendantAtPos ls sourceFile offset with
      | None =>
          getSymbolInfo ls w params
          = ([ReadFile (gsFilePath params)],
             inl (noSymbolAtPosition (gsFilePath params)))
          /\ noSymbolAtPosition (gsFilePath params)
             = ThrowAnalysisError
                 {| code := FILE_NOT_FOUND;
                    errorMessage := "No symbol found at position";
                    errorFile := gsFilePath params |}
      | Some node =>
          match symbolName (getInfo (focus node)) with
          | None =>
              getSymbolInfo ls w params
              = ([ReadFile (gsFilePath params)],
                 inl (couldNotExtract (gsFilePath params)))
          | Some n =>
              if String.prefix "_" n then
                getSymbolInfo ls w params
                = ([ReadFile (gsFilePath params)],
                   inl (couldNotExtract (gsFilePath params)))
              else
                exists info,
                  getSymbolInfo ls w params
                  = ([ReadFile (gsFilePath params)], inr info)
                  /\ name info = n
          end
      end
  end.
Proof.
  intros Hvalid Hfile. unfold getSymbolInfo.
  rewrite validated, (loaded _ _ sourceFile) by done.
  pose proof (findSymbolAtPosition_cases ls sourceFile (gsPosition params))
    as Hfound.
  destruct (getPositionOfLineAndCharacter ls sourceFile _ _) as [message|offset];
    rewrite Hfound; [reflexivity|].
  cbn [bind ret fst snd app].
  destruct (getDescendantAtPos ls sourceFile offset) as [node|]; [|by split].
  unfold extractSymbolInfo.
  destruct (symbolName (getInfo (focus node))) as [n|]; [|reflexivity].
  cbn [negb andb]. destruct (String.prefix "_" n); [reflexivity|].
  destruct (gsIncludeRelationships params && (gsDepth params >? 1)%Z);
    [|by eexists].
  destruct (0 <? _)%Z; by eexists.
Qed.

Lemma getSymbolInfo_errors_witness :
  getSymbolInfo oneLineService assignWorld (symbolInfoOnLine "src/assign.ts" 0)
  = ([ReadFile "src/assign.ts"], inl (couldNotExtract "src/assign.ts"))
  /\ getSymbolInfo oneLineService assignWorld (symbolInfoOnLine "src/assign.ts" 3)
     = ([ReadFile "src/assign.ts"],
        inl (ThrowError "Debug Failure. Bad line number.")).
Proof.
  split.
  - exact (getSymbolInfo_errors oneLineService assignWorld
             (symbolInfoOnLine "src/assign.ts" 0) fileAssign eq_refl eq_refl).
  - exact (getSymbolInfo_errors oneLineService assignWorld
             (symbolInfoOnLine "src/assign.ts" 3) fileAssign eq_refl eq_refl).
Defined.

End SymbolInfoProperties.

Module ReferenceProperties.
Import Utils Analyzer Tools Fixtures ToolsFacts ToolProperties.

Lemma length_slice0 {A} (n : Z) (l : list A) :
  Z.of_nat (length (slice0 n l))
  = if (0 <=? n)%Z then Z.min n (Z.of_nat (length l))
    else Z.max 0 (Z.of_nat (length l) + n).
Proof.
  unfold slice0. destruct (Z.leb_spec 0 n); rewrite length_take; lia.
Qed.

Lemma slice0_prefix {A} (n : Z) (l : list A) : slice0 n l `prefix_of` l.
Proof.
  unfold slice0. destruct (0 <=? n)%Z; apply prefix_take.
Qed.

(** X14: in a result of [findReferences], [totalReferences] counts the
    entries for all the reference nodes the language service reports for
    the symbol at the position, and [references] is a prefix of these
    entries, in their order: the first [maxResults] of them when
    [maxResults] is not negative, and all but the last [-maxResults] when
    it is negative. *)
Theorem findReferences_truncates ls w params sourceFile node tr result :
  files w !! frFilePath params = Some sourceFile ->
  findSymbolAtPosition ls sourceFile (frPosition params) = ret (Some node) ->
  findReferences ls w params = (tr, inr result) ->
  let loaded := loadedFiles w params sourceFile in
  let found := map (describeReference loaded) (referenceNodes ls loaded node) in
  totalReferences result = Z.of_nat (length found)
  /\ references result `prefix_of` found
  /\ (0 <= frMaxResults params ->
      references result = take (Z.to_nat (frMaxResults params)) found)
  /\ (frMaxResults params < 0 ->
      references result
      = take (length found - Z.to_nat (- frMaxResults params)) found)
  /\ Z.of_nat (length (references result))
     = if (0 <=? frMaxResults params)%Z
       then Z.min (frMaxResults params) (totalReferences result)
       else Z.max 0 (totalReferences result + frMaxResults params).
Proof.
  intros Hfile Hnode Hrun loaded found.
  destruct (findReferences_result ls w params tr result Hrun)
    as (sourceFile' & node' & Hfile' & Hnode' & Hrefs & Htotal).
  rewrite Hfile in Hfile'. injection Hfile' as <-.
  rewrite Hnode in Hnode'. injection Hnode' as <-.
  fold loaded in Hrefs, Htotal. rewrite <- slice0_map in Hrefs. fold found in Hrefs.
  assert (Hlen : totalReferences result = Z.of_nat (length found)).
  { rewrite Htotal. subst found. by rewrite length_map. }
  rewrite Hrefs, Hlen.
  split; [done|]. split; [apply slice0_prefix|].
  split; [|split].
  - intros Hmax. unfold slice0.
    by destruct (Z.leb_spec 0 (frMaxResults params)); [|lia].
  - intros Hmax. unfold slice0.
    destruct (Z.leb_spec 0 (frMaxResults params)); [lia|].
    f_equal. lia.
  - apply length_slice0.
Qed.

Lemma findReferences_truncates_witness :
  exists result,
    findReferences assignService assignWorld firstReferenceOfY
    = ([ReadFile "src/assign.ts"], inr result)
    /\ totalReferences result = 2
    /\ references result = [describeReference [fileAssign] yDeclared].
Proof.
  eexists. split; [reflexivity|].
  destruct (findReferences_truncates assignService assignWorld firstReferenceOfY
              fileAssign yDeclared _ _ eq_refl eq_refl eq_refl)
    as (Htotal & _ & Hfirst & _).
  split; [exact Htotal|]. apply Hfirst. done.
Defined.



End ReferenceProperties.

Module ContextProperties.
Import Utils Analyzer Tools Fixtures ToolsFacts ToolProperties StringFacts.

Lemma substringToFloor_prefix x s :
  String.prefix (substringToFloor x s) s = true.
Proof.
  unfold substringToFloor.
  destruct x as [| [|] | |]; try apply prefix_substring0. apply prefix_refl.
Qed.

Lemma withinTokens_budget main imports maxTokens :
  let result := withinTokens main imports maxTokens in
  tokenCount result = Z.min (Z.of_nat (String.length main) / 4) maxTokens
  /\ (Z.of_nat (String.length main) / 4 <= maxTokens -> mainContext result = main)
  /\ (maxTokens < Z.of_nat (String.length main) / 4 ->
      exists kept,
        String.prefix kept main = true
        /\ mainContext result = kept +:+ newline +:+ "... (truncated)").
Proof.
  unfold withinTokens.
  destruct (Z.gtb_spec (Z.of_nat (String.length main) / 4) maxTokens);
    cbn [tokenCount mainContext].
  - split; [lia|]. split; [lia|]. intros _.
    eexists. split; [apply substringToFloor_prefix | reflexivity].
  - split; [lia|]. split; [done | lia].
Qed.

(** X16: [extractContext] on a file that is in scope and loads, with
    [target] the node at the position, if one is asked for.  When the
    extractor of the context type does not return, neither does the call.
    When it returns the text [main], the call returns: the token count is
    a quarter of the length of [main], rounded down, or [maxTokens] when
    that is smaller, so it never exceeds [maxTokens]; in the first case
    the text is [main] as it is, in the second a prefix of [main]
    followed by a line that says it was truncated.  Without a position,
    every context type but module has the empty text for [main], so the
    call returns rather than fails. *)
Theorem extractContext_token_budget ls d h w fuel params sourceFile target :
  validatePath (cwd w) (ecFilePath params) = inr tt ->
  files w !! ecFilePath params = Some sourceFile ->
  match ecPosition params with
  | Some position =>
      exists node,
        target = Some node
        /\ findSymbolAtPosition ls sourceFile position = ret (Some node)
  | None => target = None
  end ->
  match extractMain d h fuel params sourceFile target with
  | None =>
      extractContext ls d h w fuel params
      = ([ReadFile (ecFilePath params)], inr None)
  | Some main =>
      exists result,
        extractContext ls d h w fuel params
        = ([ReadFile (ecFilePath params)], inr (Some result))
        /\ tokenCount result
           = Z.min (Z.of_nat (String.length main) / 4) (ecMaxTokens params)
        /\ tokenCount result <= ecMaxTokens params
        /\ (Z.of_nat (String.length main) / 4 <= ecMaxTokens params ->
            mainContext result = main)
        /\ (ecMaxTokens params < Z.of_nat (String.length main) / 4 ->
            exists kept,
              String.prefix kept main = true
              /\ mainContext result = kept +:+ newline +:+ "... (truncated)")
  end
  /\ (ecPosition params = None -> ecContextType params <> ModuleContext ->
      extractMain d h fuel params sourceFile target = Some "").
Proof.
  intros Hvalid Hfile Htarget. split.
  - unfold extractContext.
    rewrite validated, (loaded _ _ sourceFile) by done.
    assert (Hfound :
              match ecPosition params with
              | Some position =>
                  let* found := findSymbolAtPosition ls sourceFile position in
                  match found with
                  | Some node => ret (Some node)
                  | None => throw (noSymbolAtPosition (ecFilePath params))
                  end
              | None => ret None
              end = ret target).
    { destruct (ecPosition params) as [position|]; [|by subst].
      destruct Htarget as (node & -> & ->). reflexivity. }
    rewrite Hfound. cbn [bind ret fst snd app].
    destruct (extractMain d h fuel params sourceFile target) as [main|];
      [|reflexivity].
    cbn [ret fst snd app].
    eexists. split; [reflexivity|].
    match goal with
    | |- context [withinTokens main ?imports ?maxTokens] =>
        destruct (withinTokens_budget main imports maxTokens)
          as (Hcount & Hfits & Hcut)
    end.
    split; [exact Hcount|]. split; [rewrite Hcount; lia|].
    split; [exact Hfits | exact Hcut].
  - intros Hposition Htype. rewrite Hposition in Htarget. subst target.
    unfold extractMain. by destruct (ecContextType params).
Qed.

Lemma extractContext_token_budget_witness :
  exists result,
    extractContext assignService silentDeclarations moduleHelpers assignWorld 0
      (moduleContextOf "src/assign.ts" 15)
    = ([ReadFile "src/assign.ts"], inr (Some result))
    /\ tokenCount result = 15
    /\ String.length (mainContext result) = (59 + 16)%nat.
Proof.
  destruct (extractContext_token_budget assignService silentDeclarations
              moduleHelpers assignWorld 0 (moduleContextOf "src/assign.ts" 15)
              fileAssign None eq_refl eq_refl eq_refl)
    as ((result & Hrun & Hcount & _) & _).
  exists result. split; [exact Hrun|]. split; [exact Hcount|].
  injection Hrun as <-. vm_compute. reflexivity.
Defined.

End ContextProperties.

Module SmellProperties.
Import Utils Analyzer Tools Fixtures ToolsFacts ToolProperties.

Lemma analyzeOneFile_spec h w categories threshold smells file :
  exists tr,
    analyzeOneFile h w categories threshold smells file
    = (tr,
       inr (match analysable w file with
            | Some sourceFile => runDetectors h categories threshold sourceFile smells
            | None => smells
            end))
    /\ readsOf tr
       = (if inScope w file then [file] else [])
    /\ length (loggedBy tr)
       = (if bool_decide (analysable w file = None) then 1%nat else 0%nat).
Proof.
  unfold analyzeOneFile, analysable, inScope, validatePathM, addSourceFileAtPath.
  destruct (validatePath (cwd w) file) as [e|[]].
  - eexists. split; [reflexivity|]. by split.
  - destruct (files w !! file) as [sourceFile|].
    + eexists. split; [reflexivity|]. by split.
    + eexists. split; [reflexivity|]. by split.
Qed.

Lemma analyzeFiles_spec h w categories threshold files smells :
  exists tr,
    analyzeFiles h w categories threshold files smells
    = (tr,
       inr (fold_left
              (fun smells sourceFile =>
                 runDetectors h categories threshold sourceFile smells)
              (omap (analysable w) files) smells))
    /\ readsOf tr
       = List.filter (inScope w) files
    /\ length (loggedBy tr)
       = length (List.filter (fun file => bool_decide (analysable w file = None))
                   files).
Proof.
  revert smells. induction files as [|file files IH]; intros smells.
  - by exists [].
  - cbn [analyzeFiles omap list_omap List.filter].
    destruct (analyzeOneFile_spec h w categories threshold smells file)
      as (tr1 & -> & Hreads1 & Hlogged1).
    cbn [bind].
    match goal with
    | |- context [analyzeFiles h w categories threshold files ?s] =>
        destruct (IH s) as (tr2 & -> & Hreads2 & Hlogged2)
    end.
    exists (tr1 ++ tr2). split.
    + f_equal. f_equal. by destruct (analysable w file).
    + unfold readsOf, loggedBy in *. rewrite !omap_app, !length_app.
      rewrite Hreads1, Hreads2, Hlogged1, Hlogged2.
      split; [by destruct (inScope w file) | by case_bool_decide].
Qed.

(** X17: [detectCodeSmells] never fails, whatever the files are.  It
    reads exactly the files of its list that pass the scope check, in
    order, so never a file outside the scope; it logs one error for every
    file that fails the check or does not load; and its findings are
    those of the remaining files, detected file after file in the order
    of the list, as if the other files were not there. *)
Theorem detectCodeSmells_skips_failing_files h w params :
  let files :=
    match dsFilePath params with
    | Some path => if bool_decide (path = "") then projectFiles w else [path]
    | None => projectFiles w
    end in
  let found :=
    fold_left
      (fun smells sourceFile =>
         runDetectors h (default allCategories (dsCategories params))
           (dsThreshold params) sourceFile smells)
      (omap (analysable w) files) [] in
  exists tr result,
    detectCodeSmells h w params = (tr, inr result)
    /\ smells result = sortBySeverity found
    /\ total (smellSummary result) = Z.of_nat (length found)
    /\ readsOf tr
       = List.filter (inScope w) files
    /\ Forall (fun file => validatePath (cwd w) file = inr tt) (readsOf tr)
    /\ length (loggedBy tr)
       = length (List.filter (fun file => bool_decide (analysable w file = None))
                   files).
Proof.
  intros files found. unfold detectCodeSmells. fold files.
  destruct (analyzeFiles_spec h w (default allCategories (dsCategories params))
              (dsThreshold params) files [])
    as (tr & -> & Hreads & Hlogged).
  fold found. cbn [bind ret]. rewrite app_nil_r.
  eexists _, _. split; [reflexivity|]. cbn [smells smellSummary total].
  split; [done|]. split; [done|]. split; [done|]. split; [|done].
  rewrite Hreads. apply Forall_forall.
  intros file Hfile%list_elem_of_In%List.filter_In.
  destruct Hfile as [_ Hfile]. unfold inScope in Hfile.
  by destruct (validatePath (cwd w) file) as [|[]].
Qed.

Lemma sortBySeverity_sorted (l : list Smell) :
  StronglySorted
    (fun a b => severityOrder (severity a) <= severityOrder (severity b))
    (sortBySeverity l).
Proof.
  unfold sortBySeverity.
  assert (forall sev (l : list Smell),
            Forall (fun s => severity s = sev) (List.filter (hasSeverity sev) l))
    as Hsev.
  { intros sev l'. apply Forall_forall.
    intros s Hs%list_elem_of_In%List.filter_In. destruct Hs as [_ Hs].
    by apply bool_decide_eq_true in Hs. }
  assert (forall sev (l : list Smell),
            Forall (fun s => severity s = sev) l ->
            StronglySorted
              (fun a b => severityOrder (severity a) <= severityOrder (severity b)) l)
    as Hconst.
  { intros sev l' Hall. induction Hall as [|s l' Hs Hall IH]; constructor; [done|].
    eapply Forall_impl; [exact Hall|]. intros t Ht. cbn beta. by rewrite Hs, Ht. }
  pose proof (Hsev High l) as HH. pose proof (Hsev Medium l) as HM.
  pose proof (Hsev Low l) as HL. rewrite Forall_forall in HH, HM, HL.
  apply StronglySorted_app_2; [|by apply (Hconst High)|].
  - intros a b Ha [Hb|Hb]%elem_of_app.
    + by rewrite (HH a Ha), (HM b Hb).
    + by rewrite (HH a Ha), (HL b Hb).
  - apply StronglySorted_app_2; [|by apply (Hconst Medium) | by apply (Hconst Low)].
    intros a b Ha Hb. by rewrite (HM a Ha), (HL b Hb).
Qed.

Lemma filter_Permutation {A} (f : A -> bool) (l l' : list A) :
  l ≡ₚ l' -> List.filter f l ≡ₚ List.filter f l'.
Proof.
  induction 1 as [|x l l' _ IH|x y l|l l' l'' _ IH1 _ IH2]; cbn [List.filter].
  - done.
  - destruct (f x); [by constructor | done].
  - destruct (f x), (f y); try done. apply perm_swap.
  - by etransitivity.
Qed.

Lemma hasSeverity_eq sev s : hasSeverity sev s = bool_decide (severity s = sev).
Proof. reflexivity. Qed.

Lemma filter_severity_partition (l : list Smell) :
  (length (List.filter (hasSeverity High) l)
   + length (List.filter (hasSeverity Medium) l)
   + length (List.filter (hasSeverity Low) l))%nat = length l.
Proof.
  induction l as [|s l IH]; [done|]. cbn [List.filter].
  rewrite !(hasSeverity_eq _ s).
  destruct (severity s); repeat case_bool_decide; try done; cbn [length]; lia.
Qed.

Lemma sortBySeverity_permutation (l : list Smell) : sortBySeverity l ≡ₚ l.
Proof.
  unfold sortBySeverity. induction l as [|s l IH]; [done|].
  cbn [List.filter]. rewrite !(hasSeverity_eq _ s).
  destruct (severity s); repeat case_bool_decide; try done.
  - (* low *)
    rewrite app_assoc. symmetry. apply Permutation_cons_app.
    rewrite <- app_assoc. by symmetry.
  - (* medium *)
    cbn [app]. symmetry. apply Permutation_cons_app. by symmetry.
  - (* high *)
    cbn [app]. by constructor.
Qed.



(** X19: the duplication category has no detector: when the categories
    asked for contain none of complexity, naming, unused-code,
    async-issues and coupling, [detectCodeSmells] reports no finding,
    whatever the files contain; the files in scope are read all the
    same. *)
Theorem detectCodeSmells_duplication_finds_nothing h w params categories :
  dsCategories params = Some categories ->
  Forall (fun c => c = Duplication) categories ->
  exists tr result,
    detectCodeSmells h w params = (tr, inr result)
    /\ smells result = []
    /\ total (smellSummary result) = 0
    /\ Forall (fun entry => entry.2 = 0) (byCategory (smellSummary result))
    /\ readsOf tr
       = List.filter (inScope w)
           match dsFilePath params with
           | Some path => if bool_decide (path = "") then projectFiles w else [path]
           | None => projectFiles w
           end.
Proof.
  intros Hcategories Hall. unfold detectCodeSmells.
  rewrite Hcategories. cbn [default from_option id].
  set (files := match dsFilePath params with Some _ => _ | None => _ end).
  destruct (analyzeFiles_spec h w categories (dsThreshold params) files [])
    as (tr & -> & Hreads & _).
  assert (forall sourceFile smells,
            runDetectors h categories (dsThreshold params) sourceFile smells = smells)
    as Hnone.
  { intros sourceFile smells. unfold runDetectors, includes.
    rewrite !bool_decide_eq_false_2; [done|..];
      intros Hin; rewrite Forall_forall in Hall;
      by specialize (Hall _ Hin). }
  assert (fold_left
            (fun smells sourceFile =>
               runDetectors h categories (dsThreshold params) sourceFile smells)
            (omap (analysable w) files) [] = []) as ->.
  { induction (omap (analysable w) files) as [|sf l IH]; [done|].
    cbn [fold_left]. by rewrite Hnone. }
  cbn [bind ret]. rewrite app_nil_r.
  eexists _, _. split; [reflexivity|]. cbn [smells smellSummary total byCategory].
  split; [done|]. split; [done|]. split; [|done].
  apply Forall_fmap, Forall_true. done.
Qed.

Lemma detectCodeSmells_duplication_finds_nothing_witness :
  exists tr result,
    detectCodeSmells quietHelpers sampleWorld
      {| dsFilePath := Some "src/c.ts"; dsCategories := Some [Duplication];
         dsThreshold := None |} = (tr, inr result)
    /\ smells result = []
    /\ total (smellSummary result) = 0
    /\ Forall (fun entry => entry.2 = 0) (byCategory (smellSummary result))
    /\ readsOf tr = ["src/c.ts"].
Proof.
  apply (detectCodeSmells_duplication_finds_nothing quietHelpers sampleWorld
           {| dsFilePath := Some "src/c.ts"; dsCategories := Some [Duplication];
              dsThreshold := None |} [Duplication] eq_refl).
  by repeat constructor.
Defined.

End SmellProperties.

Module SmellClaims.
Import Utils UtilsFacts Analyzer Tools Fixtures SmellFacts ToolsFacts
  SmellProperties.

(** C1, as stated, fails in two ways.  At a complexity of exactly twice
    the threshold: [function f(x) { if (x) {} }] has complexity 2, the
    configured threshold is 1, and the only complexity finding of the
    file is [Medium], not [High]; [detect_code_smells] returns just that
    finding.  And for a function that is not a function declaration at
    the top level of the file: the arrow function of
    [const g = (x) => { if (x) {} };] has the same complexity 2, above
    the threshold 1, and [detect_code_smells] returns no finding at
    all. *)
Lemma complexity_twice_threshold_is_medium :
  complexityThreshold thresholdOne = 1
  /\ getNodeComplexity fnOneIf = 2 * complexityThreshold thresholdOne
  /\ map severity
       (List.filter isFunctionComplexityFinding
          (detectComplexitySmells fileOneIf [] thresholdOne)) = [Medium]
  /\ ~ In High
        (map severity (detectComplexitySmells fileOneIf [] thresholdOne))
  /\ (exists result,
        detectCodeSmells quietHelpers complexityWorld (complexityOf "src/f.ts")
        = ([ReadFile "src/f.ts"], inr result)
        /\ map severity (smells result) = [Medium])
  /\ getNodeComplexity arrowOneIf = 2
  /\ In arrowOneIf (descendants (root fileArrow))
  /\ (exists result,
        detectCodeSmells quietHelpers complexityWorld (complexityOf "src/g.ts")
        = ([ReadFile "src/g.ts"], inr result)
        /\ smells result = []).
Proof.
  split; [reflexivity|]. split; [reflexivity|]. split; [reflexivity|].
  split; [vm_compute; intros [|[]]; discriminate|].
  split; [eexists; split; [vm_compute; reflexivity | reflexivity]|].
  split; [reflexivity|].
  split; [vm_compute; tauto|].
  eexists. split; [vm_compute; reflexivity | reflexivity].
Qed.

Lemma filter_filter_comm {A} (p q : A -> bool) (l : list A) :
  List.filter p (List.filter q l) = List.filter q (List.filter p l).
Proof.
  induction l as [|x l IH]; [done|]. cbn [List.filter].
  destruct (p x) eqn:Hp, (q x) eqn:Hq; cbn [List.filter];
    rewrite ?Hp, ?Hq, IH; reflexivity.
Qed.

Lemma filter_sortBySeverity (p : Smell -> bool) (l : list Smell) :
  List.filter p (sortBySeverity l) = sortBySeverity (List.filter p l).
Proof.
  unfold sortBySeverity. rewrite !List.filter_app.
  by rewrite !(filter_filter_comm p).
Qed.

Lemma filter_reports (l : list Smell) :
  List.filter reportsFunctionComplexity l
  = List.filter (fun s => bool_decide (smellType s = Complexity))
      (List.filter isFunctionComplexityFinding l).
Proof.
  induction l as [|x l IH]; [done|]. cbn [List.filter].
  unfold reportsFunctionComplexity at 1.
  destruct (isFunctionComplexityFinding x); cbn [List.filter];
    destruct (bool_decide (smellType x = Complexity)); cbn [andb];
    by rewrite IH.
Qed.

Lemma filter_reports_other category (findings : list Finding) :
  category <> Complexity ->
  List.filter reportsFunctionComplexity (map (asSmell category) findings) = [].
Proof.
  intros Hother. induction findings as [|f l IH]; [done|].
  cbn [map List.filter]. unfold reportsFunctionComplexity at 1.
  cbn [asSmell smellType]. by rewrite bool_decide_eq_false_2 by done.
Qed.

Lemma classified_findings threshold (funcs : list Node) :
  map (functionComplexitySmell threshold)
    (List.filter
       (fun f => (getNodeComplexity f >? complexityThreshold threshold)%Z) funcs)
  = omap (classifiedFinding (complexityThreshold threshold)) funcs.
Proof.
  set (t := complexityThreshold threshold).
  induction funcs as [|f funcs IH]; [reflexivity|].
  cbn [List.filter]. change (omap ?g (f :: funcs))
    with (match g f with Some y => y :: omap g funcs | None => omap g funcs end).
  rewrite <- IH.
  unfold classifiedFinding, classifyComplexity, functionComplexitySmell. fold t.
  destruct (Z.gtb_spec (getNodeComplexity f) t) as [Hgt|Hle].
  - cbn [map]. destruct (getNodeComplexity f >? t * 2)%Z; reflexivity.
  - destruct (Z.gtb_spec (getNodeComplexity f) (t * 2)) as [Hgt2|Hle2];
      [|reflexivity].
    (* c <= t and c > 2t: only possible for a negative threshold *)
    exfalso. pose proof (getNodeComplexity_pos f). lia.
Qed.

Lemma classified_category t (funcs : list Node) :
  List.filter (fun s => bool_decide (smellType s = Complexity))
    (omap (classifiedFinding t) funcs)
  = omap (classifiedFinding t) funcs.
Proof.
  apply forallb_filter_id, forallb_forall.
  intros s Hs%list_elem_of_In%list_elem_of_omap.
  destruct Hs as (f & _ & Hf). unfold classifiedFinding in Hf.
  destruct (classifyComplexity t (getNodeComplexity f)); [|done].
  injection Hf as <-. by apply bool_decide_eq_true_2.
Qed.

Lemma filter_reports_detectComplexitySmells sourceFile smells threshold :
  List.filter reportsFunctionComplexity
    (detectComplexitySmells sourceFile smells threshold)
  = List.filter reportsFunctionComplexity smells
    ++ omap (classifiedFinding (complexityThreshold threshold))
         (getFunctions (root sourceFile)).
Proof.
  rewrite !filter_reports, filter_detectComplexitySmells, List.filter_app.
  f_equal. rewrite classified_findings. apply classified_category.
Qed.

Lemma filter_reports_runDetectors h categories threshold sourceFile smells :
  List.filter reportsFunctionComplexity
    (runDetectors h categories threshold sourceFile smells)
  = List.filter reportsFunctionComplexity smells
    ++ (if includes categories Complexity
        then omap (classifiedFinding (complexityThreshold threshold))
               (getFunctions (root sourceFile))
        else []).
Proof.
  unfold runDetectors.
  destruct (includes categories Naming), (includes categories UnusedCode),
    (includes categories AsyncIssues), (includes categories Coupling),
    (includes categories Complexity);
    rewrite ?List.filter_app, ?filter_reports_other by done;
    rewrite ?filter_reports_detectComplexitySmells, ?app_nil_r; reflexivity.
Qed.

Lemma filter_reports_files h categories threshold (sourceFiles : list SourceFile) :
  forall smells,
    List.filter reportsFunctionComplexity
      (fold_left
         (fun smells sourceFile =>
            runDetectors h categories threshold sourceFile smells)
         sourceFiles smells)
    = List.filter reportsFunctionComplexity smells
      ++ (if includes categories Complexity
          then flat_map
                 (fun sourceFile =>
                    omap (classifiedFinding (complexityThreshold threshold))
                      (getFunctions (root sourceFile)))
                 sourceFiles
          else []).
Proof.
  induction sourceFiles as [|sf l IH]; intros smells; cbn [fold_left flat_map].
  - destruct (includes categories Complexity); by rewrite app_nil_r.
  - rewrite IH, filter_reports_runDetectors, <- app_assoc.
    by destruct (includes categories Complexity).
Qed.

(** C1, amended.  The effective complexity threshold [t] is the
    configured value when there is one and it is not 0, and 10 otherwise.
    [detect_code_smells] always returns, and the findings about function
    complexity in its result are, high before medium and otherwise in
    the order of the files and of the functions, one for each function
    declaration that [getFunctions] lists for an analysed file (the
    declarations among the top-level statements that have a body or are
    ambient) and whose complexity [c] exceeds [t], provided the
    complexity category is selected: its severity is [High] when
    [c > 2t] and [Medium] when [t < c <= 2t] (so also when [c = 2t]).  A
    listed function with [c <= t] gets no such finding, and neither does
    any other function (an arrow function, a function expression, a
    nested function, a method), whatever its complexity. *)
Theorem detectCodeSmells_complexity_classification h w params :
  let files :=
    match dsFilePath params with
    | Some path => if bool_decide (path = "") then projectFiles w else [path]
    | None => projectFiles w
    end in
  let categories := default allCategories (dsCategories params) in
  let t := complexityThreshold (dsThreshold params) in
  t = match dsThreshold params ≫= thComplexity with
      | Some v => if (v =? 0)%Z then 10 else v
      | None => 10
      end
  /\ (exists tr result,
        detectCodeSmells h w params = (tr, inr result)
        /\ List.filter reportsFunctionComplexity (smells result)
           = sortBySeverity
               (if includes categories Complexity
                then flat_map
                       (fun sourceFile =>
                          omap (classifiedFinding t) (getFunctions (root sourceFile)))
                       (omap (analysable w) files)
                else []))
  /\ (forall func,
        let c := getNodeComplexity func in
        (severity <$> classifiedFinding t func = Some High <-> 2 * t < c)
        /\ (severity <$> classifiedFinding t func = Some Medium
            <-> t < c <= 2 * t)
        /\ (classifiedFinding t func = None <-> c <= t)).
Proof.
  intros files categories t. split; [reflexivity|]. split.
  - unfold detectCodeSmells. fold files categories.
    destruct (analyzeFiles_spec h w categories (dsThreshold params) files [])
      as (tr & -> & _ & _).
    cbn [bind ret]. eexists _, _. split; [reflexivity|]. cbn [smells].
    by rewrite filter_sortBySeverity, filter_reports_files.
  - intros func c. pose proof (getNodeComplexity_pos func) as Hc.
    unfold classifiedFinding, classifyComplexity. fold c.
    destruct (Z.gtb_spec c (t * 2)), (Z.gtb_spec c t);
      cbn [fmap option_fmap option_map severity];
      repeat split; intros; try discriminate; try lia; try reflexivity.
Qed.

Lemma detectCodeSmells_complexity_classification_witness :
  exists tr result,
    detectCodeSmells quietHelpers complexityWorld (complexityOf "src/f.ts")
    = (tr, inr result)
    /\ map severity (List.filter reportsFunctionComplexity (smells result))
       = [Medium].
Proof.
  destruct (detectCodeSmells_complexity_classification quietHelpers
              complexityWorld (complexityOf "src/f.ts"))
    as (_ & (tr & result & Hrun & Hfindings) & _).
  exists tr, result. split; [exact Hrun|]. rewrite Hfindings. reflexivity.
Defined.

End SmellClaims.

Module SearchProperties.
Import Utils Analyzer Tools Fixtures ToolsFacts ToolProperties ReferenceProperties
  FileAnalysisProperties StringFacts.

Lemma stringIncludes_prefix text needle :
  String.prefix needle text = true -> stringIncludes text needle = true.
Proof. intros H. destruct text; cbn [stringIncludes]; by rewrite H. Qed.

Lemma stringIncludes_empty text : stringIncludes text "" = true.
Proof. apply stringIncludes_prefix, prefix_empty. Qed.

Lemma lowerChar_idempotent c : lowerChar (lowerChar c) = lowerChar c.
Proof. destruct c as [[] [] [] [] [] [] [] []]; reflexivity. Qed.

Lemma lowerAscii_idempotent s : lowerAscii (lowerAscii s) = lowerAscii s.
Proof.
  induction s as [|c s IH]; [done|]. cbn [lowerAscii].
  by rewrite lowerChar_idempotent, IH.
Qed.

Lemma lowerChar_ascii c :
  (N_of_ascii c < 128)%N -> (N_of_ascii (lowerChar c) < 128)%N.
Proof. destruct c as [[] [] [] [] [] [] [] []]; vm_compute; done. Qed.

Lemma lowerAscii_ascii s : isAscii s -> isAscii (lowerAscii s).
Proof.
  induction s as [|c s IH]; [done|]. cbn [isAscii lowerAscii].
  intros [Hc Hs]. split; [by apply lowerChar_ascii | by apply IH].
Qed.

Lemma textScore_positive lowerName lowerQuery :
  0 < (if bool_decide (lowerName = lowerQuery) then 10
       else if String.prefix lowerQuery lowerName then 8
       else if stringIncludes lowerName lowerQuery then 6 else 0)
  <-> stringIncludes lowerName lowerQuery = true.
Proof.
  case_bool_decide as Heq.
  - subst. split; [intros _; apply stringIncludes_prefix, prefix_refl | lia].
  - destruct (String.prefix lowerQuery lowerName) eqn:Hprefix.
    + split; [intros _; by apply stringIncludes_prefix | lia].
    + destruct (stringIncludes lowerName lowerQuery); split; (lia || done).
Qed.

(** X20: what [calculateSearchScore] returns, in tenths, whatever
    [toLowerCase] does to the texts.  An ast-pattern search scores every
    symbol 0.  A text search scores 0, 0.6, 0.8 or 1.0: 1.0 exactly when
    name and query have the same lower-case form, and more than 0 exactly
    when the lower-case query occurs in the lower-case name.  A semantic
    search scores between 0 and 1.0, more than 0 exactly when the
    lower-case query occurs in the lower-case name, documentation or type
    text.  For a query in ASCII, where [toLowerCase] turns the letters A
    to Z into a to z and leaves the rest, the case of the query does not
    matter; and the empty query scores every symbol at least 0.8 in a
    text search. *)
Theorem calculateSearchScore_properties toLowerCase symbol query :
  let lowerName := toLowerCase (name symbol) in
  let lowerQuery := toLowerCase query in
  calculateSearchScore toLowerCase symbol query AstPatternSearch = 0
  /\ calculateSearchScore toLowerCase symbol query TextSearch ∈ [0; 6; 8; 10]
  /\ (calculateSearchScore toLowerCase symbol query TextSearch = 10
      <-> lowerName = lowerQuery)
  /\ (0 < calculateSearchScore toLowerCase symbol query TextSearch
      <-> stringIncludes lowerName lowerQuery = true)
  /\ 0 <= calculateSearchScore toLowerCase symbol query SemanticSearch <= 10
  /\ (0 < calculateSearchScore toLowerCase symbol query SemanticSearch
      <-> stringIncludes lowerName lowerQuery = true
          \/ (exists text,
                documentation symbol = Some text
                /\ stringIncludes (toLowerCase text) lowerQuery = true)
          \/ stringIncludes (toLowerCase (type symbol)) lowerQuery = true)
  /\ (lowersAscii toLowerCase ->
      (isAscii query ->
       forall searchType,
         calculateSearchScore toLowerCase symbol (lowerAscii query) searchType
         = calculateSearchScore toLowerCase symbol query searchType)
      /\ 8 <= calculateSearchScore toLowerCase symbol "" TextSearch).
Proof.
  intros lowerName lowerQuery. split; [reflexivity|].
  unfold calculateSearchScore. fold lowerName lowerQuery.
  split; [|split; [|split; [|split; [|split]]]].
  - repeat case_bool_decide;
      destruct (String.prefix lowerQuery lowerName),
        (stringIncludes lowerName lowerQuery);
      apply (bool_decide_unpack _); vm_compute; exact I.
  - case_bool_decide; [done|].
    destruct (String.prefix lowerQuery lowerName),
      (stringIncludes lowerName lowerQuery); split; (done || lia).
  - apply textScore_positive.
  - destruct (stringIncludes lowerName lowerQuery),
      (match documentation symbol with Some _ => _ | None => _ end),
      (stringIncludes (toLowerCase (type symbol)) lowerQuery); lia.
  - destruct (stringIncludes lowerName lowerQuery) eqn:Hname.
    { split; [by left|]. intros _.
      destruct (match documentation symbol with Some _ => _ | None => _ end),
        (stringIncludes (toLowerCase (type symbol)) lowerQuery); lia. }
    destruct (documentation symbol) as [text|].
    + destruct (stringIncludes (toLowerCase text) lowerQuery) eqn:Hdoc.
      { split; [right; left; by exists text|]. intros _.
        destruct (stringIncludes (toLowerCase (type symbol)) lowerQuery); lia. }
      destruct (stringIncludes (toLowerCase (type symbol)) lowerQuery);
        split; try lia; try (by right; right).
      intros [?|[(text' & [= <-] & ?)|?]]; congruence.
    + destruct (stringIncludes (toLowerCase (type symbol)) lowerQuery);
        split; try lia; try (by right; right).
      intros [?|[(text' & ? & ?)|?]]; congruence.
  - intros Hlower. split.
    + intros Hquery searchType. subst lowerQuery.
      rewrite (Hlower (lowerAscii query)) by by apply lowerAscii_ascii.
      by rewrite lowerAscii_idempotent, <- (Hlower query).
    + rewrite (Hlower "") by done. cbn [lowerAscii].
      rewrite prefix_empty. case_bool_decide; lia.
Qed.

Lemma calculateSearchScore_properties_witness :
  calculateSearchScore lowerAscii
    {| name := "FindUser"; kind := KFunction; type := "() => void";
       documentation := None; modifiers := None;
       location := nodeToLocation Fixtures.fnEmpty; relationships := None |}
    "finduser" TextSearch = 10
  /\ calculateSearchScore lowerAscii
       {| name := "FindUser"; kind := KFunction; type := "() => void";
          documentation := None; modifiers := None;
          location := nodeToLocation Fixtures.fnEmpty; relationships := None |}
       "" TextSearch >= 8.
Proof.
  destruct (calculateSearchScore_properties lowerAscii
              {| name := "FindUser"; kind := KFunction; type := "() => void";
                 documentation := None; modifiers := None;
                 location := nodeToLocation Fixtures.fnEmpty;
                 relationships := None |} "finduser")
    as (_ & _ & Hequal & _ & _ & _ & Hascii).
  split.
  - apply Hequal. reflexivity.
  - destruct Hascii as [_ Hempty]; [by intros s _|]. lia.
Defined.

(** *** The search as a whole *)

Lemma score_range toLowerCase symbol query searchType :
  0 <= calculateSearchScore toLowerCase symbol query searchType <= 10.
Proof.
  unfold calculateSearchScore. destruct searchType; [| |lia].
  - case_bool_decide; [lia|]. destruct (String.prefix _ _); [lia|].
    destruct (stringIncludes _ _); lia.
  - destruct (stringIncludes (toLowerCase (name symbol)) _),
      (match documentation symbol with Some _ => _ | None => _ end),
      (stringIncludes (toLowerCase (type symbol)) _); lia.
Qed.

Lemma matchSymbols_good ls toLowerCase params sourceFile symbols :
  Forall (fun s => String.prefix "_" (name s) = false) symbols ->
  forall matches,
    Forall (goodMatch toLowerCase params) matches ->
    Forall (goodMatch toLowerCase params)
      (matchSymbols ls toLowerCase params sourceFile symbols matches).1.
Proof.
  induction 1 as [|symbol symbols Hname Hnames IH]; intros matches Hgood;
    [done|].
  cbn [matchSymbols].
  destruct (match ssSymbolTypes params with Some _ => _ | None => _ end);
    [by apply IH|].
  destruct (Z.gtb_spec (calculateSearchScore toLowerCase symbol (ssQuery params)
                          (ssSearchType params)) 0) as [Hpos|]; [|by apply IH].
  destruct (positionToOffset ls sourceFile (position (location symbol)))
    as [tr [error|offset]]; [done|].
  apply IH. apply Forall_app. split; [done|]. constructor; [|constructor].
  pose proof (score_range toLowerCase symbol (ssQuery params)
                (ssSearchType params)).
  repeat split; cbn [score matchedSymbol]; try lia; try done.
  intros Hast. rewrite Hast in Hpos. cbn in Hpos. lia.
Qed.

Lemma searchFiles_good ls toLowerCase w params files :
  forall matches,
    Forall (goodMatch toLowerCase params) matches ->
    exists tr found,
      searchFiles ls toLowerCase w params files matches = (tr, inr found)
      /\ readsOf tr = files
      /\ Forall (goodMatch toLowerCase params) found.
Proof.
  induction files as [|file files IH]; intros matches Hgood.
  - by exists [], matches.
  - cbn [searchFiles]. unfold searchOneFile, addSourceFileAtPath.
    destruct (Tools.files w !! file) as [sourceFile|];
      cbn [bind ret emit throw fst snd app].
    + pose proof (matchSymbols_good ls toLowerCase params sourceFile _
                    (analyzeSourceFile_symbols_no_underscore sourceFile Symbols 1)
                    matches Hgood) as Hnext.
      destruct (matchSymbols ls toLowerCase params sourceFile _ matches)
        as [matches' [error|]]; cbn [fst] in Hnext;
        destruct (IH matches' Hnext) as (tr & found & Hrun & Hreads & Hfound);
        cbn [bind ret fst snd app]; rewrite Hrun; eexists _, found;
        (split; [reflexivity|]); (split; [|done]); cbn; f_equal; exact Hreads.
    + destruct (IH matches Hgood) as (tr & found & Hrun & Hreads & Hfound).
      rewrite Hrun. eexists _, found. split; [reflexivity|].
      split; [|done]. cbn. f_equal. exact Hreads.
Qed.

Lemma insertByScore_Permutation m l : insertByScore m l ≡ₚ m :: l.
Proof.
  induction l as [|x l IH]; [done|]. cbn [insertByScore].
  destruct (score x <? score m)%Z; [done|].
  rewrite IH. apply perm_swap.
Qed.

Lemma insertByScore_sorted m l :
  StronglySorted (fun a b => score b <= score a) l ->
  StronglySorted (fun a b => score b <= score a) (insertByScore m l).
Proof.
  induction 1 as [|x l Hsorted IH Hx]; cbn [insertByScore].
  - repeat constructor.
  - destruct (Z.ltb_spec (score x) (score m)) as [Hlt|Hge].
    + constructor; [by constructor|]. constructor; [lia|].
      eapply Forall_impl; [exact Hx|]. intros y Hy. cbn beta in *. lia.
    + constructor; [done|]. rewrite insertByScore_Permutation.
      by constructor.
Qed.

Lemma sortByScore_spec l :
  sortByScore l ≡ₚ l
  /\ StronglySorted (fun a b => score b <= score a) (sortByScore l).
Proof.
  unfold sortByScore.
  assert (forall acc,
            StronglySorted (fun a b => score b <= score a) acc ->
            fold_left (fun sorted m => insertByScore m sorted) l acc ≡ₚ l ++ acc
            /\ StronglySorted (fun a b => score b <= score a)
                 (fold_left (fun sorted m => insertByScore m sorted) l acc)) as H.
  { induction l as [|m l IH]; intros acc Hacc; [by split|].
    cbn [fold_left]. destruct (IH (insertByScore m acc)) as [Hperm Hsorted];
      [by apply insertByScore_sorted|].
    split; [|done]. rewrite Hperm, insertByScore_Permutation.
    by rewrite <- Permutation_middle. }
  destruct (H []) as [Hperm Hsorted]; [constructor|].
  by rewrite app_nil_r in Hperm.
Qed.

(** X21: [searchSymbols] never fails.  It reads the project files that
    match the scope, in order, without any scope check of its own.  The
    matches it returns are ordered by descending score; each has a score
    above 0 that is the score of its symbol, and a symbol whose name does
    not start with an underscore; there are at most [maxResults] of them
    (when that is not negative) and at most [totalMatches].  With the
    search type ast-pattern there is never any match. *)
Theorem searchSymbols_results ls lib toLowerCase w params :
  exists tr result,
    searchSymbols ls lib toLowerCase w params = (tr, inr result)
    /\ readsOf tr
       = List.filter
           (fun file =>
              matchesScope (extname lib) (globMatch lib) file (ssScope params))
           (projectFiles w)
    /\ StronglySorted (fun a b => score b <= score a) (matches result)
    /\ Forall (goodMatch toLowerCase params) (matches result)
    /\ Z.of_nat (length (matches result)) <= totalMatches result
    /\ (0 <= ssMaxResults params ->
        Z.of_nat (length (matches result)) <= ssMaxResults params)
    /\ (ssSearchType params = AstPatternSearch ->
        matches result = [] /\ totalMatches result = 0).
Proof.
  unfold searchSymbols.
  set (filtered := List.filter _ (projectFiles w)).
  destruct (searchFiles_good ls toLowerCase w params filtered [])
    as (tr & found & -> & Hreads & Hgood); [constructor|].
  destruct (sortByScore_spec found) as [Hperm Hsorted].
  cbn [bind ret]. rewrite app_nil_r.
  eexists _, _. split; [reflexivity|]. cbn [matches totalMatches].
  split; [done|].
  pose proof (slice0_prefix (ssMaxResults params) (sortByScore found))
    as [rest Hrest].
  pose proof (length_slice0 (ssMaxResults params) (sortByScore found)) as Hlen.
  rewrite (Permutation_length Hperm) in Hlen.
  split; [|split; [|split; [|split]]].
  - rewrite Hrest in Hsorted. by apply StronglySorted_app_1_l in Hsorted.
  - rewrite <- Hperm, Hrest in Hgood. by apply Forall_app in Hgood as [? _].
  - destruct (Z.leb_spec 0 (ssMaxResults params)); lia.
  - intros Hmax. destruct (Z.leb_spec 0 (ssMaxResults params)); lia.
  - intros Hast.
    assert (found = []) as Hnone.
    { destruct found as [|m found']; [done|].
      inversion Hgood as [|? ? (_ & _ & _ & Hm) _]. done. }
    rewrite Hnone in *. split; [|done].
    apply Permutation_nil_r in Hperm. rewrite Hperm.
    unfold slice0. destruct (_ <=? _)%Z; apply take_nil.
Qed.

End SearchProperties.

Module TextContextProperties.
Import Utils Analyzer Tools PathFacts.

Lemma sorted_lookup_lt (l : list Z) j k y x :
  StronglySorted Z.lt l -> l !! j = Some y -> l !! k = Some x -> (j < k)%nat ->
  y < x.
Proof.
  intros Hsorted. revert j k.
  induction Hsorted as [|a l Hsorted IH Ha]; intros j k Hj Hk Hlt; [done|].
  destruct k as [|k]; [lia|]. destruct j as [|j].
  - injection Hj as <-. rewrite Forall_forall in Ha. apply Ha.
    by eapply list_elem_of_lookup_2.
  - apply (IH j k); [done | done | lia].
Qed.

Lemma lineStarts_fold l starts m :
  last starts = Some m ->
  Forall (fun y => y <= m) starts ->
  StronglySorted Z.lt starts ->
  let result :=
    fold_left
      (fun starts line =>
         starts ++ [default 0 (last starts) + Z.of_nat (String.length line) + 1])
      l starts in
  (exists m', last result = Some m' /\ Forall (fun y => y <= m') result)
  /\ StronglySorted Z.lt result
  /\ length result = (length starts + length l)%nat.
Proof.
  revert starts m. induction l as [|line l IH]; intros starts m Hlast Hle Hsorted.
  - cbn. split; [eauto|]. split; [done | lia].
  - cbn [fold_left]. rewrite Hlast. cbn [default from_option id].
    set (next := m + Z.of_nat (String.length line) + 1).
    destruct (IH (starts ++ [next]) next) as (Hm & Hs & Hlen).
    + apply last_snoc.
    + apply Forall_app. split; [|by repeat constructor].
      eapply Forall_impl; [exact Hle|]. intros y Hy. cbn beta in *. lia.
    + apply StronglySorted_app_2; [|done|by repeat constructor].
      intros y x Hy ->%list_elem_of_singleton.
      rewrite Forall_forall in Hle. specialize (Hle y Hy). lia.
    + split; [done|]. split; [done|].
      cbn zeta in Hlen. rewrite Hlen, length_app. cbn [length]. lia.
Qed.

Lemma lineStarts_spec lines_ :
  (exists m, last (lineStarts lines_) = Some m
             /\ Forall (fun y => y <= m) (lineStarts lines_))
  /\ StronglySorted Z.lt (lineStarts lines_)
  /\ length (lineStarts lines_) = S (length lines_ - 1).
Proof.
  destruct (lineStarts_fold (removelast lines_) [0] 0) as (Hm & Hs & Hlen);
    [done | by repeat constructor | by repeat constructor |].
  split; [done|]. split; [done|].
  cbn zeta in Hlen. unfold lineStarts. rewrite Hlen. cbn [length].
  destruct lines_ as [|x l _] using rev_ind; [done|].
  rewrite removelast_last, length_app. cbn [length]. lia.
Qed.

Lemma lineIndexOf_last lines_ lastStart position :
  last (lineStarts lines_) = Some lastStart -> lastStart <= position ->
  lineIndexOf position (lineStarts lines_) = 0.
Proof.
  intros Hlast Hposition. unfold lineIndexOf.
  destruct (lineStarts_spec lines_) as ((m & Hm & Hle) & _ & _).
  rewrite Hlast in Hm. injection Hm as <-.
  assert (list_find (fun start => position < start) (lineStarts lines_) = None)
    as ->; [|done].
  apply list_find_None. eapply Forall_impl; [exact Hle|].
  intros y Hy. cbn beta in *. lia.
Qed.

Lemma lineIndexOf_inner lines_ i start next position :
  lineStarts lines_ !! i = Some start ->
  lineStarts lines_ !! S i = Some next ->
  start <= position < next ->
  lineIndexOf position (lineStarts lines_) = Z.of_nat i.
Proof.
  intros Hstart Hnext Hposition. unfold lineIndexOf.
  destruct (lineStarts_spec lines_) as (_ & Hsorted & _).
  assert (list_find (fun start => position < start) (lineStarts lines_)
          = Some (S i, next)) as ->; [|lia].
  apply list_find_Some. split; [done|]. split; [lia|].
  intros j y Hj Hlt.
  destruct (decide (j = i)) as [->|Hne].
  - rewrite Hstart in Hj. injection Hj as <-. lia.
  - pose proof (sorted_lookup_lt _ j i y start Hsorted Hj Hstart). lia.
Qed.

Lemma splitOn_length sep s : (1 <= length (splitOn sep s))%nat.
Proof.
  pose proof (splitOn_nonempty sep s). destruct (splitOn sep s); [done|].
  cbn [length]. lia.
Qed.

Lemma slice_inside {A} (s e : Z) (l : list A) :
  0 <= s -> 0 <= e <= Z.of_nat (length l) ->
  slice s e l = take (Z.to_nat e - Z.to_nat s) (drop (Z.to_nat s) l).
Proof.
  intros Hs He. unfold slice.
  destruct (Z.ltb_spec s 0); [lia|]. destruct (Z.ltb_spec e 0); [lia|].
  destruct (decide (s <= Z.of_nat (length l))).
  - rewrite (Z.min_l s), (Z.min_l e) by lia. f_equal. lia.
  - rewrite (Z.min_r s), (Z.min_l e) by lia.
    replace (Z.to_nat (e - Z.of_nat (length l))) with 0%nat by lia.
    replace (Z.to_nat e - Z.to_nat s)%nat with 0%nat by lia. done.
Qed.

(** X22: the context [getTextContext] gives for a text match, with the
    default of 3 lines.  It never has more than 3 lines of the text.  For
    a position on a line that is not the last, it is that line with the
    line before and the line after.  But for a position on the last line
    of the text it is the first two lines of the text, wherever the match
    is: the search for the line leaves the line index at 0 when no line
    starts beyond the position. *)
Theorem getTextContext_lines text position :
  let lines_ := splitOn "010" text in
  (exists first count,
      (count <= 3)%nat
      /\ getTextContext text position 3
         = joinWith newline (take count (drop first lines_)))
  /\ (forall lastStart,
        last (lineStarts lines_) = Some lastStart -> lastStart <= position ->
        getTextContext text position 3 = joinWith newline (take 2 lines_))
  /\ (forall i start next,
        lineStarts lines_ !! i = Some start ->
        lineStarts lines_ !! S i = Some next ->
        start <= position < next ->
        getTextContext text position 3
        = joinWith newline
            (take (if decide (i = 0%nat) then 2 else 3) (drop (i - 1) lines_))).
Proof.
  intros lines_. unfold getTextContext. fold lines_.
  pose proof (splitOn_length "010" text) as Hlen. fold lines_ in Hlen.
  change (3 / 2) with 1. change ((3 + 1) / 2) with 2.
  split; [|split].
  - assert (-1 <= lineIndexOf position (lineStarts lines_)) as Hindex.
    { unfold lineIndexOf. destruct (list_find _ _) as [[i ?]|]; lia. }
    unfold slice.
    destruct (Z.ltb_spec (Z.max 0 (lineIndexOf position (lineStarts lines_) - 1)) 0);
      [lia|].
    destruct (Z.ltb_spec (Z.min (Z.of_nat (length lines_))
                            (lineIndexOf position (lineStarts lines_) + 2)) 0);
      [lia|].
    eexists _, _. split; [|reflexivity]. lia.
  - intros lastStart Hlast Hposition.
    rewrite (lineIndexOf_last _ lastStart) by done. f_equal.
    rewrite slice_inside by lia.
    destruct (decide (2 <= length lines_)%nat).
    + replace (Z.to_nat (Z.min (Z.of_nat (length lines_)) (0 + 2))
                - Z.to_nat (Z.max 0 (0 - 1)))%nat with 2%nat by lia.
      done.
    + replace (Z.to_nat (Z.min (Z.of_nat (length lines_)) (0 + 2))
                - Z.to_nat (Z.max 0 (0 - 1)))%nat with (length lines_) by lia.
      cbn [Z.to_nat Z.max Z.sub Z.add Z.opp Z.compare drop].
      rewrite take_ge by done. by rewrite take_ge by lia.
  - intros i start next Hstart Hnext Hposition.
    rewrite (lineIndexOf_inner _ i start next) by done.
    destruct (lineStarts_spec lines_) as (_ & _ & Hstarts).
    apply lookup_lt_Some in Hnext. rewrite Hstarts in Hnext.
    f_equal. rewrite slice_inside by lia.
    replace (Z.to_nat (Z.max 0 (Z.of_nat i - 1))) with (i - 1)%nat by lia.
    f_equal. destruct (decide (i = 0%nat)); lia.
Qed.

Lemma getTextContext_lines_witness :
  getTextContext Fixtures.fourLines 14 3 = "one" +:+ newline +:+ "two".
Proof.
  destruct (getTextContext_lines Fixtures.fourLines 14) as (_ & Hlast & _).
  apply (Hlast 14); [reflexivity | lia].
Defined.

End TextContextProperties.

Module DependencyProperties.
Import Utils Analyzer Tools Fixtures ToolsFacts ToolProperties.

Section Graph.
Variable params : AnalyzeDependenciesParams.

Abbreviation wellFormed graph :=
  (Forall (fun n => nodeType n = FileNode) (graphNodes graph)
   /\ Forall (fun e => edgeType e = ImportEdge
                       /\ edgeFrom e ∈ map nodeId (graphNodes graph))
        (graphEdges graph)
   /\ (adDirection params = ExportsOnly -> graphEdges graph = [])
   /\ (adIncludeNodeModules params = false ->
       Forall (fun e => stringIncludes (edgeTo e) "node_modules" = false)
         (graphEdges graph))
   /\ Z.of_nat (length (graphEdges graph))
      <= foldr Z.add 0 (map importCount (graphNodes graph))).

Lemma foldr_add_app (l l' : list Z) :
  foldr Z.add 0 (l ++ l') = foldr Z.add 0 l + foldr Z.add 0 l'.
Proof. induction l as [|x l IH]; cbn; [done | rewrite IH; lia]. Qed.

Lemma importEdges_spec (filePath : string) (imps : list ImportInfo) :
  forall edges,
    exists added,
      fold_left
        (fun edges imp =>
           if negb (adIncludeNodeModules params)
              && stringIncludes (moduleSpecifier imp) "node_modules"
           then edges
           else
             edges ++
               [{| edgeFrom := filePath;
                   edgeTo := moduleSpecifier imp;
                   edgeType := ImportEdge;
                   edgeSymbols := importedSymbols imp |}])
        imps edges = edges ++ added
      /\ (length added <= length imps)%nat
      /\ Forall (fun e => edgeType e = ImportEdge /\ edgeFrom e = filePath) added
      /\ (adIncludeNodeModules params = false ->
          Forall (fun e => stringIncludes (edgeTo e) "node_modules" = false) added).
Proof.
  induction imps as [|imp imps IH]; intros edges.
  - exists []. rewrite app_nil_r. repeat split; try done; constructor.
  - cbn [fold_left].
    destruct (negb (adIncludeNodeModules params)
              && stringIncludes (moduleSpecifier imp) "node_modules") eqn:Hskip.
    + destruct (IH edges) as (added & -> & Hlen & Hall & Hnm).
      exists added. repeat split; try done. cbn. lia.
    + match goal with
      | |- context [fold_left _ imps (edges ++ [?e])] =>
          destruct (IH (edges ++ [e])) as (added & -> & Hlen & Hall & Hnm);
          exists (e :: added)
      end.
      rewrite <- app_assoc. repeat split; try done.
      * cbn. lia.
      * constructor; [done | exact Hall].
      * intros Hfalse. constructor; [|exact (Hnm Hfalse)].
        cbn. rewrite Hfalse in Hskip. cbn in Hskip. exact Hskip.
Qed.

Lemma analyzeFileDependencies_wellFormed sourceFile graph :
  wellFormed graph ->
  wellFormed (analyzeFileDependencies sourceFile graph params)
  /\ length (graphNodes (analyzeFileDependencies sourceFile graph params))
     = S (length (graphNodes graph)).
Proof.
  intros (Hnodes & Hedges & Hexports & Hmodules & Hcount).
  unfold analyzeFileDependencies.
  set (filePath := getFilePath (root sourceFile)).
  set (analysis := analyzeSourceFile sourceFile All 1 false).
  cbn [graphNodes graphEdges].
  assert (Hold : Forall
            (fun e => edgeType e = ImportEdge
                      /\ edgeFrom e ∈ map nodeId
                           (graphNodes graph ++
                              [{| nodeId := filePath; nodeType := FileNode;
                                  importCount := Z.of_nat (length (imports analysis));
                                  exportCount := Z.of_nat (length (exports analysis));
                                  nodeComplexity := complexity analysis |}]))
            (graphEdges graph)).
  { eapply Forall_impl; [exact Hedges|].
    intros e (? & Hin). split; [done|].
    rewrite map_app. apply elem_of_app. by left. }
  split; [|rewrite length_app; cbn; lia].
  split; [|split; [|split; [|split]]].
  - apply Forall_app. split; [done | by repeat constructor].
  - destruct (bool_decide (adDirection params = ImportsOnly)
              || bool_decide (adDirection params = ImportsAndExports)); [|done].
    destruct (importEdges_spec filePath (imports analysis) (graphEdges graph))
      as (added & -> & _ & Hall & _).
    apply Forall_app. split; [done|].
    eapply Forall_impl; [exact Hall|].
    intros e (? & ->). split; [done|].
    rewrite map_app. apply elem_of_app. right. cbn. by left.
  - intros Hdir. rewrite Hdir. cbn. by apply Hexports.
  - intros Hfalse.
    destruct (bool_decide (adDirection params = ImportsOnly)
              || bool_decide (adDirection params = ImportsAndExports));
      [|by apply Hmodules].
    destruct (importEdges_spec filePath (imports analysis) (graphEdges graph))
      as (added & -> & _ & _ & Hnm).
    apply Forall_app. split; [by apply Hmodules | by apply Hnm].
  - rewrite map_app, foldr_add_app. cbn [map foldr importCount].
    destruct (bool_decide (adDirection params = ImportsOnly)
              || bool_decide (adDirection params = ImportsAndExports)); [|lia].
    destruct (importEdges_spec filePath (imports analysis) (graphEdges graph))
      as (added & -> & Hlen & _ & _).
    rewrite length_app. lia.
Qed.

Lemma dependenciesOfFiles_wellFormed (w : World) (paths : list string) :
  forall graph,
    wellFormed graph ->
    exists tr graph',
      dependenciesOfFiles w params paths graph = (tr, inr graph')
      /\ wellFormed graph'
      /\ readsOf tr = paths
      /\ length (graphNodes graph')
         = (length (graphNodes graph)
            + length (List.filter
                        (fun file => bool_decide (is_Some (files w !! file)))
                        paths))%nat.
Proof.
  induction paths as [|file rest IH]; intros graph Hgraph.
  - exists [], graph. cbn. repeat split; try tauto. lia.
  - cbn [dependenciesOfFiles].
    unfold dependenciesOfOneFile, addSourceFileAtPath.
    cbn [List.filter].
    destruct (files w !! file) as [sourceFile|] eqn:Hfile.
    + rewrite bool_decide_eq_true_2 by (by eexists).
      destruct (analyzeFileDependencies_wellFormed sourceFile graph Hgraph)
        as (Hnext & Hlen).
      destruct (IH _ Hnext) as (tr & graph' & Hrest & Hgood & Hreads & Hnodes).
      exists (ReadFile file :: tr), graph'.
      cbn. rewrite Hrest. cbn.
      split; [done|]. split; [exact Hgood|]. split.
      * f_equal. exact Hreads.
      * rewrite Hnodes, Hlen. lia.
    + rewrite bool_decide_eq_false_2 by (intros [? ?]; done).
      destruct (IH _ Hgraph) as (tr & graph' & Hrest & Hgood & Hreads & Hnodes).
      eexists (ReadFile file :: _ :: tr), graph'.
      cbn. rewrite Hrest. cbn.
      split; [reflexivity|]. split; [exact Hgood|]. split.
      * f_equal. exact Hreads.
      * exact Hnodes.
Qed.

Lemma empty_wellFormed : wellFormed {| graphNodes := []; graphEdges := [] |}.
Proof. cbn. repeat split; try done; constructor. Qed.

End Graph.

(** X23: the graph of [analyzeDependencies].  Whenever the call returns a
    graph, every node is a file node, every edge is an import edge that
    starts at one of the nodes, there are no more edges than the nodes
    count imports, the direction [exports] gives no edge at all, and
    without [includeNodeModules] no edge leads to a specifier that
    contains the text node_modules.  Without a file path the call never
    fails: it reads the first 50 project files in order and the graph has
    one node for each of them that loads. *)
Theorem analyzeDependencies_graph w params :
  (forall tr graph,
      analyzeDependencies w params = (tr, inr graph) ->
      Forall (fun n => nodeType n = FileNode) (graphNodes graph)
      /\ Forall (fun e => edgeType e = ImportEdge
                          /\ edgeFrom e ∈ map nodeId (graphNodes graph))
           (graphEdges graph)
      /\ (adDirection params = ExportsOnly -> graphEdges graph = [])
      /\ (adIncludeNodeModules params = false ->
          Forall (fun e => stringIncludes (edgeTo e) "node_modules" = false)
            (graphEdges graph))
      /\ Z.of_nat (length (graphEdges graph))
         <= foldr Z.add 0 (map importCount (graphNodes graph)))
  /\ (adFilePath params = None \/ adFilePath params = Some "" ->
      exists tr graph,
        analyzeDependencies w params = (tr, inr graph)
        /\ readsOf tr = take 50 (projectFiles w)
        /\ length (graphNodes graph)
           = length (List.filter
                       (fun file => bool_decide (is_Some (files w !! file)))
                       (take 50 (projectFiles w)))).
Proof.
  destruct (dependenciesOfFiles_wellFormed params w (take 50 (projectFiles w))
              _ (empty_wellFormed params))
    as (tr0 & graph0 & Hrun & Hgood & Hreads & Hnodes).
  cbn [graphNodes length Nat.add] in Hnodes.
  split.
  - intros tr graph. unfold analyzeDependencies.
    destruct (adFilePath params) as [filePath|].
    + case_bool_decide as Hempty.
      * rewrite Hrun. intros [= <- <-]. exact Hgood.
      * unfold validatePathM.
        destruct (validatePath (cwd w) filePath) as [e|[]]; [done|].
        unfold addSourceFileAtPath.
        destruct (files w !! filePath) as [sourceFile|]; [|done].
        cbn. intros [= <- <-].
        apply analyzeFileDependencies_wellFormed, empty_wellFormed.
    + rewrite Hrun. intros [= <- <-]. exact Hgood.
  - intros Hpath. exists tr0, graph0. unfold analyzeDependencies.
    destruct Hpath as [-> | ->]; [|rewrite bool_decide_eq_true_2 by done];
      by rewrite Hrun.
Qed.

Lemma analyzeDependencies_graph_witness :
  exists tr graph,
    analyzeDependencies importsWorld (dependenciesOf "src/sample.ts" ImportsOnly)
    = (tr, inr graph)
    /\ map edgeTo (graphEdges graph) = ["lodash"]
    /\ Forall (fun e => stringIncludes (edgeTo e) "node_modules" = false)
         (graphEdges graph).
Proof.
  eexists _, _. split; [vm_compute; reflexivity|]. split; [reflexivity|].
  destruct (analyzeDependencies_graph importsWorld
              (dependenciesOf "src/sample.ts" ImportsOnly)) as (Hgraph & _).
  edestruct Hgraph as (_ & _ & _ & Hmodules & _);
    [vm_compute; reflexivity|].
  exact (Hmodules eq_refl).
Defined.

End DependencyProperties.
(** ** The context extractors of extract_context *)

Module EnclosingProperties.
Import Utils Analyzer Tools Context.

Lemma list_find_step {A} (P : A -> Prop) `{forall x, Decision (P x)}
    (x : A) (l : list A) :
  list_find P (x :: l)
  = if decide (P x) then Some (0%nat, x)
    else prod_map S id <$> list_find P l.
Proof. reflexivity. Qed.

Lemma findEnclosing_found (isTarget : Node -> bool) (frames : list Frame) :
  forall n i f fuel,
    list_find (fun a => isTarget a = true) (n :: ancestorsFrom n frames)
    = Some (i, f) ->
    (i < fuel)%nat ->
    exists r,
      findEnclosing isTarget fuel {| focus := n; above := frames |} = Some r
      /\ focus r = f.
Proof.
  induction frames as [|fr rest IH]; intros n i f fuel Hfind Hfuel.
  - cbn in Hfind. destruct (decide (isTarget n = true)) as [Hn|Hn]; [|done].
    injection Hfind as <- <-.
    destruct fuel as [|fuel]; [lia|].
    cbn. rewrite Hn. by eexists.
  - cbn [ancestorsFrom] in Hfind. rewrite list_find_step in Hfind.
    destruct (decide (isTarget n = true)) as [Hn|Hn].
    + injection Hfind as <- <-.
      destruct fuel as [|fuel]; [lia|].
      cbn. rewrite Hn. by eexists.
    + destruct (list_find _ (plug n fr :: _)) as [[i' f']|] eqn:Hrest; [|done].
      cbn in Hfind. injection Hfind as <- <-.
      destruct fuel as [|fuel]; [lia|].
      cbn [findEnclosing focus].
      destruct (isTarget n); [done|].
      cbn [getParentRef above focus default].
      apply (IH _ i'); [exact Hrest | lia].
Qed.

Lemma findEnclosing_never (isTarget : Node -> bool) (fuel : nat) :
  forall node,
    list_find (fun a => isTarget a = true) (focus node :: getAncestors node)
    = None ->
    findEnclosing isTarget fuel node = None.
Proof.
  induction fuel as [|fuel IH]; intros [n frames] Hfind; [done|].
  pose proof Hfind as Hstep.
  unfold getAncestors in Hstep. cbn [focus above] in Hstep.
  rewrite list_find_step in Hstep.
  cbn [findEnclosing focus].
  destruct (decide (isTarget n = true)) as [Hn|Hn]; [done|].
  apply not_true_is_false in Hn. rewrite Hn.
  destruct frames as [|fr rest].
  - cbn [getParentRef above default]. by apply IH.
  - cbn [getParentRef above focus default]. apply IH.
    unfold getAncestors. cbn [focus above id].
    cbn [ancestorsFrom] in Hstep.
    by apply fmap_None in Hstep.
Qed.

(** X24: [extractFunctionContext] looks for the innermost function
    declaration, method or arrow function among the node and its
    ancestors.  If there is one, the call returns, and without the types
    and without documentation comments the context is the text of that
    function.  If there is none, the loop stays at the source file: the
    call does not return, whatever the number of steps. *)
Theorem extractFunctionContext_enclosing d node includeTypes :
  (forall i f,
      list_find (fun a => isFunctionLike a = true)
        (focus node :: getAncestors node) = Some (i, f) ->
      exists text,
        (forall fuel, (i < fuel)%nat ->
           extractFunctionContext d fuel node includeTypes = Some text)
        /\ (includeTypes = false -> getJsDocs d f = [] ->
            text = getText (getInfo f)))
  /\ (list_find (fun a => isFunctionLike a = true)
        (focus node :: getAncestors node) = None ->
      forall fuel, extractFunctionContext d fuel node includeTypes = None).
Proof.
  split.
  - intros i f Hfind.
    assert (Hf : isFunctionLike f = true).
    { by apply list_find_Some in Hfind as (_ & ? & _). }
    destruct node as [n frames]. unfold getAncestors in Hfind.
    cbn [focus above] in Hfind.
    destruct (findEnclosing_found isFunctionLike frames n i f (S i) Hfind)
      as (r0 & Hr0 & Hfocus0); [lia|].
    exists (default "" (extractFunctionContext d (S i)
                          {| focus := n; above := frames |} includeTypes)).
    assert (Hsame : forall fuel, (i < fuel)%nat ->
               extractFunctionContext d fuel {| focus := n; above := frames |}
                 includeTypes
               = extractFunctionContext d (S i) {| focus := n; above := frames |}
                   includeTypes).
    { intros fuel Hfuel.
      destruct (findEnclosing_found isFunctionLike frames n i f fuel Hfind Hfuel)
        as (r & Hr & Hfocus).
      unfold extractFunctionContext. rewrite Hr, Hr0, Hfocus, Hfocus0. done. }
    assert (Hsome : is_Some (extractFunctionContext d (S i)
                               {| focus := n; above := frames |} includeTypes)).
    { unfold extractFunctionContext. rewrite Hr0, Hfocus0, Hf.
      destruct includeTypes; by eexists. }
    split.
    + intros fuel Hfuel. rewrite (Hsame fuel Hfuel).
      destruct Hsome as [text ->]. done.
    + intros -> Hdocs. unfold extractFunctionContext.
      rewrite Hr0, Hfocus0, Hf, Hdocs. reflexivity.
  - intros Hfind fuel. unfold extractFunctionContext.
    by rewrite (findEnclosing_never isFunctionLike fuel node Hfind).
Qed.

Lemma extractFunctionContext_enclosing_witness :
  extractFunctionContext Fixtures.silentDeclarations 1000 Fixtures.endOfFileRef true
  = None.
Proof.
  apply (extractFunctionContext_enclosing Fixtures.silentDeclarations
           Fixtures.endOfFileRef true).
  reflexivity.
Defined.

(** X25: [extractClassContext] looks for the innermost class declaration
    among the node and its ancestors.  If there is one the call returns a
    context; if there is none the loop stays at the source file and the
    call does not return, whatever the number of steps. *)
Theorem extractClassContext_enclosing d node includeTypes :
  (forall i c,
      list_find (fun a => isClass a = true)
        (focus node :: getAncestors node) = Some (i, c) ->
      exists text,
        forall fuel, (i < fuel)%nat ->
          extractClassContext d fuel node includeTypes = Some text)
  /\ (list_find (fun a => isClass a = true)
        (focus node :: getAncestors node) = None ->
      forall fuel, extractClassContext d fuel node includeTypes = None).
Proof.
  split.
  - intros i c Hfind.
    assert (Hc : isClass c = true).
    { by apply list_find_Some in Hfind as (_ & ? & _). }
    destruct node as [n frames]. unfold getAncestors in Hfind.
    cbn [focus above] in Hfind.
    destruct (findEnclosing_found isClass frames n i c (S i) Hfind)
      as (r0 & Hr0 & Hfocus0); [lia|].
    exists (default "" (extractClassContext d (S i)
                          {| focus := n; above := frames |} includeTypes)).
    intros fuel Hfuel.
    destruct (findEnclosing_found isClass frames n i c fuel Hfind Hfuel)
      as (r & Hr & Hfocus).
    unfold extractClassContext. rewrite Hr, Hr0, Hfocus, Hfocus0, Hc.
    destruct includeTypes; [|done].
    by destruct (0 <? Z.of_nat (length (extractMembers d c)))%Z.
  - intros Hfind fuel. unfold extractClassContext.
    by rewrite (findEnclosing_never isClass fuel node Hfind).
Qed.

Lemma extractClassContext_enclosing_witness :
  extractClassContext Fixtures.silentDeclarations 1000 Fixtures.endOfFileRef false
  = None.
Proof.
  apply (extractClassContext_enclosing Fixtures.silentDeclarations
           Fixtures.endOfFileRef false).
  reflexivity.
Defined.

End EnclosingProperties.
(** ** The layers of summarize_codebase *)

Module LayerProperties.
Import Utils Analyzer Tools.

Lemma omap_step {A B} (f : A -> option B) (x : A) (l : list A) :
  omap f (x :: l)
  = match f x with Some y => y :: omap f l | None => omap f l end.
Proof. reflexivity. Qed.

Lemma layers_fold lib files (patterns : list (string * list string)) :
  forall layers,
    fold_left
      (fun layers layer =>
         let moduleFiles := layerFiles (snd layer) files in
         if (0 <? Z.of_nat (length moduleFiles))%Z then
           layers ++
             [{| layerName := fst layer;
                 modules :=
                   map (fun f => basename lib f (extname lib f))
                     (take 10 moduleFiles);
                 dependsOn := [] |}]
         else layers)
      patterns layers
    = layers ++
        omap
          (fun layer =>
             if bool_decide (layerFiles (snd layer) files = []) then None
             else
               Some {| layerName := fst layer;
                       modules :=
                         map (fun f => basename lib f (extname lib f))
                           (take 10 (layerFiles (snd layer) files));
                       dependsOn := [] |})
          patterns.
Proof.
  induction patterns as [|layer patterns IH]; intros layers; cbn [fold_left].
  - cbn. by rewrite app_nil_r.
  - rewrite IH, omap_step. cbn zeta.
    destruct (layerFiles (snd layer) files) as [|file rest] eqn:Hfiles.
    + rewrite bool_decide_eq_true_2 by done. reflexivity.
    + rewrite bool_decide_eq_false_2 by done.
      assert ((0 <? Z.of_nat (length (file :: rest)))%Z = true) as ->
        by (apply Z.ltb_lt; cbn [length]; lia).
      by rewrite <- app_assoc.
Qed.

Lemma layerFiles_nonempty patterns files :
  layerFiles patterns files <> []
  <-> exists file pattern,
        file ∈ files /\ pattern ∈ patterns
        /\ stringIncludes file pattern = true.
Proof.
  unfold layerFiles. split.
  - intros Hne.
    destruct (List.filter _ files) as [|file rest] eqn:Hfiles; [done|].
    assert (Hin : In file (List.filter
                             (fun file =>
                                existsb (fun pattern => stringIncludes file pattern)
                                  patterns) files))
      by (rewrite Hfiles; by left).
    apply filter_In in Hin as (Hin & Hsome).
    apply existsb_exists in Hsome as (pattern & Hpattern & Hincl).
    exists file, pattern.
    repeat split; [by apply list_elem_of_In | by apply list_elem_of_In | done].
  - intros (file & pattern & Hfile & Hpattern & Hincl) Hnil.
    assert (Hin : In file (List.filter
                             (fun file =>
                                existsb (fun pattern => stringIncludes file pattern)
                                  patterns) files)).
    { apply filter_In. split; [by apply list_elem_of_In|].
      apply existsb_exists. exists pattern.
      split; [by apply list_elem_of_In | done]. }
    rewrite Hnil in Hin. destruct Hin.
Qed.

Lemma unique_entry {A B} (l : list (A * B)) :
  NoDup (map fst l) ->
  forall k v v', (k, v) ∈ l -> (k, v') ∈ l -> v = v'.
Proof.
  induction l as [|[k0 v0] l IH]; intros Hnodup k v v' Hv Hv'.
  - by apply elem_of_nil in Hv.
  - cbn [map fst] in Hnodup. apply NoDup_cons in Hnodup as (Hfresh & Hnodup).
    apply elem_of_cons in Hv as [Hv|Hv]; apply elem_of_cons in Hv' as [Hv'|Hv'].
    + congruence.
    + injection Hv as -> ->. destruct Hfresh.
      apply list_elem_of_fmap. by exists (k0, v').
    + injection Hv' as -> ->. destruct Hfresh.
      apply list_elem_of_fmap. by exists (k0, v).
    + by apply (IH Hnodup k).
Qed.

Lemma layerPatterns_names : NoDup (map fst layerPatterns).
Proof. apply (bool_decide_unpack _). vm_compute. exact I. Qed.

(** X26: the layers of [detectArchitecturalLayers].  The layers come in
    the fixed order presentation, application, business, data,
    infrastructure; a layer is listed exactly when some file path
    contains one of its patterns; it has between one and ten modules,
    the names of the first ten of its files, and it never depends on
    another layer. *)
Theorem detectArchitecturalLayers_layers lib files :
  map layerName (detectArchitecturalLayers lib files)
    `sublist_of`
    ["presentation"; "application"; "business"; "data"; "infrastructure"]
  /\ (forall name patterns,
        (name, patterns) ∈ layerPatterns ->
        name ∈ map layerName (detectArchitecturalLayers lib files)
        <-> exists file pattern,
              file ∈ files /\ pattern ∈ patterns
              /\ stringIncludes file pattern = true)
  /\ Forall
       (fun layer =>
          exists patterns,
            (layerName layer, patterns) ∈ layerPatterns
            /\ modules layer
               = map (fun f => basename lib f (extname lib f))
                   (take 10 (layerFiles patterns files))
            /\ (1 <= length (modules layer) <= 10)%nat
            /\ dependsOn layer = [])
       (detectArchitecturalLayers lib files).
Proof.
  unfold detectArchitecturalLayers. rewrite layers_fold. cbn [app].
  split; [|split].
  - change ["presentation"; "application"; "business"; "data"; "infrastructure"]
      with (map fst layerPatterns).
    generalize layerPatterns as l.
    induction l as [|layer l IH]; [done|].
    rewrite omap_step. cbn [map].
    case_bool_decide; cbn [map layerName].
    + by apply sublist_cons.
    + by apply sublist_skip.
  - intros name patterns Hin.
    rewrite <- layerFiles_nonempty. split.
    + intros Hname. apply list_elem_of_fmap in Hname as (layer & -> & Hlayer).
      apply list_elem_of_omap in Hlayer as (entry & Hentry & Hsome).
      case_bool_decide as Hnil; [done|].
      injection Hsome as <-. cbn [layerName] in Hin.
      assert (snd entry = patterns) as <-; [|done].
      apply (unique_entry layerPatterns layerPatterns_names (fst entry));
        [by destruct entry | done].
    + intros Hne. apply list_elem_of_fmap.
      eexists {| layerName := name |}. split; [reflexivity|].
      apply list_elem_of_omap. exists (name, patterns).
      split; [done|]. cbn [fst snd].
      by rewrite bool_decide_eq_false_2 by done.
  - apply Forall_forall. intros layer Hlayer.
    apply list_elem_of_omap in Hlayer as (entry & Hentry & Hsome).
    case_bool_decide as Hnil; [done|].
    injection Hsome as <-. cbn [layerName modules dependsOn].
    exists (snd entry). split; [by destruct entry|].
    split; [done|]. split; [|done].
    rewrite length_map, length_take.
    destruct (layerFiles (snd entry) files); [done|]. cbn [length]. lia.
Qed.

End LayerProperties.
(** ** More on cache.ts *)

Module MemoizeProperties.
Import Analyzer Cache CacheFacts.

(** X27: one call of a memoized function.  It looks the key up once, so
    hits and misses together grow by one.  Without an entry it counts a
    miss, calls the function and stores what JSON keeps of the result.
    An entry older than the time-to-live counts as a hit and as an
    eviction, and the function is called and its result stored; so is it
    for an entry whose data is absent, without the eviction.  Only a
    fresh entry with data is answered from the store, which then stays
    as it is. *)
Theorem memoize_call fn keyGenerator args tGet tSet m :
  let key := memoKey keyGenerator args in
  let before := analysisCache m in
  let result := (memoize fn keyGenerator args tGet tSet m).1 in
  let after := analysisCache (memoize fn keyGenerator args tGet tSet m).2 in
  let recomputed :=
    result = fn args
    /\ storage after = <[key := storedEntry (fn args) tSet]> (storage before) in
  hits (stats after) + misses (stats after)
  = hits (stats before) + misses (stats before) + 1
  /\ ttl (memoize fn keyGenerator args tGet tSet m).2 = ttl m
  /\ match storage before !! key with
     | None =>
         misses (stats after) = misses (stats before) + 1
         /\ evictions (stats after) = evictions (stats before)
         /\ recomputed
     | Some cached =>
         hits (stats after) = hits (stats before) + 1
         /\ if (tGet - timestamp cached >? ttl m)%Z then
              evictions (stats after) = evictions (stats before) + 1
              /\ recomputed
            else
              evictions (stats after) = evictions (stats before)
              /\ match data cached with
                 | JUndefined => recomputed
                 | found => result = found /\ storage after = storage before
                 end
     end.
Proof.
  intros key before result after recomputed.
  subst result after recomputed before.
  unfold memoize. fold (memoKey keyGenerator args). fold key.
  unfold getCachedAnalysis, diskGet. cbn [init storage stats].
  destruct (storage (analysisCache m) !! key) as [cached|] eqn:Hstored.
  - destruct (tGet - timestamp cached >? ttl m)%Z eqn:Hold.
    + cbn. repeat split; try lia.
      unfold storedEntry. by rewrite insert_delete_eq.
    + destruct (data cached) eqn:Hdata; cbn; repeat split; lia.
  - cbn. repeat split; lia.
Qed.

(** X28: two calls of memoized functions that share a key, the second no
    later than the time-to-live after the first one stored its result.
    When the first call finds no entry and its function returns a value,
    the second call does not consult its function: it answers what JSON
    keeps of the first result, which can differ from that result.  When
    the first function returns [undefined], the second call computes
    again. *)
Theorem memoize_repeated fn fn' keyGenerator keyGenerator' args args'
    t1 t2 t3 t4 m :
  storage (analysisCache m) !! memoKey keyGenerator args = None ->
  memoKey keyGenerator' args' = memoKey keyGenerator args ->
  t3 - t2 <= ttl m ->
  let first := memoize fn keyGenerator args t1 t2 m in
  let second := memoize fn' keyGenerator' args' t3 t4 first.2 in
  first.1 = fn args
  /\ (fn args <> JUndefined ->
      second.1 = persisted (fn args)
      /\ storage (analysisCache second.2) = storage (analysisCache first.2))
  /\ (fn args = JUndefined -> second.1 = fn' args').
Proof.
  intros Habsent Hkey Hfresh first second.
  destruct (memoize_call fn keyGenerator args t1 t2 m) as (_ & Httl & Hfirst).
  rewrite Habsent in Hfirst. destruct Hfirst as (_ & _ & Hresult & Hstore).
  fold first in Httl, Hresult, Hstore.
  destruct (memoize_call fn' keyGenerator' args' t3 t4 first.2)
    as (_ & _ & Hsecond).
  fold second in Hsecond.
  rewrite Hkey, Hstore, lookup_insert_eq, Httl in Hsecond.
  cbn [storedEntry timestamp data] in Hsecond.
  destruct (Z.gtb_spec (t3 - t2) (ttl m)); [lia|].
  destruct Hsecond as (_ & _ & Hsecond).
  split; [exact Hresult|]. split.
  - intros Hdefined.
    destruct (persisted (fn args)) eqn:Hkept;
      [exfalso; apply Hdefined; by apply persisted_undefined | ..];
      rewrite Hstore; exact Hsecond.
  - intros Hundefined. rewrite Hundefined in Hsecond. cbn in Hsecond.
    apply Hsecond.
Qed.

Lemma memoize_repeated_witness :
  (memoize Fixtures.countOnce None [JNumber 1] 1000 1001 Fixtures.freshCache).1
  = Fixtures.resultWithGap
  /\ (memoize Fixtures.countTwice None [JString "1"] 2000 2001
        (memoize Fixtures.countOnce None [JNumber 1] 1000 1001
           Fixtures.freshCache).2).1
     = JObject [("count", JNumber 1)].
Proof.
  destruct (memoize_repeated Fixtures.countOnce Fixtures.countTwice None None
              [JNumber 1] [JString "1"] 1000 1001 2000 2001 Fixtures.freshCache)
    as (Hfirst & Hsecond & _).
  - apply lookup_empty.
  - unfold memoKey, generateCacheKey. f_equal.
  - change (ttl Fixtures.freshCache) with 3600000. lia.
  - split; [exact Hfirst|]. by apply Hsecond.
Defined.

End MemoizeProperties.

Module CacheKeyProperties.
Import Analyzer Cache StringFacts.

Lemma append_assoc a b c : (a +:+ b) +:+ c = a +:+ (b +:+ c).
Proof.
  induction a as [|x a IH]; [reflexivity|].
  rewrite !append_String. by rewrite IH.
Qed.

Lemma joinWith_merge sep before a b after :
  joinWith sep (before ++ a :: b :: after)
  = joinWith sep (before ++ (a +:+ sep +:+ b) :: after).
Proof.
  destruct before as [|x before]; [reflexivity|].
  cbn [app joinWith]. rewrite !fold_left_app. cbn [fold_left].
  f_equal. by rewrite !append_assoc.
Qed.

Lemma key_of_equal_parts before x y after :
  normalizePart x = normalizePart y ->
  generateCacheKey (before ++ x :: after) = generateCacheKey (before ++ y :: after).
Proof.
  intros Hxy. unfold generateCacheKey.
  by rewrite !map_app, !map_cons, Hxy.
Qed.

(** X29: parameter lists that [generateCacheKey] does not tell apart.  At
    any place of the list, [undefined], [null] and the text null give the
    same key; so do a safe integer (one of an absolute value below
    [2^53], which JavaScript prints as its decimal numeral) and its
    decimal text, and a truth value and its text; and two texts in a row
    give the key of the one text that joins them with a colon. *)
Theorem generateCacheKey_collisions before after :
  generateCacheKey (before ++ JUndefined :: after)
  = generateCacheKey (before ++ JNull :: after)
  /\ generateCacheKey (before ++ JNull :: after)
     = generateCacheKey (before ++ JString "null" :: after)
  /\ (forall n, isSafeInteger n ->
        generateCacheKey (before ++ JNumber n :: after)
        = generateCacheKey (before ++ JString (numberToString n) :: after))
  /\ (forall b,
        generateCacheKey (before ++ JBool b :: after)
        = generateCacheKey
            (before ++ JString (if b then "true" else "false") :: after))
  /\ (forall a b,
        generateCacheKey (before ++ JString a :: JString b :: after)
        = generateCacheKey (before ++ JString (a +:+ ":" +:+ b) :: after)).
Proof.
  repeat split; intros; try by apply key_of_equal_parts.
  unfold generateCacheKey. rewrite !map_app, !map_cons.
  cbn [normalizePart]. by rewrite joinWith_merge.
Qed.

Section Digest.
Import Sha256.

Lemma round_length w st i : length (round w st i) = length st.
Proof.
  unfold round.
  destruct st as [|a [|b [|c [|d [|e [|f [|g [|h [|x st]]]]]]]]]; reflexivity.
Qed.

Lemma rounds_length w (l : list nat) :
  forall st, length (fold_left (round w) l st) = length st.
Proof.
  induction l as [|i l IH]; intros st; [reflexivity|].
  cbn [fold_left]. by rewrite IH, round_length.
Qed.

Lemma compress_length h block : length (compress h block) = length h.
Proof.
  unfold compress. rewrite length_map, length_zip_with, rounds_length. lia.
Qed.

Lemma digest_length blocks :
  forall h, length (fold_left compress blocks h) = length h.
Proof.
  induction blocks as [|block blocks IH]; intros h; [reflexivity|].
  cbn [fold_left]. by rewrite IH, compress_length.
Qed.

Lemma list_ascii_append a b :
  list_ascii_of_string (a +:+ b)
  = list_ascii_of_string a ++ list_ascii_of_string b.
Proof.
  induction a as [|x a IH]; [reflexivity|].
  rewrite append_String. cbn [list_ascii_of_string app]. by rewrite IH.
Qed.

Lemma hexDigit_lower d :
  0 <= d < 16 ->
  hexDigit d ∈ list_ascii_of_string "0123456789abcdef".
Proof.
  intros Hd.
  assert (d = 0 \/ d = 1 \/ d = 2 \/ d = 3 \/ d = 4 \/ d = 5 \/ d = 6 \/ d = 7
          \/ d = 8 \/ d = 9 \/ d = 10 \/ d = 11 \/ d = 12 \/ d = 13 \/ d = 14
          \/ d = 15) as Hcases by lia.
  repeat (destruct Hcases as [->|Hcases];
          [apply list_elem_of_In; vm_compute; tauto|]).
  subst d. apply list_elem_of_In. vm_compute. tauto.
Qed.

Lemma hexOfWord_digits x :
  length (list_ascii_of_string (hexOfWord x)) = 8%nat
  /\ Forall (fun c => c ∈ list_ascii_of_string "0123456789abcdef")
       (list_ascii_of_string (hexOfWord x)).
Proof.
  unfold hexOfWord. rewrite list_ascii_of_string_of_list_ascii.
  split; [by rewrite length_map|].
  apply Forall_map, Forall_forall. intros i _. cbn beta.
  apply hexDigit_lower. apply Z.mod_pos_bound. lia.
Qed.

Lemma hex_fold_digits (words : list Z) :
  forall acc,
    length (list_ascii_of_string
              (fold_left (fun acc x => acc +:+ hexOfWord x) words acc))
    = (length (list_ascii_of_string acc) + 8 * length words)%nat
    /\ (Forall (fun c => c ∈ list_ascii_of_string "0123456789abcdef")
          (list_ascii_of_string acc) ->
        Forall (fun c => c ∈ list_ascii_of_string "0123456789abcdef")
          (list_ascii_of_string
             (fold_left (fun acc x => acc +:+ hexOfWord x) words acc))).
Proof.
  induction words as [|x words IH]; intros acc; cbn [fold_left length].
  - split; [lia | done].
  - destruct (IH (acc +:+ hexOfWord x)) as (Hlen & Hall).
    destruct (hexOfWord_digits x) as (Hlen8 & Hhex).
    rewrite list_ascii_append, length_app, Hlen8 in Hlen.
    split; [lia|].
    intros Hacc. apply Hall. rewrite list_ascii_append.
    apply Forall_app. by split.
Qed.

Lemma sha256hex_digits s :
  length (list_ascii_of_string (sha256hex s)) = 64%nat
  /\ Forall (fun c => c ∈ list_ascii_of_string "0123456789abcdef")
       (list_ascii_of_string (sha256hex s)).
Proof.
  unfold sha256hex. cbn zeta.
  match goal with
  | |- context [fold_left _ (fold_left compress ?blocks H0) ""] =>
      destruct (hex_fold_digits (fold_left compress blocks H0) "") as (Hlen & Hall);
      rewrite digest_length in Hlen
  end.
  split; [exact Hlen | apply Hall; constructor].
Qed.

End Digest.

(** X30: the key of [generateCacheKey] is always a text of 64 characters,
    each of them one of the lower-case hexadecimal digits. *)
Theorem generateCacheKey_format parts :
  String.length (generateCacheKey parts) = 64%nat
  /\ Forall (fun c => c ∈ list_ascii_of_string "0123456789abcdef")
       (list_ascii_of_string (generateCacheKey parts)).
Proof.
  destruct (sha256hex_digits (joinWith ":" (map normalizePart parts)))
    as (Hlen & Hall).
  split; [|exact Hall].
  rewrite <- Hlen. unfold generateCacheKey.
  generalize (Sha256.sha256hex (joinWith ":" (map normalizePart parts))).
  intros s. induction s as [|c s IH]; [reflexivity|].
  cbn [String.length list_ascii_of_string length]. by rewrite IH.
Qed.

End CacheKeyProperties.
